(** * Balloono: the room simulation engine of [app.py]

    A shallow embedding of the in-memory room model of [app.py] and of the
    functions that act on it: [_cleanup_players], [_player_speed],
    [_new_balloon], [_spawn_powerup], [_spawn_banana_powerup],
    [_apply_powerup], [_advance_room], and the bodies of the [api_input] and
    [api_poll] handlers.

    Modelling conventions.
    - Python floats are idealised as exact rationals ([Q]); Python's [==] on
      numbers is [Qeq], so "the same number" is stated with [==].
    - Python ints ([score], [balloon_capacity], radii, [user_id]) are [Z].
    - A Python dict is an association list in insertion order; the entity
      dicts become records, one module per kind of entity.
    - [list.remove(v)] removes the first element that compares equal to [v].
    - [random], [uuid] and [time.monotonic] are read from an explicit
      [Entropy] source through a cursor that every draw advances.
    - The [users] table is seen through [users : Z -> bool], which tells
      whether [db.get(User, id)] finds a row; the code here never adds or
      deletes a row. An update of a row (the statistics sink) is logged as a
      [SinkCall] event instead of being performed, and is logged only when the
      row exists, as the code updates it only [if user:].
    - An uncaught exception in a handler is a reply of its own
      ([internal_server_error]) together with the state left behind. *)

From Stdlib Require Import QArith Qround ZArith List Ascii String Bool Lia Lqa.
Import ListNotations.
Open Scope Q_scope.

(* ------------------------------------------------------------------ *)
(** ** Numbers *)

Definition Qltb (a b : Q) : bool := negb (Qle_bool b a).

(** Python's two-argument [max(a, b)]: [b] if [b > a], else [a]. *)
Definition py_max (a b : Q) : Q := if Qltb a b then b else a.

(** Python's two-argument [min(a, b)]: [b] if [b < a], else [a]. *)
Definition py_min (a b : Q) : Q := if Qltb b a then b else a.

(* ------------------------------------------------------------------ *)
(** ** Constants *)

Definition GAME_WIDTH : Z := 800.
Definition GAME_HEIGHT : Z := 600.
Definition PLAYER_SPEED : Q := 250.0.
Definition BALLOON_MIN_SPEED : Q := 40.0.
Definition BALLOON_MAX_SPEED : Q := 90.0.
Definition BALLOON_RADIUS : Z := 18.
Definition BALLOON_SPAWN_BASE : Q := 0.6.
Definition BALLOON_SPAWN_PER_PLAYER : Q := 0.25.
Definition PLAYER_COOLDOWN : Q := 0.6.
Definition PLAYER_TIMEOUT : Q := 30.0.
Definition BALLOON_FUSE : Q := 2.4.
Definition BALLOON_BASE_RADIUS : Z := 70.
Definition POWERUP_SPAWN_INTERVAL : Q := 12.0.
Definition BANANA_SPAWN_INTERVAL : Q := 10.0.
Definition BANANA_READY_WINDOW : Q := 10.0.
Definition BANANA_SLOW_DURATION : Q := 3.0.

Definition COLOR_POOL : list string :=
  ["#ff5d5d"; "#ffb347"; "#f9e65c"; "#6bd4ff"; "#8b6bff"; "#6bff95"]%string.

Inductive PowerupType := speed | capacity | strength | banana.

Definition POWERUP_TYPES : list PowerupType := [speed; capacity; strength].

Definition PowerupType_eqb (a b : PowerupType) : bool :=
  match a, b with
  | speed, speed | capacity, capacity | strength, strength | banana, banana => true
  | _, _ => false
  end.

(* ------------------------------------------------------------------ *)
(** ** Dicts and lists *)

Definition dict (V : Type) := list (string * V).

Section Dict.
Context {V : Type}.

(** [d.get(k)] *)
Fixpoint dict_get (d : dict V) (k : string) : option V :=
  match d with
  | [] => None
  | (k', v) :: rest => if String.eqb k' k then Some v else dict_get rest k
  end.

(** [d[k] = v]: an existing key keeps its place, a new one goes last. *)
Fixpoint dict_set (d : dict V) (k : string) (v : V) : dict V :=
  match d with
  | [] => [(k, v)]
  | (k', v') :: rest =>
      if String.eqb k' k then (k', v) :: rest else (k', v') :: dict_set rest k v
  end.

(** [d.pop(k, None)] *)
Fixpoint dict_pop (d : dict V) (k : string) : dict V :=
  match d with
  | [] => []
  | (k', v) :: rest => if String.eqb k' k then rest else (k', v) :: dict_pop rest k
  end.

Definition dict_keys (d : dict V) : list string := map fst d.
Definition dict_values (d : dict V) : list V := map snd d.
End Dict.

(** [l.remove(a)]: drops the first element equal to [a]. *)
Fixpoint list_remove {A : Type} (eqb : A -> A -> bool) (a : A) (l : list A) : list A :=
  match l with
  | [] => []
  | h :: t => if eqb h a then t else h :: list_remove eqb a t
  end.

(* ------------------------------------------------------------------ *)
(** ** Entities *)

Module Player.
Record t := mk {
  id : string;
  user_id : Z;
  name : string;
  x : Q;
  vx : Q;
  score : Z;
  color : string;
  last_seen : Q;
  last_shot : Q;
  speed_mult : Q;
  balloon_capacity : Z;
  blast_radius : Z;
  banana_ready_until : Q;
  has_banana : bool;
  slow_until : Q
}.

Definition set_x (p : t) (v : Q) : t :=
  mk (id p) (user_id p) (name p) v (vx p) (score p) (color p) (last_seen p)
     (last_shot p) (speed_mult p) (balloon_capacity p) (blast_radius p)
     (banana_ready_until p) (has_banana p) (slow_until p).
Definition set_vx (p : t) (v : Q) : t :=
  mk (id p) (user_id p) (name p) (x p) v (score p) (color p) (last_seen p)
     (last_shot p) (speed_mult p) (balloon_capacity p) (blast_radius p)
     (banana_ready_until p) (has_banana p) (slow_until p).
Definition set_score (p : t) (v : Z) : t :=
  mk (id p) (user_id p) (name p) (x p) (vx p) v (color p) (last_seen p)
     (last_shot p) (speed_mult p) (balloon_capacity p) (blast_radius p)
     (banana_ready_until p) (has_banana p) (slow_until p).
Definition set_last_seen (p : t) (v : Q) : t :=
  mk (id p) (user_id p) (name p) (x p) (vx p) (score p) (color p) v
     (last_shot p) (speed_mult p) (balloon_capacity p) (blast_radius p)
     (banana_ready_until p) (has_banana p) (slow_until p).
Definition set_last_shot (p : t) (v : Q) : t :=
  mk (id p) (user_id p) (name p) (x p) (vx p) (score p) (color p) (last_seen p)
     v (speed_mult p) (balloon_capacity p) (blast_radius p)
     (banana_ready_until p) (has_banana p) (slow_until p).
Definition set_speed_mult (p : t) (v : Q) : t :=
  mk (id p) (user_id p) (name p) (x p) (vx p) (score p) (color p) (last_seen p)
     (last_shot p) v (balloon_capacity p) (blast_radius p)
     (banana_ready_until p) (has_banana p) (slow_until p).
Definition set_balloon_capacity (p : t) (v : Z) : t :=
  mk (id p) (user_id p) (name p) (x p) (vx p) (score p) (color p) (last_seen p)
     (last_shot p) (speed_mult p) v (blast_radius p)
     (banana_ready_until p) (has_banana p) (slow_until p).
Definition set_blast_radius (p : t) (v : Z) : t :=
  mk (id p) (user_id p) (name p) (x p) (vx p) (score p) (color p) (last_seen p)
     (last_shot p) (speed_mult p) (balloon_capacity p) v
     (banana_ready_until p) (has_banana p) (slow_until p).
Definition set_banana_ready_until (p : t) (v : Q) : t :=
  mk (id p) (user_id p) (name p) (x p) (vx p) (score p) (color p) (last_seen p)
     (last_shot p) (speed_mult p) (balloon_capacity p) (blast_radius p)
     v (has_banana p) (slow_until p).
Definition set_has_banana (p : t) (v : bool) : t :=
  mk (id p) (user_id p) (name p) (x p) (vx p) (score p) (color p) (last_seen p)
     (last_shot p) (speed_mult p) (balloon_capacity p) (blast_radius p)
     (banana_ready_until p) v (slow_until p).
Definition set_slow_until (p : t) (v : Q) : t :=
  mk (id p) (user_id p) (name p) (x p) (vx p) (score p) (color p) (last_seen p)
     (last_shot p) (speed_mult p) (balloon_capacity p) (blast_radius p)
     (banana_ready_until p) (has_banana p) v.
End Player.

(** A falling balloon of [room["balloons"]]. *)
Module Balloon.
Record t := mk {
  id : string;
  x : Q;
  y : Q;
  vy : Q;
  radius : Z;
  color : string
}.

Definition set_y (b : t) (v : Q) : t :=
  mk (id b) (x b) v (vy b) (radius b) (color b).

(** Python's [==] on two balloon dicts. *)
Definition eqb (a b : t) : bool :=
  String.eqb (id a) (id b) && Qeq_bool (x a) (x b) && Qeq_bool (y a) (y b)
  && Qeq_bool (vy a) (vy b) && Z.eqb (radius a) (radius b)
  && String.eqb (color a) (color b).
End Balloon.

(** A placed balloon of [room["placed_balloons"]]. *)
Module Placed.
Record t := mk {
  id : string;
  player_id : string;
  x : Q;
  y : Q;
  placed_at : Q;
  fuse : Q;
  radius : Z
}.

Definition eqb (a b : t) : bool :=
  String.eqb (id a) (id b) && String.eqb (player_id a) (player_id b)
  && Qeq_bool (x a) (x b) && Qeq_bool (y a) (y b)
  && Qeq_bool (placed_at a) (placed_at b) && Qeq_bool (fuse a) (fuse b)
  && Z.eqb (radius a) (radius b).
End Placed.

Module Explosion.
Record t := mk {
  id : string;
  x : Q;
  y : Q;
  radius : Z;
  expires_at : Q;
  player_id : string
}.

Definition eqb (a b : t) : bool :=
  String.eqb (id a) (id b) && Qeq_bool (x a) (x b) && Qeq_bool (y a) (y b)
  && Z.eqb (radius a) (radius b) && Qeq_bool (expires_at a) (expires_at b)
  && String.eqb (player_id a) (player_id b).
End Explosion.

Module Powerup.
Record t := mk {
  id : string;
  type : PowerupType;
  x : Q;
  y : Q
}.

Definition eqb (a b : t) : bool :=
  String.eqb (id a) (id b) && PowerupType_eqb (type a) (type b)
  && Qeq_bool (x a) (x b) && Qeq_bool (y a) (y b).
End Powerup.

(** A banana trap of [room["bananas"]]. *)
Module Banana.
Record t := mk {
  id : string;
  player_id : string;
  x : Q;
  y : Q
}.

Definition eqb (a b : t) : bool :=
  String.eqb (id a) (id b) && String.eqb (player_id a) (player_id b)
  && Qeq_bool (x a) (x b) && Qeq_bool (y a) (y b).
End Banana.

Module Room.
Record t := mk {
  id : string;
  players : dict Player.t;
  balloons : list Balloon.t;
  placed_balloons : list Placed.t;
  explosions : list Explosion.t;
  powerups : list Powerup.t;
  bananas : list Banana.t;
  last_update : Q;
  spawn_accum : Q;
  powerup_timer : Q;
  banana_timer : Q
}.

Definition set_players (r : t) (v : dict Player.t) : t :=
  mk (id r) v (balloons r) (placed_balloons r) (explosions r) (powerups r)
     (bananas r) (last_update r) (spawn_accum r) (powerup_timer r) (banana_timer r).
Definition set_balloons (r : t) (v : list Balloon.t) : t :=
  mk (id r) (players r) v (placed_balloons r) (explosions r) (powerups r)
     (bananas r) (last_update r) (spawn_accum r) (powerup_timer r) (banana_timer r).
Definition set_placed_balloons (r : t) (v : list Placed.t) : t :=
  mk (id r) (players r) (balloons r) v (explosions r) (powerups r)
     (bananas r) (last_update r) (spawn_accum r) (powerup_timer r) (banana_timer r).
Definition set_explosions (r : t) (v : list Explosion.t) : t :=
  mk (id r) (players r) (balloons r) (placed_balloons r) v (powerups r)
     (bananas r) (last_update r) (spawn_accum r) (powerup_timer r) (banana_timer r).
Definition set_powerups (r : t) (v : list Powerup.t) : t :=
  mk (id r) (players r) (balloons r) (placed_balloons r) (explosions r) v
     (bananas r) (last_update r) (spawn_accum r) (powerup_timer r) (banana_timer r).
Definition set_bananas (r : t) (v : list Banana.t) : t :=
  mk (id r) (players r) (balloons r) (placed_balloons r) (explosions r) (powerups r)
     v (last_update r) (spawn_accum r) (powerup_timer r) (banana_timer r).
Definition set_last_update (r : t) (v : Q) : t :=
  mk (id r) (players r) (balloons r) (placed_balloons r) (explosions r) (powerups r)
     (bananas r) v (spawn_accum r) (powerup_timer r) (banana_timer r).
Definition set_spawn_accum (r : t) (v : Q) : t :=
  mk (id r) (players r) (balloons r) (placed_balloons r) (explosions r) (powerups r)
     (bananas r) (last_update r) v (powerup_timer r) (banana_timer r).
Definition set_powerup_timer (r : t) (v : Q) : t :=
  mk (id r) (players r) (balloons r) (placed_balloons r) (explosions r) (powerups r)
     (bananas r) (last_update r) (spawn_accum r) v (banana_timer r).
Definition set_banana_timer (r : t) (v : Q) : t :=
  mk (id r) (players r) (balloons r) (placed_balloons r) (explosions r) (powerups r)
     (bananas r) (last_update r) (spawn_accum r) (powerup_timer r) v.
End Room.

(* ------------------------------------------------------------------ *)
(** ** The outside world *)

(** What the program reads from outside: the random generator, the uuid
    generator and the monotonic clock.  Each is a sequence of results; the
    [k]-th read of the program, whatever its kind, takes the [k]-th entry. *)
Record Entropy := {
  random_random : nat -> Q;     (* random.random() *)
  random_index : nat -> nat;    (* the index random.choice draws *)
  uuid4_hex : nat -> string;    (* uuid.uuid4().hex *)
  time_monotonic : nat -> Q     (* time.monotonic() *)
}.

(** The three updates of the [User] table, recorded instead of executed. *)
Inductive SinkCall :=
| total_score_incr (user_id : Z)
| powerups_collected_incr (user_id : Z)
| balloons_placed_incr (user_id : Z).

(** A room under simulation, with the cursor into the entropy source and the
    sink calls issued so far. *)
Record Sim := {
  room : Room.t;
  tick : nat;
  sink : list SinkCall
}.

Definition on_room (f : Room.t -> Room.t) (s : Sim) : Sim :=
  {| room := f (room s); tick := tick s; sink := sink s |}.

Section Simulation.
(** [users id]: [db.get(User, id)] finds a row. *)
Variable users : Z -> bool.
Variable env : Entropy.

(** [user = db.get(User, user_id); if user: <update>; db.commit()], where
    [call] names the update. *)
Definition db_update (call : Z -> SinkCall) (user_id : Z) (sink : list SinkCall)
  : list SinkCall :=
  if users user_id then sink ++ [call user_id] else sink.

Definition random_uniform (k : nat) (a b : Q) : Q :=
  a + (b - a) * random_random env k.

Definition random_choice {A : Type} (k : nat) (seq : list A) (d : A) : A :=
  nth (random_index env k mod List.length seq) seq d.

Definition uuid_prefix (k n : nat) : string := substring 0 n (uuid4_hex env k).

Definition _now (k : nat) : Q := time_monotonic env k.

Definition _new_balloon (k : nat) : Balloon.t * nat :=
  (Balloon.mk
     (uuid_prefix k 8)
     (random_uniform (1 + k) 40 (inject_Z (GAME_WIDTH - 40)))
     (inject_Z (GAME_HEIGHT + BALLOON_RADIUS) + random_uniform (2 + k) 0 80)
     (random_uniform (3 + k) BALLOON_MIN_SPEED BALLOON_MAX_SPEED)
     BALLOON_RADIUS
     (random_choice (4 + k) COLOR_POOL EmptyString),
   (5 + k)%nat).

(** The room and the cursor after the clock read. *)
Definition _new_room (k : nat) (room_id : string) : Room.t * nat :=
  (Room.mk room_id [] [] [] [] [] [] (_now k) 0.0 0.0 0.0, S k).

(** [user] is given by its [id] and [username]. Returns the new player id. *)
Definition _add_player (s : Sim) (user_id : Z) (username : string) : string * Sim :=
  let k := tick s in
  let player_id := uuid_prefix k 10 in
  let player :=
    Player.mk player_id user_id username (inject_Z GAME_WIDTH / 2) 0.0 0
      (random_choice (1 + k) COLOR_POOL EmptyString) (_now (2 + k)) 0.0 1.0 1
      BALLOON_BASE_RADIUS 0.0 false 0.0 in
  (player_id,
   {| room := Room.set_players (room s) (dict_set (Room.players (room s)) player_id player);
      tick := (3 + k)%nat;
      sink := sink s |}).

Definition _cleanup_players (room : Room.t) (now : Q) : Room.t :=
  let stale :=
    map fst
      (filter (fun kp => Qltb PLAYER_TIMEOUT (now - Player.last_seen (snd kp)))
              (Room.players room)) in
  Room.set_players room (fold_left dict_pop stale (Room.players room)).

Definition _player_speed (player : Player.t) (now : Q) : Q :=
  let slow_mult := if Qltb now (Player.slow_until player) then 0.45 else 1.0 in
  PLAYER_SPEED * Player.speed_mult player * slow_mult.

Definition _spawn_powerup (s : Sim) : Sim :=
  let k := tick s in
  let powerup_type := random_choice k POWERUP_TYPES speed in
  let powerup :=
    Powerup.mk (uuid_prefix (1 + k) 8) powerup_type
      (random_uniform (2 + k) 50 (inject_Z (GAME_WIDTH - 50)))
      (inject_Z (GAME_HEIGHT - 55)) in
  {| room := Room.set_powerups (room s) (Room.powerups (room s) ++ [powerup]);
     tick := (3 + k)%nat;
     sink := sink s |}.

Definition _spawn_banana_powerup (s : Sim) : Sim :=
  let k := tick s in
  let powerup :=
    Powerup.mk (uuid_prefix k 8) banana
      (random_uniform (1 + k) 50 (inject_Z (GAME_WIDTH - 50)))
      (inject_Z (GAME_HEIGHT - 55)) in
  {| room := Room.set_powerups (room s) (Room.powerups (room s) ++ [powerup]);
     tick := (2 + k)%nat;
     sink := sink s |}.

(** Returns the player after the effect and the cursor after the clock read
    (only the banana branch reads the clock). *)
Definition _apply_powerup (k : nat) (player : Player.t) (powerup_type : PowerupType)
  : Player.t * nat :=
  match powerup_type with
  | speed => (Player.set_speed_mult player (Player.speed_mult player + 0.15), k)
  | capacity =>
      (Player.set_balloon_capacity player (Player.balloon_capacity player + 1)%Z, k)
  | strength => (Player.set_blast_radius player (Player.blast_radius player + 12)%Z, k)
  | banana =>
      (Player.set_banana_ready_until (Player.set_has_banana player true)
         (_now k + BANANA_READY_WINDOW), S k)
  end.

(** *** [_advance_room], stage by stage *)

(** [dt = max(0.0, min(0.05, now - room["last_update"]))] *)
Definition elapsed (room : Room.t) (now : Q) : Q :=
  py_max 0.0 (py_min 0.05 (now - Room.last_update room)).

(** Body of the loop over [room["players"].values()]. *)
Definition advance_player (now dt : Q) (player : Player.t) : Player.t :=
  let player :=
    Player.set_x player
      (Player.x player + Player.vx player * _player_speed player now * dt) in
  let player :=
    Player.set_x player
      (py_max 30 (py_min (inject_Z (GAME_WIDTH - 30)) (Player.x player))) in
  if Player.has_banana player && Qltb (Player.banana_ready_until player) now
  then Player.set_has_banana player false
  else player.

Definition advance_players (now dt : Q) (players : dict Player.t) : dict Player.t :=
  map (fun kp => (fst kp, advance_player now dt (snd kp))) players.

(** The loop over [list(room["balloons"])]: each balloon is moved in place and
    then taken out of the list if it is above the top. *)
Fixpoint advance_balloons (dt : Q) (balloons : list Balloon.t) : list Balloon.t :=
  match balloons with
  | [] => []
  | balloon :: rest =>
      let balloon :=
        Balloon.set_y balloon (Balloon.y balloon - Balloon.vy balloon * dt) in
      if Qltb (Balloon.y balloon) (inject_Z (- BALLOON_RADIUS))
      then advance_balloons dt rest
      else balloon :: advance_balloons dt rest
  end.

(** [while room["spawn_accum"] >= 1.0: ...], at most [fuel] rounds. *)
Fixpoint spawn_loop (fuel : nat) (s : Sim) : Sim :=
  match fuel with
  | O => s
  | S fuel' =>
      if Qle_bool 1.0 (Room.spawn_accum (room s)) then
        let (balloon, k) := _new_balloon (tick s) in
        let r := Room.set_balloons (room s) (Room.balloons (room s) ++ [balloon]) in
        let r := Room.set_spawn_accum r (Room.spawn_accum r - 1.0) in
        spawn_loop fuel' {| room := r; tick := k; sink := sink s |}
      else s
  end.

(** The number of rounds the loop makes from an accumulator [a]. *)
Definition spawn_rounds (a : Q) : nat := Z.to_nat (Qfloor a).

Definition spawn_balloons (dt : Q) (s : Sim) : Sim :=
  let r := room s in
  let r :=
    Room.set_spawn_accum r
      (Room.spawn_accum r
       + dt * (BALLOON_SPAWN_BASE
               + BALLOON_SPAWN_PER_PLAYER
                 * inject_Z (Z.of_nat (List.length (Room.players r))))) in
  let s := {| room := r; tick := tick s; sink := sink s |} in
  spawn_loop (spawn_rounds (Room.spawn_accum r)) s.

Definition tick_powerup_timer (dt : Q) (s : Sim) : Sim :=
  let s := on_room (fun r => Room.set_powerup_timer r (Room.powerup_timer r + dt)) s in
  if Qle_bool POWERUP_SPAWN_INTERVAL (Room.powerup_timer (room s))
  then on_room (fun r => Room.set_powerup_timer r 0.0) (_spawn_powerup s)
  else s.

Definition tick_banana_timer (dt : Q) (s : Sim) : Sim :=
  let s := on_room (fun r => Room.set_banana_timer r (Room.banana_timer r + dt)) s in
  if Qle_bool BANANA_SPAWN_INTERVAL (Room.banana_timer (room s))
  then on_room (fun r => Room.set_banana_timer r 0.0) (_spawn_banana_powerup s)
  else s.

(** Body of the loop over [list(room["placed_balloons"])]. *)
Definition fuse_step (now : Q) (s : Sim) (placed : Placed.t) : Sim :=
  if Qle_bool (Placed.fuse placed) (now - Placed.placed_at placed) then
    let r := room s in
    let r :=
      Room.set_placed_balloons r
        (list_remove Placed.eqb placed (Room.placed_balloons r)) in
    let explosion :=
      Explosion.mk (uuid_prefix (tick s) 8) (Placed.x placed) (Placed.y placed)
        (Placed.radius placed) (now + 0.4) (Placed.player_id placed) in
    let r := Room.set_explosions r (Room.explosions r ++ [explosion]) in
    {| room := r; tick := S (tick s); sink := sink s |}
  else s.

Definition expire_fuses (now : Q) (s : Sim) : Sim :=
  fold_left (fuse_step now) (Room.placed_balloons (room s)) s.

(** The overlap test of an explosion and a falling balloon. *)
Definition hits (explosion : Explosion.t) (balloon : Balloon.t) : bool :=
  let dx := Explosion.x explosion - Balloon.x balloon in
  let dy := Explosion.y explosion - Balloon.y balloon in
  Qle_bool (dx * dx + dy * dy)
    (inject_Z ((Explosion.radius explosion + Balloon.radius balloon) ^ 2)).

(** Body of the inner loop over [list(room["balloons"])]. *)
Definition blast (explosion : Explosion.t) (s : Sim) (balloon : Balloon.t) : Sim :=
  if hits explosion balloon then
    let r := room s in
    let r := Room.set_balloons r (list_remove Balloon.eqb balloon (Room.balloons r)) in
    match dict_get (Room.players r) (Explosion.player_id explosion) with
    | Some shooter =>
        let shooter := Player.set_score shooter (Player.score shooter + 1)%Z in
        let r :=
          Room.set_players r
            (dict_set (Room.players r) (Explosion.player_id explosion) shooter) in
        {| room := r; tick := tick s;
           sink := db_update total_score_incr (Player.user_id shooter) (sink s) |}
    | None => {| room := r; tick := tick s; sink := sink s |}
    end
  else s.

(** Body of the loop over [list(room["explosions"])]. *)
Definition explosion_step (now : Q) (s : Sim) (explosion : Explosion.t) : Sim :=
  if Qltb (Explosion.expires_at explosion) now then
    on_room
      (fun r => Room.set_explosions r
                  (list_remove Explosion.eqb explosion (Room.explosions r))) s
  else fold_left (blast explosion) (Room.balloons (room s)) s.

Definition resolve_explosions (now : Q) (s : Sim) : Sim :=
  fold_left (explosion_step now) (Room.explosions (room s)) s.

(** The pickup test of a power-up and a player. *)
Definition powerup_in_reach (powerup : Powerup.t) (player : Player.t) : bool :=
  let dx := Powerup.x powerup - Player.x player in
  let dy := Powerup.y powerup - inject_Z (GAME_HEIGHT - 34) in
  Qle_bool (dx * dx + dy * dy) (inject_Z (26 ^ 2)).

(** The inner loop over [room["players"].values()] for one power-up: [None]
    when the loop ends without [break]; otherwise the players after the
    effect, the player (as found) who took it, and the cursor. *)
Fixpoint powerup_scan (k : nat) (powerup : Powerup.t) (players : dict Player.t)
  : option (dict Player.t * Player.t * nat) :=
  match players with
  | [] => None
  | (key, player) :: rest =>
      if powerup_in_reach powerup player then
        let (player', k') := _apply_powerup k player (Powerup.type powerup) in
        Some ((key, player') :: rest, player, k')
      else
        match powerup_scan k powerup rest with
        | Some (rest', who, k') => Some ((key, player) :: rest', who, k')
        | None => None
        end
  end.

(** Body of the loop over [list(room["powerups"])]. *)
Definition powerup_step (s : Sim) (powerup : Powerup.t) : Sim :=
  match powerup_scan (tick s) powerup (Room.players (room s)) with
  | Some (players', who, k') =>
      let r := room s in
      let r := Room.set_powerups r (list_remove Powerup.eqb powerup (Room.powerups r)) in
      let r := Room.set_players r players' in
      {| room := r; tick := k';
         sink := db_update powerups_collected_incr (Player.user_id who) (sink s) |}
  | None => s
  end.

Definition collect_powerups (s : Sim) : Sim :=
  fold_left powerup_step (Room.powerups (room s)) s.

(** The pickup test of a banana and a player. *)
Definition banana_in_reach (banana : Banana.t) (player : Player.t) : bool :=
  let dx := Banana.x banana - Player.x player in
  let dy := Banana.y banana - inject_Z (GAME_HEIGHT - 34) in
  Qle_bool (dx * dx + dy * dy) (inject_Z (22 ^ 2)).

(** The inner loop over [room["players"].values()] for one banana. *)
Fixpoint banana_scan (now : Q) (banana : Banana.t) (players : dict Player.t)
  : option (dict Player.t) :=
  match players with
  | [] => None
  | (key, player) :: rest =>
      if String.eqb (Player.id player) (Banana.player_id banana) then
        option_map (cons (key, player)) (banana_scan now banana rest)
      else if banana_in_reach banana player then
        Some ((key,
               Player.set_slow_until player
                 (py_max (Player.slow_until player) (now + BANANA_SLOW_DURATION)))
              :: rest)
      else option_map (cons (key, player)) (banana_scan now banana rest)
  end.

(** Body of the loop over [list(room["bananas"])]. *)
Definition banana_step (now : Q) (s : Sim) (banana : Banana.t) : Sim :=
  match banana_scan now banana (Room.players (room s)) with
  | Some players' =>
      on_room
        (fun r => Room.set_bananas (Room.set_players r players')
                    (list_remove Banana.eqb banana (Room.bananas r))) s
  | None => s
  end.

Definition collect_bananas (now : Q) (s : Sim) : Sim :=
  fold_left (banana_step now) (Room.bananas (room s)) s.

Definition _advance_room (s : Sim) (now : Q) : Sim :=
  let dt := elapsed (room s) now in
  let s := on_room (fun r => Room.set_last_update r now) s in
  let s := on_room (fun r => Room.set_players r (advance_players now dt (Room.players r))) s in
  let s := on_room (fun r => Room.set_balloons r (advance_balloons dt (Room.balloons r))) s in
  let s := spawn_balloons dt s in
  let s := tick_powerup_timer dt s in
  let s := tick_banana_timer dt s in
  let s := expire_fuses now s in
  let s := resolve_explosions now s in
  let s := collect_powerups s in
  collect_bananas now s.

End Simulation.

(* ------------------------------------------------------------------ *)
(** ** The request handlers *)

(** The process state the handlers work on: the [ROOMS] registry, the cursor
    into the entropy source and the sink calls issued so far. *)
Record Server := {
  ROOMS : dict Room.t;
  reads : nat;
  calls : list SinkCall
}.

(** What [_room_state] puts in the reply of a poll. *)
Record RoomState := {
  roomId : string;
  width : Z;
  height : Z;
  players : list Player.t;
  balloons : list Balloon.t;
  placedBalloons : list Placed.t;
  explosions : list Explosion.t;
  powerups : list Powerup.t;
  bananas : list Banana.t;
  serverTime : Q
}.

Inductive Response :=
| ok_true                       (* {"ok": True} *)
| state_reply (state : RoomState)
| room_not_found                (* 404 *)
| player_not_found              (* 404 *)
| internal_server_error.        (* 500: an exception left the handler *)

(** How a critical section ends: it runs to its end, or an exception leaves
    it; either way with the state as it is at that point. *)
Inductive Outcome :=
| returned (s : Sim)
| raised (s : Sim).

Section Handlers.
Variable users : Z -> bool.
Variable env : Entropy.

Definition _room_state (room : Room.t) (k : nat) : RoomState :=
  {| roomId := Room.id room;
     width := GAME_WIDTH;
     height := GAME_HEIGHT;
     players := dict_values (Room.players room);
     balloons := Room.balloons room;
     placedBalloons := Room.placed_balloons room;
     explosions := Room.explosions room;
     powerups := Room.powerups room;
     bananas := Room.bananas room;
     serverTime := _now env k |}.

(** The balloon part of [api_input], on the player already looked up. *)
Definition place_balloon_part (now : Q) (player_id : string)
    (place_balloon : bool) (st : Sim * Player.t) : Sim * Player.t :=
  let (s, player) := st in
  if place_balloon && Qle_bool PLAYER_COOLDOWN (now - Player.last_shot player) then
    let active :=
      filter (fun b => String.eqb (Placed.player_id b) player_id)
             (Room.placed_balloons (room s)) in
    if (Z.of_nat (List.length active) <? Player.balloon_capacity player)%Z then
      let player := Player.set_last_shot player now in
      let placed :=
        Placed.mk (uuid_prefix env (tick s) 8) player_id (Player.x player)
          (inject_Z (GAME_HEIGHT - 45)) now BALLOON_FUSE (Player.blast_radius player) in
      let r :=
        Room.set_placed_balloons (room s) (Room.placed_balloons (room s) ++ [placed]) in
      ({| room := r; tick := S (tick s);
          sink := db_update users balloons_placed_incr (Player.user_id player) (sink s) |},
       player)
    else (s, player)
  else (s, player).

(** The banana part of [api_input]. *)
Definition place_banana_part (now : Q) (player_id : string)
    (place_banana : bool) (st : Sim * Player.t) : Sim * Player.t :=
  let (s, player) := st in
  if place_banana && Player.has_banana player
     && Qle_bool now (Player.banana_ready_until player) then
    let b :=
      Banana.mk (uuid_prefix env (tick s) 8) player_id (Player.x player)
        (inject_Z (GAME_HEIGHT - 45)) in
    let r := Room.set_bananas (room s) (Room.bananas (room s) ++ [b]) in
    ({| room := r; tick := S (tick s); sink := sink s |},
     Player.set_has_banana player false)
  else (s, player).

(** The critical section of [api_input] once room and player are found. The
    player dict is mutated in place, so it is written back under its key.
    [move] is the result of [float(move)] on the request's value: [Some] of
    the number, or [None] when the conversion raises ([ValueError],
    [TypeError], [OverflowError]), which happens after [last_seen] has been
    written and before anything else is. *)
Definition input_room (s : Sim) (player_id : string) (player : Player.t)
    (move : option Q) (place_balloon place_banana : bool) : Outcome :=
  let now := _now env (tick s) in
  let s := {| room := room s; tick := S (tick s); sink := sink s |} in
  let player := Player.set_last_seen player now in
  match move with
  | None =>
      raised
        (on_room
           (fun r => Room.set_players r (dict_set (Room.players r) player_id player)) s)
  | Some move =>
      let player := Player.set_vx player (py_max (-1.0) (py_min 1.0 move)) in
      let st := place_balloon_part now player_id place_balloon (s, player) in
      let (s, player) := place_banana_part now player_id place_banana st in
      returned
        (on_room
           (fun r => Room.set_players r (dict_set (Room.players r) player_id player)) s)
  end.

Definition api_input (srv : Server) (room_id player_id : string) (move : option Q)
    (place_balloon place_banana : bool) : Response * Server :=
  match dict_get (ROOMS srv) room_id with
  | None => (room_not_found, srv)
  | Some room0 =>
      match dict_get (Room.players room0) player_id with
      | None => (player_not_found, srv)
      | Some player =>
          match
            input_room {| room := room0; tick := reads srv; sink := calls srv |}
              player_id player move place_balloon place_banana
          with
          | returned s =>
              (ok_true,
               {| ROOMS := dict_set (ROOMS srv) room_id (room s);
                  reads := tick s; calls := sink s |})
          | raised s =>
              (internal_server_error,
               {| ROOMS := dict_set (ROOMS srv) room_id (room s);
                  reads := tick s; calls := sink s |})
          end
      end
  end.

(** The critical section of [api_poll] once room and player are found. *)
Definition poll_room (s : Sim) (player_id : string) (player : Player.t) : Sim * Q :=
  let now := _now env (tick s) in
  let s := {| room := room s; tick := S (tick s); sink := sink s |} in
  let s :=
    on_room
      (fun r => Room.set_players r
                  (dict_set (Room.players r) player_id (Player.set_last_seen player now)))
      s in
  let s := on_room (fun r => _cleanup_players r now) s in
  (_advance_room users env s now, now).

Definition api_poll (srv : Server) (room_id player_id : string) : Response * Server :=
  match dict_get (ROOMS srv) room_id with
  | None => (room_not_found, srv)
  | Some room0 =>
      match dict_get (Room.players room0) player_id with
      | None => (player_not_found, srv)
      | Some player =>
          let (s, _) :=
            poll_room {| room := room0; tick := reads srv; sink := calls srv |}
              player_id player in
          (state_reply (_room_state (room s) (tick s)),
           {| ROOMS := dict_set (ROOMS srv) room_id (room s);
              reads := S (tick s); calls := sink s |})
      end
  end.

End Handlers.

(* ------------------------------------------------------------------ *)
(** ** Joining a room *)

(** A row of the [users] table, without its creation date. *)
Module User.
Record t := mk {
  id : Z;
  username : string;
  password_hash : string;
  total_score : Z;
  games_played : Z;
  balloons_placed : Z;
  powerups_collected : Z
}.

Definition set_games_played (u : t) (v : Z) : t :=
  mk (id u) (username u) (password_hash u) (total_score u) v (balloons_placed u)
     (powerups_collected u).
End User.

Inductive JoinResponse :=
| unauthorized                                         (* 401 *)
| joined (playerId : string) (state : RoomState).

Section Join.
Variable env : Entropy.

(** [api_join] from the point where the session's user has been looked up
    ([None]: nobody is logged in) and the room id has been read from the
    request. Returns the reply, the process state and the user row as merged
    into the database. *)
Definition api_join (srv : Server) (user : option User.t) (room_id : string)
  : JoinResponse * Server * option User.t :=
  match user with
  | None => (unauthorized, srv, None)
  | Some user =>
      let (room0, k) :=
        match dict_get (ROOMS srv) room_id with
        | Some room0 => (room0, reads srv)
        | None => _new_room env (reads srv) room_id
        end in
      let user := User.set_games_played user (User.games_played user + 1)%Z in
      let (player_id, s) :=
        _add_player env {| room := room0; tick := k; sink := calls srv |}
          (User.id user) (User.username user) in
      let players1 :=
        match dict_get (Room.players (room s)) player_id with
        | Some player =>
            dict_set (Room.players (room s)) player_id
              (Player.set_last_seen player (_now env (tick s)))
        | None => Room.players (room s)
        end in
      let room1 := Room.set_players (room s) players1 in
      (joined player_id (_room_state env room1 (S (tick s))),
       {| ROOMS := dict_set (ROOMS srv) room_id room1;
          reads := S (S (tick s));
          calls := sink s |},
       Some user)
  end.

End Join.

(* ------------------------------------------------------------------ *)
(** ** The URL prefix and the root route *)

(** [s.rstrip("/")] *)
Fixpoint rstrip_slash (s : string) : string :=
  match s with
  | EmptyString => EmptyString
  | String c rest =>
      match rstrip_slash rest with
      | EmptyString => if Ascii.eqb c "/"%char then EmptyString else String c EmptyString
      | kept => String c kept
      end
  end.

(** The module-level computation of [URL_PREFIX] from the environment variable
    of that name ([None]: not set). *)
Definition URL_PREFIX (environ : option string) : string :=
  let RAW_URL_PREFIX :=
    match environ with Some v => v | None => "/balloono"%string end in
  let URL_PREFIX := rstrip_slash RAW_URL_PREFIX in
  if negb (String.eqb URL_PREFIX EmptyString) && negb (String.prefix "/"%string URL_PREFIX)
  then String "/"%char URL_PREFIX
  else URL_PREFIX.

(** What the route [/] answers: a redirect to a location, or the index page. *)
Inductive RootReply :=
| redirect_to (location : string)
| index_page.

Definition root_redirect (environ : option string) : RootReply :=
  let BLUEPRINT_PREFIX := URL_PREFIX environ in
  if negb (String.eqb BLUEPRINT_PREFIX EmptyString)
  then redirect_to (String.append BLUEPRINT_PREFIX "/"%string)
  else index_page.

(* ------------------------------------------------------------------ *)
(** ** The upload script *)

(** [should_skip] of [scripts/deploy_pythonanywhere.py], on the parts of a
    relative path. *)
Definition should_skip (parts : list string) : bool :=
  if existsb (fun part => String.prefix "."%string part) parts then true
  else if existsb (String.eqb "node_modules"%string) parts
          || existsb (String.eqb "__pycache__"%string) parts then true
  else if existsb (String.eqb "scripts"%string) parts then true
  else false.

(* ------------------------------------------------------------------ *)
(** ** Vocabulary of the properties *)

(** The part of a player that explosions and pickups never write. *)
Definition steady (p : Player.t) : string * Z * string * Q * Q * string * Q * Q :=
  (Player.id p, Player.user_id p, Player.name p, Player.x p, Player.vx p,
   Player.color p, Player.last_seen p, Player.last_shot p).

Definition steady_players (d : dict Player.t) :=
  map (fun kp => (fst kp, steady (snd kp))) d.

(** The clock and the three accumulators of a room. *)
Definition timers (r : Room.t) : Q * Q * Q * Q :=
  (Room.last_update r, Room.spawn_accum r, Room.powerup_timer r, Room.banana_timer r).

(** Every player stands inside the arena margin. *)
Definition in_arena (p : Player.t) : Prop :=
  30 <= Player.x p /\ Player.x p <= inject_Z (GAME_WIDTH - 30).

(** [thinned R l l']: [l'] is [l] with some elements taken out and each
    remaining one replaced by an [R]-related one; nothing is added. *)
Inductive thinned {A : Type} (R : A -> A -> Prop) : list A -> list A -> Prop :=
| thinned_nil : thinned R [] []
| thinned_drop a l l' : thinned R l l' -> thinned R (a :: l) l'
| thinned_keep a a' l l' : R a a' -> thinned R l l' -> thinned R (a :: l) (a' :: l').

(** The same balloon at the same place. *)
Definition same_balloon (a b : Balloon.t) : Prop :=
  Balloon.id a = Balloon.id b /\ Balloon.x a == Balloon.x b
  /\ Balloon.y a == Balloon.y b /\ Balloon.vy a == Balloon.vy b
  /\ Balloon.radius a = Balloon.radius b /\ Balloon.color a = Balloon.color b.

(** The same player key at the same place. *)
Definition same_spot (a b : string * Player.t) : Prop :=
  fst a = fst b /\ Player.x (snd a) == Player.x (snd b).

(** Two entropy sources give the same results to the reads numbered
    [lo], ..., [hi - 1]. *)
Definition agree (e1 e2 : Entropy) (lo hi : nat) : Prop :=
  forall k, (lo <= k < hi)%nat ->
    random_random e1 k = random_random e2 k
    /\ random_index e1 k = random_index e2 k
    /\ uuid4_hex e1 k = uuid4_hex e2 k
    /\ time_monotonic e1 k = time_monotonic e2 k.

(** Some player is within reach of the power-up. *)
Definition powerup_taken (players : dict Player.t) (powerup : Powerup.t) : bool :=
  existsb (fun kp => powerup_in_reach powerup (snd kp)) players.

(** Some player other than the owner is within reach of the banana. *)
Definition banana_taken (players : dict Player.t) (banana : Banana.t) : bool :=
  existsb (fun kp => negb (String.eqb (Player.id (snd kp)) (Banana.player_id banana))
                     && banana_in_reach banana (snd kp)) players.

(** A stage that depends on the entropy source only through the reads it
    makes: two sources that agree on those reads give the same result. *)
Definition reads_only (f : Entropy -> Sim -> Sim) : Prop :=
  forall e1 e2 s, agree e1 e2 (tick s) (tick (f e1 s)) -> f e1 s = f e2 s.

(** A stage that never moves the cursor back. *)
Definition forward (f : Entropy -> Sim -> Sim) : Prop :=
  forall e s, (tick s <= tick (f e s))%nat.

(** The stages of [_advance_room] after the motion loops, for a given [dt]. *)
Definition after_motion (users : Z -> bool) (now dt : Q) (env : Entropy) (s : Sim)
  : Sim :=
  collect_bananas now
    (collect_powerups users env
       (resolve_explosions users now
          (expire_fuses env now
             (tick_banana_timer env dt
                (tick_powerup_timer env dt (spawn_balloons env dt s)))))).

(** *** Sample data for the examples *)

Definition sample_env (seed : nat) : Entropy :=
  {| random_random := fun k => Z.of_nat (seed + k) mod 4 # 4;
     random_index := fun k => (seed + k)%nat;
     uuid4_hex := fun k =>
       if Nat.even (seed + k) then "0a1b2c3d4e5f60718293a4b5c6d7e8f9"%string
       else "f9e8d7c6b5a4392817065f4e3d2c1b0a"%string;
     time_monotonic := fun k => inject_Z (Z.of_nat k) + 100 |}.

(** A source that answers as [sample_env 0] for the first [n] reads and
    differently afterwards. *)
Definition sample_env_until (n : nat) : Entropy :=
  {| random_random := fun k =>
       if (k <? n)%nat then random_random (sample_env 0) k else 0;
     random_index := fun k =>
       if (k <? n)%nat then random_index (sample_env 0) k else 0%nat;
     uuid4_hex := fun k =>
       if (k <? n)%nat then uuid4_hex (sample_env 0) k else "00000000"%string;
     time_monotonic := fun k =>
       if (k <? n)%nat then time_monotonic (sample_env 0) k else 0 |}.

Definition sample_player (pid : string) (px : Q) : Player.t :=
  Player.mk pid 7 "ann"%string px 1 0 "#ff5d5d"%string 100 0 1 1
    BALLOON_BASE_RADIUS 0 false 0.

Definition sample_room : Room.t :=
  Room.mk "lobby"%string
    [("p1"%string, sample_player "p1"%string 400);
     ("p2"%string, sample_player "p2"%string 405)]
    [Balloon.mk "b1"%string 400 500 50 BALLOON_RADIUS "#f9e65c"%string;
     Balloon.mk "b2"%string 100 100 50 BALLOON_RADIUS "#f9e65c"%string]
    [Placed.mk "q1"%string "p1"%string 400 555 97 BALLOON_FUSE 70]
    [Explosion.mk "e1"%string 400 555 70 (1001 # 10) "p1"%string]
    [Powerup.mk "u1"%string speed 402 545; Powerup.mk "u2"%string banana 700 545]
    [Banana.mk "n1"%string "p1"%string 401 555]
    100 (99 # 100) 0 0.

(** A [users] table that holds the user of the sample players and no other. *)
Definition sample_users : Z -> bool := fun user_id => (user_id =? 7)%Z.

Definition sample_sim : Sim := {| room := sample_room; tick := 0; sink := [] |}.

Definition sample_server : Server :=
  {| ROOMS := [("lobby"%string, sample_room)]; reads := 0; calls := [] |}.

(** *** Vocabulary of the further properties *)

(** A server whose lobby holds a player not seen for forty seconds. *)
Definition sample_idle_room : Room.t :=
  Room.set_players sample_room
    [("p1"%string, sample_player "p1"%string 400);
     ("p2"%string, Player.set_last_seen (sample_player "p2"%string 405) 60)].

Definition sample_idle_server : Server :=
  {| ROOMS := [("lobby"%string, sample_idle_room)]; reads := 0; calls := [] |}.

(** [dict_rel R d d']: the same keys in the same order, with [R]-related
    values. *)
Definition dict_rel {V : Type} (R : V -> V -> Prop) (d d' : dict V) : Prop :=
  Forall2 (fun a b => fst a = fst b /\ R (snd a) (snd b)) d d'.

(** What a player has gained never shrinks from [p] to [p']. *)
Definition grows (p p' : Player.t) : Prop :=
  Player.speed_mult p <= Player.speed_mult p'
  /\ (Player.balloon_capacity p <= Player.balloon_capacity p')%Z
  /\ (Player.blast_radius p <= Player.blast_radius p')%Z
  /\ (Player.score p <= Player.score p')%Z
  /\ Player.slow_until p <= Player.slow_until p'.



(** The sink calls of [n] updates of the row of [user_id]: none when the
    table has no such row. *)
Definition credits (users : Z -> bool) (call : Z -> SinkCall) (user_id : Z) (n : nat)
  : list SinkCall :=
  if users user_id then repeat (call user_id) n else [].

(** The room-local scores of a room, added up. *)
Definition total_score (d : dict Player.t) : Z :=
  fold_right Z.add 0%Z (map (fun kp => Player.score (snd kp)) d).


(** The fuse of a placed balloon has run out. *)
Definition fuse_due (now : Q) (placed : Placed.t) : bool :=
  Qle_bool (Placed.fuse placed) (now - Placed.placed_at placed).

(** The explosions of the placed balloons [l], with ids read from the cursor
    [k] on. *)
Fixpoint detonate (env : Entropy) (now : Q) (k : nat) (l : list Placed.t)
  : list Explosion.t :=
  match l with
  | [] => []
  | placed :: rest =>
      Explosion.mk (uuid_prefix env k 8) (Placed.x placed) (Placed.y placed)
        (Placed.radius placed) (now + 0.4) (Placed.player_id placed)
      :: detonate env now (S k) rest
  end.

(** The explosion is past its [expires_at]. *)
Definition expired (now : Q) (explosion : Explosion.t) : bool :=
  Qltb (Explosion.expires_at explosion) now.

(** Some explosion of [es] that has not expired overlaps the balloon. *)
Definition blasted (now : Q) (es : list Explosion.t) (balloon : Balloon.t) : bool :=
  existsb (fun e => negb (expired now e) && hits e balloon) es.

(** The random generator only returns numbers of [[0, 1)]. *)
Definition unit_draws (env : Entropy) : Prop :=
  forall k, 0 <= random_random env k /\ random_random env k < 1.

(** [s.endswith("/")] *)
Fixpoint ends_with_slash (s : string) : bool :=
  match s with
  | EmptyString => false
  | String c EmptyString => Ascii.eqb c "/"%char
  | String _ rest => ends_with_slash rest
  end.

(** The string of [n] slashes. *)
Fixpoint slashes (n : nat) : string :=
  match n with
  | O => EmptyString
  | S n' => String "/"%char (slashes n')
  end.

(** A part of a path that [should_skip] rejects on its own. *)
Definition skipped_part (part : string) : bool :=
  String.prefix "."%string part || String.eqb "node_modules"%string part
  || String.eqb "__pycache__"%string part || String.eqb "scripts"%string part.

(** The room-local scores, key by key. *)
Definition scores (d : dict Player.t) : list (string * Z) :=
  map (fun kp => (fst kp, Player.score (snd kp))) d.

(** The explosion that destroys the balloon: the first of [es], in their
    order, that has not expired and overlaps it. *)
Definition blaster (now : Q) (es : list Explosion.t) (balloon : Balloon.t)
  : option Explosion.t :=
  find (fun e => negb (expired now e) && hits e balloon) es.

(** The number of balloons of [bs] destroyed by an explosion of the player
    under [key]. *)
Definition kills (now : Q) (es : list Explosion.t) (bs : list Balloon.t) (key : string)
  : nat :=
  List.length
    (filter (fun b => match blaster now es b with
                      | Some e => String.eqb (Explosion.player_id e) key
                      | None => false
                      end) bs).

(** The room as [_advance_room] has it on entering the explosion loop: after
    the clock, the motion of players and balloons, the spawn, the two timers
    and the fuse loop. *)
Definition at_explosions (env : Entropy) (s : Sim) (now : Q) : Sim :=
  let dt := elapsed (room s) now in
  let s := on_room (fun r => Room.set_last_update r now) s in
  let s := on_room (fun r => Room.set_players r (advance_players now dt (Room.players r))) s in
  let s := on_room (fun r => Room.set_balloons r (advance_balloons dt (Room.balloons r))) s in
  let s := spawn_balloons env dt s in
  let s := tick_powerup_timer env dt s in
  let s := tick_banana_timer env dt s in
  expire_fuses env now s.


Definition sample_user : User.t := User.mk 7 "ann"%string "pbkdf2"%string 12 3 5 2.

(* ------------------------------------------------------------------ *)
(** * Properties *)

(** ** Numbers *)

(** Case split on the test of the conditional in the goal. *)
Ltac case_if :=
  match goal with |- context [if ?c then _ else _] => destruct c end.

Section Properties.
(** The [users] table is the same throughout. *)
Variable users : Z -> bool.

Lemma Qltb_lt (a b : Q) : Qltb a b = true <-> a < b.
Proof.
  unfold Qltb. rewrite negb_true_iff, <- not_true_iff_false, Qle_bool_iff.
  split; intro H; [apply Qnot_le_lt | apply Qlt_not_le]; exact H.
Qed.

Lemma Qltb_ge (a b : Q) : Qltb a b = false <-> b <= a.
Proof.
  unfold Qltb. rewrite negb_false_iff. apply Qle_bool_iff.
Qed.

Lemma Qle_bool_gt (a b : Q) : Qle_bool a b = false <-> b < a.
Proof.
  rewrite <- not_true_iff_false, Qle_bool_iff.
  split; intro H; [apply Qnot_le_lt | apply Qlt_not_le]; exact H.
Qed.

Lemma py_max_cases (a b : Q) :
  (a < b /\ py_max a b = b) \/ (b <= a /\ py_max a b = a).
Proof.
  unfold py_max. destruct (Qltb a b) eqn:E.
  - left. split; [apply Qltb_lt, E | reflexivity].
  - right. split; [apply Qltb_ge, E | reflexivity].
Qed.

Lemma py_min_cases (a b : Q) :
  (b < a /\ py_min a b = b) \/ (a <= b /\ py_min a b = a).
Proof.
  unfold py_min. destruct (Qltb b a) eqn:E.
  - left. split; [apply Qltb_lt, E | reflexivity].
  - right. split; [apply Qltb_ge, E | reflexivity].
Qed.

(** [max(lo, min(hi, v))] lands in [[lo, hi]] whenever [lo <= hi]. *)
Lemma clamp_range (lo hi v : Q) :
  lo <= hi -> lo <= py_max lo (py_min hi v) /\ py_max lo (py_min hi v) <= hi.
Proof.
  intro Hlh.
  destruct (py_min_cases hi v) as [[H1 E1] | [H1 E1]];
    destruct (py_max_cases lo (py_min hi v)) as [[H2 E2] | [H2 E2]];
    rewrite E2; rewrite ?E1 in *; split; lra.
Qed.

(** A value already in range is left where it is. *)
Lemma clamp_fixed (lo hi v : Q) :
  lo <= v -> v <= hi -> py_max lo (py_min hi v) == v.
Proof.
  intros Hl Hh.
  destruct (py_min_cases hi v) as [[H1 E1] | [H1 E1]];
    destruct (py_max_cases lo (py_min hi v)) as [[H2 E2] | [H2 E2]];
    rewrite E2; rewrite ?E1 in *; lra.
Qed.

Lemma elapsed_range (r : Room.t) (now : Q) :
  0 <= elapsed r now /\ elapsed r now <= 0.05.
Proof.
  unfold elapsed.
  destruct (clamp_range 0.0 0.05 (now - Room.last_update r)) as [H1 H2]; lra.
Qed.

(** ** What each stage leaves alone *)

Lemma fold_left_keeps {S A B : Type} (f : S -> A -> S) (g : S -> B) :
  (forall s a, g (f s a) = g s) -> forall l s, g (fold_left f l s) = g s.
Proof.
  intros Hf l. induction l as [| a l IH]; intro s; simpl.
  - reflexivity.
  - rewrite IH. apply Hf.
Qed.

Lemma set_score_steady (p : Player.t) (v : Z) : steady (Player.set_score p v) = steady p.
Proof. reflexivity. Qed.

Lemma dict_set_steady (d : dict Player.t) (k : string) (p p' : Player.t) :
  dict_get d k = Some p -> steady p' = steady p ->
  steady_players (dict_set d k p') = steady_players d.
Proof.
  intros Hg Hs. induction d as [| [k0 p0] d IH]; simpl in *.
  - discriminate.
  - destruct (String.eqb k0 k); simpl.
    + injection Hg as ->. rewrite Hs. reflexivity.
    + rewrite IH by exact Hg. reflexivity.
Qed.

Lemma blast_steady (e : Explosion.t) (s : Sim) (b : Balloon.t) :
  steady_players (Room.players (room (blast users e s b)))
  = steady_players (Room.players (room s)).
Proof.
  unfold blast. destruct (hits e b); [| reflexivity]. simpl.
  destruct (dict_get (Room.players (room s)) (Explosion.player_id e)) as [p |] eqn:E;
    simpl; [| reflexivity].
  apply dict_set_steady with (p := p); [exact E | reflexivity].
Qed.

Lemma blast_timers (e : Explosion.t) (s : Sim) (b : Balloon.t) :
  timers (room (blast users e s b)) = timers (room s).
Proof.
  unfold blast. destruct (hits e b); [| reflexivity]. simpl.
  destruct (dict_get (Room.players (room s)) (Explosion.player_id e)); reflexivity.
Qed.

Lemma explosion_step_steady (now : Q) (s : Sim) (e : Explosion.t) :
  steady_players (Room.players (room (explosion_step users now s e)))
  = steady_players (Room.players (room s)).
Proof.
  unfold explosion_step. destruct (Qltb (Explosion.expires_at e) now); [reflexivity |].
  apply (fold_left_keeps (blast users e) (fun s => steady_players (Room.players (room s)))).
  intros; apply blast_steady.
Qed.

Lemma explosion_step_timers (now : Q) (s : Sim) (e : Explosion.t) :
  timers (room (explosion_step users now s e)) = timers (room s).
Proof.
  unfold explosion_step. destruct (Qltb (Explosion.expires_at e) now); [reflexivity |].
  apply (fold_left_keeps (blast users e) (fun s => timers (room s))).
  intros; apply blast_timers.
Qed.

Lemma apply_powerup_steady (env : Entropy) (k : nat) (p : Player.t) (ty : PowerupType) :
  steady (fst (_apply_powerup env k p ty)) = steady p.
Proof. destruct ty; reflexivity. Qed.

Lemma powerup_scan_steady (env : Entropy) (k : nat) (pu : Powerup.t) (d : dict Player.t) :
  forall d' who k',
    powerup_scan env k pu d = Some (d', who, k') ->
    steady_players d' = steady_players d.
Proof.
  induction d as [| [key p] d IH]; simpl; intros d' who k' H.
  - discriminate.
  - destruct (powerup_in_reach pu p).
    + pose proof (apply_powerup_steady env k p (Powerup.type pu)) as Hs.
      destruct (_apply_powerup env k p (Powerup.type pu)) as [p' k1].
      injection H as <- _ _. simpl in *. rewrite Hs. reflexivity.
    + destruct (powerup_scan env k pu d) as [[[d1 w1] k1] |]; [| discriminate].
      injection H as <- _ _. simpl. rewrite (IH d1 w1 k1 eq_refl). reflexivity.
Qed.

Lemma powerup_step_steady (env : Entropy) (s : Sim) (pu : Powerup.t) :
  steady_players (Room.players (room (powerup_step users env s pu)))
  = steady_players (Room.players (room s)).
Proof.
  unfold powerup_step.
  destruct (powerup_scan env (tick s) pu (Room.players (room s)))
    as [[[d' who] k'] |] eqn:E; [| reflexivity].
  simpl. eapply powerup_scan_steady; exact E.
Qed.

Lemma powerup_step_timers (env : Entropy) (s : Sim) (pu : Powerup.t) :
  timers (room (powerup_step users env s pu)) = timers (room s).
Proof.
  unfold powerup_step.
  destruct (powerup_scan env (tick s) pu (Room.players (room s)))
    as [[[d' who] k'] |]; reflexivity.
Qed.

Lemma banana_scan_steady (now : Q) (bn : Banana.t) (d : dict Player.t) :
  forall d', banana_scan now bn d = Some d' -> steady_players d' = steady_players d.
Proof.
  induction d as [| [key p] d IH]; simpl; intros d' H.
  - discriminate.
  - destruct (String.eqb (Player.id p) (Banana.player_id bn)).
    + destruct (banana_scan now bn d) as [d1 |]; [| discriminate].
      injection H as <-. simpl. rewrite (IH d1 eq_refl). reflexivity.
    + destruct (banana_in_reach bn p).
      * injection H as <-. reflexivity.
      * destruct (banana_scan now bn d) as [d1 |]; [| discriminate].
        injection H as <-. simpl. rewrite (IH d1 eq_refl). reflexivity.
Qed.

Lemma banana_step_steady (now : Q) (s : Sim) (bn : Banana.t) :
  steady_players (Room.players (room (banana_step now s bn)))
  = steady_players (Room.players (room s)).
Proof.
  unfold banana_step.
  destruct (banana_scan now bn (Room.players (room s))) as [d' |] eqn:E; [| reflexivity].
  simpl. eapply banana_scan_steady; exact E.
Qed.

Lemma banana_step_timers (now : Q) (s : Sim) (bn : Banana.t) :
  timers (room (banana_step now s bn)) = timers (room s).
Proof.
  unfold banana_step.
  destruct (banana_scan now bn (Room.players (room s))); reflexivity.
Qed.

Lemma spawn_loop_keeps (env : Entropy) (fuel : nat) :
  forall s,
    let s' := spawn_loop env fuel s in
    Room.players (room s') = Room.players (room s)
    /\ Room.powerups (room s') = Room.powerups (room s)
    /\ Room.bananas (room s') = Room.bananas (room s)
    /\ Room.powerup_timer (room s') = Room.powerup_timer (room s)
    /\ Room.banana_timer (room s') = Room.banana_timer (room s)
    /\ Room.last_update (room s') = Room.last_update (room s).
Proof.
  induction fuel as [| fuel IH]; intro s; simpl.
  - repeat split.
  - destruct (Qle_bool 1.0 (Room.spawn_accum (room s))); [| repeat split].
    match goal with |- context [spawn_loop env fuel ?s0] =>
      destruct (IH s0) as (H1 & H2 & H3 & H4 & H5 & H6) end.
    rewrite H1, H2, H3, H4, H5, H6. repeat split.
Qed.

Lemma spawn_loop_accum (env : Entropy) (fuel : nat) :
  forall s,
    0 <= Room.spawn_accum (room s) ->
    Room.spawn_accum (room s) < inject_Z (Z.of_nat fuel) + 1 ->
    0 <= Room.spawn_accum (room (spawn_loop env fuel s))
    /\ Room.spawn_accum (room (spawn_loop env fuel s)) < 1.
Proof.
  induction fuel as [| fuel IH]; intros s Hlo Hhi.
  - cbn [spawn_loop]. change (inject_Z (Z.of_nat 0)) with 0 in Hhi. split; lra.
  - cbn [spawn_loop].
    destruct (Qle_bool 1.0 (Room.spawn_accum (room s))) eqn:E.
    + apply Qle_bool_iff in E.
      cbn [_new_balloon]. apply IH; cbn.
      * lra.
      * rewrite Nat2Z.inj_succ, <- Z.add_1_r, inject_Z_plus in Hhi.
        change (inject_Z 1) with 1 in Hhi. lra.
    + apply Qle_bool_gt in E. split; lra.
Qed.

Lemma spawn_rounds_enough (a : Q) :
  0 <= a -> a < inject_Z (Z.of_nat (spawn_rounds a)) + 1.
Proof.
  intro Ha. unfold spawn_rounds.
  assert (0 <= Qfloor a)%Z as Hf.
  { change 0%Z with (Qfloor 0). apply Qfloor_resp_le, Ha. }
  rewrite Z2Nat.id by exact Hf.
  pose proof (Qlt_floor a) as H.
  rewrite inject_Z_plus in H. exact H.
Qed.

(** With the rounds counted by [spawn_rounds] the loop has run to its exit:
    more fuel makes no further round. *)
Lemma spawn_loop_enough (env : Entropy) (fuel : nat) :
  forall (more : nat) (s : Sim),
    Room.spawn_accum (room s) < inject_Z (Z.of_nat fuel) + 1 ->
    spawn_loop env (fuel + more) s = spawn_loop env fuel s.
Proof.
  induction fuel as [| fuel IH]; intros more s Hhi.
  - change (inject_Z (Z.of_nat 0)) with 0 in Hhi.
    destruct more as [| more]; [reflexivity |]. cbn [Nat.add spawn_loop].
    assert (Qle_bool 1.0 (Room.spawn_accum (room s)) = false) as ->
      by (apply Qle_bool_gt; lra).
    reflexivity.
  - cbn [Nat.add spawn_loop].
    destruct (Qle_bool 1.0 (Room.spawn_accum (room s))) eqn:E; [| reflexivity].
    cbn [_new_balloon]. apply IH. cbn.
    rewrite Nat2Z.inj_succ, <- Z.add_1_r, inject_Z_plus in Hhi.
    change (inject_Z 1) with 1 in Hhi. lra.
Qed.

Lemma spawn_balloons_accum (env : Entropy) (dt : Q) (s : Sim) :
  0 <= dt -> 0 <= Room.spawn_accum (room s) ->
  0 <= Room.spawn_accum (room (spawn_balloons env dt s))
  /\ Room.spawn_accum (room (spawn_balloons env dt s)) < 1.
Proof.
  intros Hdt Ha. unfold spawn_balloons.
  set (n := inject_Z (Z.of_nat (List.length (Room.players (room s))))).
  assert (0 <= n) as Hn.
  { unfold n. change 0 with (inject_Z 0). rewrite <- Zle_Qle. lia. }
  set (a := Room.spawn_accum (room s)
            + dt * (BALLOON_SPAWN_BASE + BALLOON_SPAWN_PER_PLAYER * n)).
  assert (0 <= a) as Ha'.
  { unfold a, BALLOON_SPAWN_BASE, BALLOON_SPAWN_PER_PLAYER. nra. }
  apply spawn_loop_accum; cbn.
  - exact Ha'.
  - apply spawn_rounds_enough, Ha'.
Qed.

Lemma spawn_balloons_keeps (env : Entropy) (dt : Q) (s : Sim) :
  let s' := spawn_balloons env dt s in
  Room.players (room s') = Room.players (room s)
  /\ Room.powerups (room s') = Room.powerups (room s)
  /\ Room.bananas (room s') = Room.bananas (room s)
  /\ Room.powerup_timer (room s') = Room.powerup_timer (room s)
  /\ Room.banana_timer (room s') = Room.banana_timer (room s)
  /\ Room.last_update (room s') = Room.last_update (room s).
Proof.
  unfold spawn_balloons.
  match goal with |- context [spawn_loop env ?f ?s0] =>
    exact (spawn_loop_keeps env f s0) end.
Qed.

Lemma tick_powerup_timer_keeps (env : Entropy) (dt : Q) (s : Sim) :
  let s' := tick_powerup_timer env dt s in
  Room.players (room s') = Room.players (room s)
  /\ Room.balloons (room s') = Room.balloons (room s)
  /\ Room.bananas (room s') = Room.bananas (room s)
  /\ Room.spawn_accum (room s') = Room.spawn_accum (room s)
  /\ Room.banana_timer (room s') = Room.banana_timer (room s)
  /\ Room.last_update (room s') = Room.last_update (room s).
Proof.
  unfold tick_powerup_timer. cbn.
  destruct (Qle_bool POWERUP_SPAWN_INTERVAL (Room.powerup_timer (room s) + dt));
    repeat split.
Qed.

Lemma tick_banana_timer_keeps (env : Entropy) (dt : Q) (s : Sim) :
  let s' := tick_banana_timer env dt s in
  Room.players (room s') = Room.players (room s)
  /\ Room.balloons (room s') = Room.balloons (room s)
  /\ Room.bananas (room s') = Room.bananas (room s)
  /\ Room.spawn_accum (room s') = Room.spawn_accum (room s)
  /\ Room.powerup_timer (room s') = Room.powerup_timer (room s)
  /\ Room.last_update (room s') = Room.last_update (room s).
Proof.
  unfold tick_banana_timer. cbn.
  destruct (Qle_bool BANANA_SPAWN_INTERVAL (Room.banana_timer (room s) + dt));
    repeat split.
Qed.

Lemma fuse_step_keeps (env : Entropy) (now : Q) (s : Sim) (pl : Placed.t) :
  Room.players (room (fuse_step env now s pl)) = Room.players (room s)
  /\ Room.balloons (room (fuse_step env now s pl)) = Room.balloons (room s)
  /\ Room.powerups (room (fuse_step env now s pl)) = Room.powerups (room s)
  /\ Room.bananas (room (fuse_step env now s pl)) = Room.bananas (room s)
  /\ timers (room (fuse_step env now s pl)) = timers (room s).
Proof.
  unfold fuse_step.
  destruct (Qle_bool (Placed.fuse pl) (now - Placed.placed_at pl)); repeat split.
Qed.

Lemma expire_fuses_keeps (env : Entropy) (now : Q) (s : Sim) :
  Room.players (room (expire_fuses env now s)) = Room.players (room s)
  /\ Room.balloons (room (expire_fuses env now s)) = Room.balloons (room s)
  /\ Room.powerups (room (expire_fuses env now s)) = Room.powerups (room s)
  /\ Room.bananas (room (expire_fuses env now s)) = Room.bananas (room s)
  /\ timers (room (expire_fuses env now s)) = timers (room s).
Proof.
  unfold expire_fuses.
  repeat split;
    match goal with |- ?g (room (fold_left ?f ?l ?s0)) = _ =>
      apply (fold_left_keeps f (fun s => g (room s)));
      intros s1 a; apply (fuse_step_keeps env now s1 a)
    end.
Qed.

Lemma resolve_explosions_steady (now : Q) (s : Sim) :
  steady_players (Room.players (room (resolve_explosions users now s)))
  = steady_players (Room.players (room s)).
Proof.
  unfold resolve_explosions.
  apply (fold_left_keeps (explosion_step users now)
           (fun s => steady_players (Room.players (room s)))).
  intros; apply explosion_step_steady.
Qed.

Lemma resolve_explosions_timers (now : Q) (s : Sim) :
  timers (room (resolve_explosions users now s)) = timers (room s).
Proof.
  unfold resolve_explosions.
  apply (fold_left_keeps (explosion_step users now) (fun s => timers (room s))).
  intros; apply explosion_step_timers.
Qed.

Lemma collect_powerups_steady (env : Entropy) (s : Sim) :
  steady_players (Room.players (room (collect_powerups users env s)))
  = steady_players (Room.players (room s)).
Proof.
  unfold collect_powerups.
  apply (fold_left_keeps (powerup_step users env)
           (fun s => steady_players (Room.players (room s)))).
  intros; apply powerup_step_steady.
Qed.

Lemma collect_powerups_timers (env : Entropy) (s : Sim) :
  timers (room (collect_powerups users env s)) = timers (room s).
Proof.
  unfold collect_powerups.
  apply (fold_left_keeps (powerup_step users env) (fun s => timers (room s))).
  intros; apply powerup_step_timers.
Qed.

Lemma collect_bananas_steady (now : Q) (s : Sim) :
  steady_players (Room.players (room (collect_bananas now s)))
  = steady_players (Room.players (room s)).
Proof.
  unfold collect_bananas.
  apply (fold_left_keeps (banana_step now)
           (fun s => steady_players (Room.players (room s)))).
  intros; apply banana_step_steady.
Qed.

Lemma collect_bananas_timers (now : Q) (s : Sim) :
  timers (room (collect_bananas now s)) = timers (room s).
Proof.
  unfold collect_bananas.
  apply (fold_left_keeps (banana_step now) (fun s => timers (room s))).
  intros; apply banana_step_timers.
Qed.

(** ** The whole step *)

(** After [_advance_room] the keys and the steady part of the players are
    those that the motion loop produced. *)
Lemma advance_room_steady (env : Entropy) (s : Sim) (now : Q) :
  steady_players (Room.players (room (_advance_room users env s now)))
  = steady_players
      (advance_players now (elapsed (room s) now) (Room.players (room s))).
Proof.
  unfold _advance_room.
  rewrite collect_bananas_steady, collect_powerups_steady, resolve_explosions_steady.
  destruct (expire_fuses_keeps env now
    (tick_banana_timer env (elapsed (room s) now)
       (tick_powerup_timer env (elapsed (room s) now)
          (spawn_balloons env (elapsed (room s) now)
             (on_room (fun r => Room.set_balloons r
                         (advance_balloons (elapsed (room s) now) (Room.balloons r)))
                (on_room (fun r => Room.set_players r
                            (advance_players now (elapsed (room s) now)
                               (Room.players r)))
                   (on_room (fun r => Room.set_last_update r now) s)))))))
    as [-> _].
  match goal with |- context [tick_banana_timer env ?d ?s0] =>
    destruct (tick_banana_timer_keeps env d s0) as [-> _] end.
  match goal with |- context [tick_powerup_timer env ?d ?s0] =>
    destruct (tick_powerup_timer_keeps env d s0) as [-> _] end.
  match goal with |- context [spawn_balloons env ?d ?s0] =>
    destruct (spawn_balloons_keeps env d s0) as [-> _] end.
  reflexivity.
Qed.

Lemma advance_player_in_arena (now dt : Q) (p : Player.t) :
  in_arena (advance_player now dt p).
Proof.
  unfold advance_player, in_arena. cbn.
  match goal with |- context [py_max 30 (py_min ?hi ?v)] =>
    pose proof (clamp_range 30 hi v) as Hc end.
  assert (30 <= inject_Z (GAME_WIDTH - 30)) as Hw by (unfold Qle; simpl; lia).
  specialize (Hc Hw).
  case_if; cbn; exact Hc.
Qed.

Lemma steady_players_cons (k k' : string) (p p' : Player.t) (d d' : dict Player.t) :
  steady_players ((k, p) :: d) = steady_players ((k', p') :: d') ->
  k = k' /\ steady p = steady p' /\ steady_players d = steady_players d'.
Proof.
  intro H. cbn [steady_players map fst snd] in H.
  injection H; intros. repeat split; try assumption.
  unfold steady. congruence.
Qed.

Lemma steady_x (p p' : Player.t) : steady p = steady p' -> Player.x p = Player.x p'.
Proof. unfold steady. intro H. injection H; intros; assumption. Qed.

Lemma steady_players_in_arena (d d' : dict Player.t) :
  steady_players d = steady_players d' ->
  Forall (fun kp => in_arena (snd kp)) d' ->
  Forall (fun kp => in_arena (snd kp)) d.
Proof.
  revert d'. induction d as [| [k p] d IH]; intros [| [k' p'] d'] He Hf;
    try discriminate; constructor;
    apply steady_players_cons in He; destruct He as (_ & Hs & Hr);
    inversion Hf as [| ? ? Hp Hf']; subst.
  - unfold in_arena in *. cbn [snd] in *. rewrite (steady_x _ _ Hs). exact Hp.
  - eapply IH; eassumption.
Qed.

Lemma advance_room_in_arena (env : Entropy) (s : Sim) (now : Q) :
  Forall (fun kp => in_arena (snd kp)) (Room.players (room (_advance_room users env s now))).
Proof.
  apply (steady_players_in_arena _ _ (advance_room_steady env s now)).
  unfold advance_players. apply Forall_map, Forall_forall.
  intros kp _. apply advance_player_in_arena.
Qed.

(** C1. For every room state and every [now], after [_advance_room] every
    player's [x] lies in [[30, GAME_WIDTH - 30]]. *)
Theorem advance_room_players_in_arena (env : Entropy) (s : Sim) (now : Q) :
  Forall (fun kp => 30 <= Player.x (snd kp)
                    /\ Player.x (snd kp) <= inject_Z (GAME_WIDTH - 30))
         (Room.players (room (_advance_room users env s now))).
Proof. exact (advance_room_in_arena env s now). Qed.

Lemma timers_inv (r r' : Room.t) :
  timers r = timers r' ->
  Room.last_update r = Room.last_update r'
  /\ Room.spawn_accum r = Room.spawn_accum r'
  /\ Room.powerup_timer r = Room.powerup_timer r'
  /\ Room.banana_timer r = Room.banana_timer r'.
Proof. unfold timers. intro H. injection H; intros. repeat split; assumption. Qed.

Lemma advance_room_timers (env : Entropy) (s : Sim) (now : Q) :
  let dt := elapsed (room s) now in
  let s4 :=
    spawn_balloons env dt
      (on_room (fun r => Room.set_balloons r (advance_balloons dt (Room.balloons r)))
         (on_room (fun r => Room.set_players r
                              (advance_players now dt (Room.players r)))
            (on_room (fun r => Room.set_last_update r now) s))) in
  timers (room (_advance_room users env s now))
  = timers (room (tick_banana_timer env dt (tick_powerup_timer env dt s4))).
Proof.
  intros dt s4. unfold _advance_room. fold dt. fold s4.
  rewrite collect_bananas_timers, collect_powerups_timers, resolve_explosions_timers.
  apply expire_fuses_keeps.
Qed.

Lemma advance_room_last_update (env : Entropy) (s : Sim) (now : Q) :
  Room.last_update (room (_advance_room users env s now)) = now.
Proof.
  destruct (timers_inv _ _ (advance_room_timers env s now)) as (H & _).
  rewrite H.
  match goal with |- context [tick_banana_timer env ?d ?s0] =>
    destruct (tick_banana_timer_keeps env d s0) as (_ & _ & _ & _ & _ & ->) end.
  match goal with |- context [tick_powerup_timer env ?d ?s0] =>
    destruct (tick_powerup_timer_keeps env d s0) as (_ & _ & _ & _ & _ & ->) end.
  match goal with |- context [spawn_balloons env ?d ?s0] =>
    destruct (spawn_balloons_keeps env d s0) as (_ & _ & _ & _ & _ & ->) end.
  reflexivity.
Qed.

Lemma advance_room_spawn_accum (env : Entropy) (s : Sim) (now : Q) :
  Room.spawn_accum (room (_advance_room users env s now))
  = Room.spawn_accum
      (room (spawn_balloons env (elapsed (room s) now)
               (on_room (fun r => Room.set_balloons r
                           (advance_balloons (elapsed (room s) now) (Room.balloons r)))
                  (on_room (fun r => Room.set_players r
                              (advance_players now (elapsed (room s) now)
                                 (Room.players r)))
                     (on_room (fun r => Room.set_last_update r now) s))))).
Proof.
  destruct (timers_inv _ _ (advance_room_timers env s now)) as (_ & H & _).
  rewrite H.
  match goal with |- context [tick_banana_timer env ?d ?s0] =>
    destruct (tick_banana_timer_keeps env d s0) as (_ & _ & _ & -> & _) end.
  match goal with |- context [tick_powerup_timer env ?d ?s0] =>
    destruct (tick_powerup_timer_keeps env d s0) as (_ & _ & _ & -> & _) end.
  reflexivity.
Qed.

(** C10. A spawn accumulator in [[0, 1)] before [_advance_room] is in
    [[0, 1)] after it. *)
Theorem advance_room_spawn_accum_unit (env : Entropy) (s : Sim) (now : Q) :
  0 <= Room.spawn_accum (room s) /\ Room.spawn_accum (room s) < 1 ->
  0 <= Room.spawn_accum (room (_advance_room users env s now))
  /\ Room.spawn_accum (room (_advance_room users env s now)) < 1.
Proof.
  intros [Hlo _]. rewrite advance_room_spawn_accum.
  apply spawn_balloons_accum.
  - apply elapsed_range.
  - exact Hlo.
Qed.

(** ** Dicts *)

Section DictFacts.
Context {V : Type}.
Implicit Types (d : dict V) (k : string) (v : V).

Lemma dict_get_set_same d k v : dict_get (dict_set d k v) k = Some v.
Proof.
  induction d as [| [k0 v0] d IH]; simpl.
  - rewrite String.eqb_refl. reflexivity.
  - destruct (String.eqb k0 k) eqn:E; simpl; rewrite E; [reflexivity | exact IH].
Qed.

Lemma dict_get_pop_other d k k' : k <> k' -> dict_get (dict_pop d k) k' = dict_get d k'.
Proof.
  intro Hne. induction d as [| [k0 v0] d IH]; simpl.
  - reflexivity.
  - destruct (String.eqb k0 k) eqn:E; simpl.
    + apply String.eqb_eq in E. subst k0.
      destruct (String.eqb k k') eqn:E'; [| reflexivity].
      apply String.eqb_eq in E'. contradiction.
    + rewrite IH. reflexivity.
Qed.

Lemma dict_get_pops_other d ks k' :
  ~ In k' ks -> dict_get (fold_left dict_pop ks d) k' = dict_get d k'.
Proof.
  revert d. induction ks as [| k ks IH]; intros d Hn; simpl.
  - reflexivity.
  - rewrite IH by (intro; apply Hn; right; assumption).
    apply dict_get_pop_other. intro; apply Hn; left; assumption.
Qed.

Lemma dict_get_in_nodup d k v :
  NoDup (dict_keys d) -> In (k, v) d -> dict_get d k = Some v.
Proof.
  induction d as [| [k0 v0] d IH]; simpl; intros Hnd Hin.
  - contradiction.
  - inversion Hnd as [| ? ? Hnotin Hnd']; subst.
    destruct Hin as [Heq | Hin].
    + injection Heq as -> ->. rewrite String.eqb_refl. reflexivity.
    + destruct (String.eqb k0 k) eqn:E.
      * apply String.eqb_eq in E. subst k0. exfalso. apply Hnotin.
        apply (in_map fst) in Hin. exact Hin.
      * apply IH; assumption.
Qed.

Lemma dict_set_keys d k v v' :
  dict_get d k = Some v' -> dict_keys (dict_set d k v) = dict_keys d.
Proof.
  induction d as [| [k0 v0] d IH]; simpl; intro H.
  - discriminate.
  - destruct (String.eqb k0 k); simpl; [reflexivity |].
    f_equal. apply IH, H.
Qed.

Lemma dict_set_in d k v k1 v1 :
  In (k1, v1) (dict_set d k v) -> (k1 = k /\ v1 = v) \/ In (k1, v1) d.
Proof.
  induction d as [| [k0 v0] d IH]; simpl.
  - intros [H | []]. injection H as <- <-. left. split; reflexivity.
  - destruct (String.eqb k0 k) eqn:E; simpl.
    + apply String.eqb_eq in E. subst k0.
      intros [H | H]; [injection H as <- <-; left; split; reflexivity | right; right; exact H].
    + intros [H | H]; [right; left; exact H |].
      destruct (IH H) as [? | ?]; [left | right; right]; assumption.
Qed.

End DictFacts.

(** A room starts with an empty accumulator, and a player starts in the
    middle of the arena. *)
Lemma new_room_spawn_accum (env : Entropy) (k : nat) (room_id : string) :
  0 <= Room.spawn_accum (fst (_new_room env k room_id))
  /\ Room.spawn_accum (fst (_new_room env k room_id)) < 1.
Proof. cbn. split; lra. Qed.

Lemma add_player_in_arena (env : Entropy) (s : Sim) (user_id : Z) (username : string) :
  let (player_id, s') := _add_player env s user_id username in
  exists p, dict_get (Room.players (room s')) player_id = Some p /\ in_arena p.
Proof.
  cbn. eexists. split; [apply dict_get_set_same |].
  unfold in_arena. cbn. unfold Qle. simpl. split; lia.
Qed.

Lemma steady_players_get (d d' : dict Player.t) (k : string) (p : Player.t) :
  steady_players d = steady_players d' ->
  dict_get d k = Some p ->
  exists p', dict_get d' k = Some p' /\ steady p' = steady p.
Proof.
  revert d'. induction d as [| [k0 p0] d IH]; intros [| [k1 p1] d'] He Hg;
    try discriminate.
  apply steady_players_cons in He. destruct He as (<- & Hs & Hr).
  simpl in *. destruct (String.eqb k0 k).
  - injection Hg as <-. exists p1. split; [reflexivity | symmetry; exact Hs].
  - apply IH; assumption.
Qed.

Lemma advance_players_get (now dt : Q) (d : dict Player.t) (k : string) :
  dict_get (advance_players now dt d) k
  = option_map (advance_player now dt) (dict_get d k).
Proof.
  induction d as [| [k0 p0] d IH]; simpl.
  - reflexivity.
  - destruct (String.eqb k0 k); [reflexivity | exact IH].
Qed.

Lemma advance_player_last_seen (now dt : Q) (p : Player.t) :
  Player.last_seen (advance_player now dt p) = Player.last_seen p.
Proof.
  unfold advance_player.
  case_if; reflexivity.
Qed.

(** A player present before [_advance_room] is present after it, under the
    same key and with the same [last_seen]. *)
Lemma advance_room_keeps_player (env : Entropy) (s : Sim) (now : Q)
    (k : string) (p : Player.t) :
  dict_get (Room.players (room s)) k = Some p ->
  exists p', dict_get (Room.players (room (_advance_room users env s now))) k = Some p'
             /\ Player.last_seen p' = Player.last_seen p.
Proof.
  intro Hg.
  destruct (steady_players_get _ _ k (advance_player now (elapsed (room s) now) p)
              (eq_sym (advance_room_steady env s now))) as (p' & Hg' & Hs).
  - rewrite advance_players_get, Hg. reflexivity.
  - exists p'. split; [exact Hg' |].
    rewrite <- (advance_player_last_seen now (elapsed (room s) now) p).
    unfold steady in Hs. injection Hs; intros; assumption.
Qed.

(** The polling player is not in the list of stale players. *)
Lemma poller_not_stale (d : dict Player.t) (k : string) (p : Player.t) (now : Q) :
  NoDup (dict_keys d) ->
  dict_get d k = Some p ->
  ~ In k (map fst
            (filter (fun kp => Qltb PLAYER_TIMEOUT (now - Player.last_seen (snd kp)))
                    (dict_set d k (Player.set_last_seen p now)))).
Proof.
  intros Hnd Hg Hin.
  apply in_map_iff in Hin. destruct Hin as ([k1 p1] & Hk & Hin). simpl in Hk. subst k1.
  apply filter_In in Hin. destruct Hin as [Hin Hstale]. simpl in Hstale.
  assert (dict_get (dict_set d k (Player.set_last_seen p now)) k = Some p1) as Hg1.
  { apply dict_get_in_nodup; [| exact Hin].
    rewrite (dict_set_keys d k _ p Hg). exact Hnd. }
  rewrite dict_get_set_same in Hg1. injection Hg1 as <-.
  apply Qltb_lt in Hstale. cbn in Hstale. unfold PLAYER_TIMEOUT in Hstale. lra.
Qed.

(** C9. A poll never evicts the player who issues it: that player is still in
    the room after the poll, with [last_seen] set to the time of the poll.
    (The keys of a dict are distinct.) *)
Theorem api_poll_keeps_poller (env : Entropy) (srv : Server)
    (room_id player_id : string) (room0 : Room.t) (player : Player.t) :
  dict_get (ROOMS srv) room_id = Some room0 ->
  dict_get (Room.players room0) player_id = Some player ->
  NoDup (dict_keys (Room.players room0)) ->
  exists room1 player1,
    dict_get (ROOMS (snd (api_poll users env srv room_id player_id))) room_id = Some room1
    /\ dict_get (Room.players room1) player_id = Some player1
    /\ Player.last_seen player1 = _now env (reads srv).
Proof.
  intros Hr Hp Hnd. unfold api_poll. rewrite Hr, Hp.
  unfold poll_room. cbn [room tick sink on_room].
  set (now := _now env (reads srv)).
  match goal with |- context [_advance_room users env ?s0 now] => set (s1 := s0) end.
  cbn [snd ROOMS]. exists (room (_advance_room users env s1 now)).
  assert (dict_get (Room.players (room s1)) player_id
          = Some (Player.set_last_seen player now)) as Hg.
  { unfold s1, _cleanup_players. cbn [room on_room Room.players Room.set_players].
    rewrite dict_get_pops_other.
    - apply dict_get_set_same.
    - apply poller_not_stale; assumption. }
  destruct (advance_room_keeps_player env s1 now _ _ Hg) as (p' & Hg' & Hl).
  exists p'. split; [apply dict_get_set_same | split; [exact Hg' | exact Hl]].
Qed.

(** ** Input *)

(** The banana part of a request leaves the placed balloons, [last_shot] and
    the sink alone. *)
Lemma place_banana_part_keeps (env : Entropy) (now : Q) (player_id : string)
    (place_banana : bool) (s : Sim) (p : Player.t) :
  let st := place_banana_part env now player_id place_banana (s, p) in
  Room.placed_balloons (room (fst st)) = Room.placed_balloons (room s)
  /\ Room.players (room (fst st)) = Room.players (room s)
  /\ sink (fst st) = sink s
  /\ Player.last_shot (snd st) = Player.last_shot p.
Proof.
  unfold place_banana_part.
  destruct (place_banana && Player.has_banana p
            && Qle_bool now (Player.banana_ready_until p)); repeat split.
Qed.

(** C5. A request to place a balloon, from a player found in a room found,
    whose [move] converts to a float, always gets the success reply. The
    balloon is placed exactly when the cooldown has passed since [last_shot]
    and the player has fewer live placed balloons than [balloon_capacity]:
    then [last_shot] becomes [now] and one placed balloon is appended, with
    the player's current [blast_radius] as its radius, and the sink is told
    when the user's row exists. Otherwise the request does what the same
    request without the balloon does, which, with no banana asked for, changes
    only [last_seen] and [vx] of that player. *)
Theorem api_input_place_balloon (env : Entropy) (srv : Server)
    (room_id player_id : string) (room0 : Room.t) (player : Player.t)
    (move : Q) (place_banana : bool) :
  dict_get (ROOMS srv) room_id = Some room0 ->
  dict_get (Room.players room0) player_id = Some player ->
  let now := _now env (reads srv) in
  let live :=
    Z.of_nat (List.length (filter (fun b => String.eqb (Placed.player_id b) player_id)
                                  (Room.placed_balloons room0))) in
  let permitted :=
    PLAYER_COOLDOWN <= now - Player.last_shot player
    /\ (live < Player.balloon_capacity player)%Z in
  let reply := api_input users env srv room_id player_id (Some move) true place_banana in
  fst reply = ok_true
  /\ exists room1 player1,
       dict_get (ROOMS (snd reply)) room_id = Some room1
       /\ dict_get (Room.players room1) player_id = Some player1
       /\ (permitted ->
           Player.last_shot player1 = now
           /\ Room.placed_balloons room1
              = Room.placed_balloons room0
                ++ [Placed.mk (uuid_prefix env (S (reads srv)) 8) player_id
                      (Player.x player) (inject_Z (GAME_HEIGHT - 45)) now
                      BALLOON_FUSE (Player.blast_radius player)]
           /\ calls (snd reply)
              = if users (Player.user_id player)
                then calls srv ++ [balloons_placed_incr (Player.user_id player)]
                else calls srv)
       /\ (~ permitted ->
           Player.last_shot player1 = Player.last_shot player
           /\ Room.placed_balloons room1 = Room.placed_balloons room0
           /\ calls (snd reply) = calls srv
           /\ reply = api_input users env srv room_id player_id (Some move) false place_banana
           /\ (place_banana = false ->
               room1
               = Room.set_players room0
                   (dict_set (Room.players room0) player_id
                      (Player.set_vx (Player.set_last_seen player now)
                         (py_max (-1.0) (py_min 1.0 move)))))).
Proof.
  intros Hr Hp now live permitted reply.
  unfold reply, api_input. rewrite Hr, Hp.
  unfold input_room. cbn [room tick sink]. fold now.
  set (p1 := Player.set_vx (Player.set_last_seen player now)
               (py_max (-1.0) (py_min 1.0 move))).
  set (s1 := {| room := room0; tick := S (reads srv); sink := calls srv |}).
  unfold place_balloon_part. cbn [andb].
  change (Player.last_shot p1) with (Player.last_shot player).
  change (Player.balloon_capacity p1) with (Player.balloon_capacity player).
  change (Room.placed_balloons (room s1)) with (Room.placed_balloons room0).
  fold live.
  destruct (Qle_bool PLAYER_COOLDOWN (now - Player.last_shot player)) eqn:Ecool;
    [destruct (live <? Player.balloon_capacity player)%Z eqn:Ecap |].
  - (* placed *)
    match goal with |- context [place_banana_part env now player_id place_banana (?s2, ?p2)] =>
      pose proof (place_banana_part_keeps env now player_id place_banana s2 p2) as Hk;
      destruct (place_banana_part env now player_id place_banana (s2, p2)) as [s3 p3]
    end.
    cbn [fst snd room sink tick] in Hk. destruct Hk as (Hpl & _ & Hsink & Hshot).
    cbn [fst snd ROOMS calls room on_room sink tick].
    split; [reflexivity |].
    eexists; eexists. split; [apply dict_get_set_same |].
    cbn [Room.players Room.set_players].
    split; [apply dict_get_set_same |]. split.
    + intros _. cbn [Room.placed_balloons Room.set_players].
      rewrite Hshot, Hpl, Hsink. repeat split.
    + intros Hno. exfalso. apply Hno. split.
      * apply Qle_bool_iff, Ecool.
      * apply Z.ltb_lt, Ecap.
  - (* no room for one more *)
    match goal with |- context [place_banana_part env now player_id place_banana (?s2, ?p2)] =>
      pose proof (place_banana_part_keeps env now player_id place_banana s2 p2) as Hk;
      assert (place_banana = false ->
              place_banana_part env now player_id place_banana (s2, p2) = (s2, p2))
        as Hnb by (intros ->; reflexivity);
      destruct (place_banana_part env now player_id place_banana (s2, p2)) as [s3 p3]
    end.
    cbn [fst snd room sink tick] in Hk. destruct Hk as (Hpl & _ & Hsink & Hshot).
    cbn [fst snd ROOMS calls room on_room sink tick].
    split; [reflexivity |].
    eexists; eexists. split; [apply dict_get_set_same |].
    cbn [Room.players Room.set_players].
    split; [apply dict_get_set_same |]. split.
    + intros [_ Hc]. apply Z.ltb_ge in Ecap. lia.
    + intros _. cbn [Room.placed_balloons Room.set_players].
      rewrite Hshot, Hpl, Hsink. repeat split.
      intro Hb. specialize (Hnb Hb). injection Hnb as -> ->. reflexivity.
  - (* cooling down *)
    match goal with |- context [place_banana_part env now player_id place_banana (?s2, ?p2)] =>
      pose proof (place_banana_part_keeps env now player_id place_banana s2 p2) as Hk;
      assert (place_banana = false ->
              place_banana_part env now player_id place_banana (s2, p2) = (s2, p2))
        as Hnb by (intros ->; reflexivity);
      destruct (place_banana_part env now player_id place_banana (s2, p2)) as [s3 p3]
    end.
    cbn [fst snd room sink tick] in Hk. destruct Hk as (Hpl & _ & Hsink & Hshot).
    cbn [fst snd ROOMS calls room on_room sink tick].
    split; [reflexivity |].
    eexists; eexists. split; [apply dict_get_set_same |].
    cbn [Room.players Room.set_players].
    split; [apply dict_get_set_same |]. split.
    + intros [Hc _]. apply Qle_bool_gt in Ecool. lra.
    + intros _. cbn [Room.placed_balloons Room.set_players].
      rewrite Hshot, Hpl, Hsink. repeat split.
      intro Hb. specialize (Hnb Hb). injection Hnb as -> ->. reflexivity.
Qed.

(** ** Explosions *)

Section DictSetFacts.
Context {V : Type}.
Implicit Types (d : dict V) (k : string) (v : V).

Lemma dict_set_set d k v v' : dict_set (dict_set d k v) k v' = dict_set d k v'.
Proof.
  induction d as [| [k0 v0] d IH]; simpl.
  - rewrite String.eqb_refl. reflexivity.
  - destruct (String.eqb k0 k) eqn:E; simpl; rewrite E; [reflexivity |].
    rewrite IH. reflexivity.
Qed.

Lemma dict_set_same d k v : dict_get d k = Some v -> dict_set d k v = d.
Proof.
  induction d as [| [k0 v0] d IH]; simpl; intro H.
  - discriminate.
  - destruct (String.eqb k0 k).
    + injection H as ->. reflexivity.
    + rewrite IH by exact H. reflexivity.
Qed.

End DictSetFacts.

Lemma Balloon_eqb_refl (b : Balloon.t) : Balloon.eqb b b = true.
Proof.
  unfold Balloon.eqb.
  rewrite !String.eqb_refl, !Qeq_bool_refl, Z.eqb_refl. reflexivity.
Qed.

(** Balloons that compare equal overlap the same explosions. *)
Lemma Balloon_eqb_hits (e : Explosion.t) (a b : Balloon.t) :
  Balloon.eqb a b = true -> hits e a = hits e b.
Proof.
  unfold Balloon.eqb. rewrite !andb_true_iff.
  intros (((((_ & Hx) & Hy) & _) & Hr) & _).
  apply Qeq_bool_iff in Hx, Hy. apply Z.eqb_eq in Hr.
  unfold hits. rewrite Hr. apply Qleb_comp; [| reflexivity].
  rewrite Hx, Hy. reflexivity.
Qed.

(** Removing an element found after a stretch that holds no equal of it. *)
Lemma list_remove_after {A : Type} (eqb : A -> A -> bool) (a : A) (pre l : list A) :
  Forall (fun h => eqb h a = false) pre ->
  eqb a a = true ->
  list_remove eqb a (pre ++ a :: l) = pre ++ l.
Proof.
  intros Hpre Hrefl. induction Hpre as [| h pre Hh _ IH]; simpl.
  - rewrite Hrefl. reflexivity.
  - rewrite Hh, IH. reflexivity.
Qed.

Lemma set_score_score (p : Player.t) : Player.set_score p (Player.score p) = p.
Proof. destruct p. reflexivity. Qed.

Lemma db_update_credits (call : Z -> SinkCall) (user_id : Z) (l : list SinkCall) :
  db_update users call user_id l = l ++ credits users call user_id 1.
Proof.
  unfold db_update, credits. destruct (users user_id); [reflexivity |].
  rewrite app_nil_r. reflexivity.
Qed.

Lemma credits_S (call : Z -> SinkCall) (user_id : Z) (n : nat) :
  credits users call user_id (S n)
  = credits users call user_id 1 ++ credits users call user_id n.
Proof. unfold credits. destruct (users user_id); reflexivity. Qed.

Lemma db_update_length (call : Z -> SinkCall) (user_id : Z) (l : list SinkCall) :
  (List.length l <= List.length (db_update users call user_id l) <= S (List.length l))%nat.
Proof.
  unfold db_update. destruct (users user_id); [| lia].
  rewrite length_app. cbn. lia.
Qed.

Lemma credits_0 (call : Z -> SinkCall) (user_id : Z) :
  credits users call user_id 0 = [].
Proof. unfold credits. destruct (users user_id); reflexivity. Qed.

(** The inner loop of one live explosion, started with the balloons already
    passed over ([pre]) in front of those still to visit ([l]). *)
Lemma blast_fold (e : Explosion.t) :
  forall (l pre : list Balloon.t) (s : Sim),
    Room.balloons (room s) = pre ++ l ->
    Forall (fun b => hits e b = false) pre ->
    let s' := fold_left (blast users e) l s in
    let n := List.length (filter (hits e) l) in
    Room.balloons (room s') = pre ++ filter (fun b => negb (hits e b)) l
    /\ Room.explosions (room s') = Room.explosions (room s)
    /\ match dict_get (Room.players (room s)) (Explosion.player_id e) with
       | Some shooter =>
           Room.players (room s')
           = dict_set (Room.players (room s)) (Explosion.player_id e)
               (Player.set_score shooter (Player.score shooter + Z.of_nat n))
           /\ sink s' = sink s ++ credits users total_score_incr (Player.user_id shooter) n
       | None => Room.players (room s') = Room.players (room s) /\ sink s' = sink s
       end.
Proof.
  induction l as [| b l IH]; intros pre s Hb Hpre; cbn [fold_left filter].
  - cbn [List.length]. rewrite app_nil_r in Hb. rewrite !app_nil_r.
    repeat split; [exact Hb |].
    destruct (dict_get (Room.players (room s)) (Explosion.player_id e)) as [p |] eqn:E.
    + rewrite Z.add_0_r, set_score_score, (dict_set_same _ _ _ E), credits_0, app_nil_r.
      split; reflexivity.
    + split; reflexivity.
  - destruct (hits e b) eqn:Eh; cbn [negb].
    + assert (list_remove Balloon.eqb b (Room.balloons (room s)) = pre ++ l) as Hrm.
      { rewrite Hb. apply list_remove_after; [| apply Balloon_eqb_refl].
        eapply Forall_impl; [| exact Hpre]. intros h Hh. cbv beta in Hh.
        destruct (Balloon.eqb h b) eqn:Eq; [| reflexivity].
        rewrite (Balloon_eqb_hits e h b Eq) in Hh. congruence. }
      destruct (dict_get (Room.players (room s)) (Explosion.player_id e))
        as [p |] eqn:E.
      * assert (blast users e s b
                = {| room :=
                       Room.set_players
                         (Room.set_balloons (room s)
                            (list_remove Balloon.eqb b (Room.balloons (room s))))
                         (dict_set (Room.players (room s)) (Explosion.player_id e)
                            (Player.set_score p (Player.score p + 1)%Z));
                     tick := tick s;
                     sink := sink s ++ credits users total_score_incr (Player.user_id p) 1 |})
          as ->.
        { unfold blast. rewrite Eh. cbn [Room.players Room.set_balloons].
          rewrite E. cbv zeta. rewrite db_update_credits. reflexivity. }
        match goal with |- context [fold_left (blast users e) l ?s1] =>
          specialize (IH pre s1) end.
        cbn [room sink Room.balloons Room.players Room.explosions
             Room.set_players Room.set_balloons] in IH.
        rewrite dict_get_set_same in IH.
        destruct (IH Hrm Hpre) as (H1 & H2 & H3 & H4).
        rewrite H1, H2, H3, H4, dict_set_set. cbn [List.length].
        change (Player.score (Player.set_score p (Player.score p + 1)%Z))
          with (Player.score p + 1)%Z.
        change (Player.user_id (Player.set_score p (Player.score p + 1)%Z))
          with (Player.user_id p).
        rewrite Nat2Z.inj_succ, <- Z.add_1_l, Z.add_assoc, <- app_assoc, <- credits_S.
        repeat split.
      * assert (blast users e s b
                = {| room :=
                       Room.set_balloons (room s)
                         (list_remove Balloon.eqb b (Room.balloons (room s)));
                     tick := tick s;
                     sink := sink s |})
          as ->.
        { unfold blast. rewrite Eh. cbn [Room.players Room.set_balloons].
          rewrite E. reflexivity. }
        match goal with |- context [fold_left (blast users e) l ?s1] =>
          specialize (IH pre s1) end.
        cbn [room sink Room.balloons Room.players Room.explosions
             Room.set_players Room.set_balloons] in IH.
        rewrite E in IH. exact (IH Hrm Hpre).
    + assert (blast users e s b = s) as -> by (unfold blast; rewrite Eh; reflexivity).
      specialize (IH (pre ++ [b]) s). rewrite <- !app_assoc in IH. cbn [app] in IH.
      apply IH; [exact Hb |].
      apply Forall_app. split; [exact Hpre | constructor; [exact Eh | constructor]].
Qed.

Lemma Explosion_eqb_refl (e : Explosion.t) : Explosion.eqb e e = true.
Proof.
  unfold Explosion.eqb.
  rewrite !String.eqb_refl, !Qeq_bool_refl, Z.eqb_refl. reflexivity.
Qed.

Lemma list_remove_shorter {A : Type} (eqb : A -> A -> bool) (a : A) (l : list A) :
  (forall x, eqb x x = true) -> In a l ->
  S (List.length (list_remove eqb a l)) = List.length l.
Proof.
  intros Hrefl. induction l as [| h l IH]; simpl; intro Hin.
  - contradiction.
  - destruct (eqb h a) eqn:E; [reflexivity |].
    destruct Hin as [-> | Hin]; [rewrite Hrefl in E; discriminate |].
    simpl. rewrite IH by exact Hin. reflexivity.
Qed.

(** One explosion in the resolution loop. If [now > expires_at] it is
    taken out of the list (which, when the explosion is in it, gets one
    shorter) and no balloon, player or sink call is touched. A
    live explosion removes exactly the falling balloons with
    [dx*dx + dy*dy <= (radius + balloon radius)^2] and keeps the others in
    order; if its owner is in the room, the owner's [score] goes up by one
    for each balloon removed (with one sink call each when the owner's row
    exists), and otherwise no player changes. *)
Lemma explosion_step_spec (now : Q) (s : Sim) (e : Explosion.t) :
  let s' := explosion_step users now s e in
  let n := List.length (filter (hits e) (Room.balloons (room s))) in
  (forall b,
     hits e b = true
     <-> (Explosion.x e - Balloon.x b) * (Explosion.x e - Balloon.x b)
         + (Explosion.y e - Balloon.y b) * (Explosion.y e - Balloon.y b)
         <= inject_Z ((Explosion.radius e + Balloon.radius b) ^ 2))
  /\ (Explosion.expires_at e < now ->
      Room.explosions (room s')
      = list_remove Explosion.eqb e (Room.explosions (room s))
      /\ (In e (Room.explosions (room s)) ->
          S (List.length (Room.explosions (room s')))
          = List.length (Room.explosions (room s)))
      /\ Room.balloons (room s') = Room.balloons (room s)
      /\ Room.players (room s') = Room.players (room s)
      /\ sink s' = sink s)
  /\ (~ Explosion.expires_at e < now ->
      Room.explosions (room s') = Room.explosions (room s)
      /\ Room.balloons (room s')
         = filter (fun b => negb (hits e b)) (Room.balloons (room s))
      /\ match dict_get (Room.players (room s)) (Explosion.player_id e) with
         | Some shooter =>
             Room.players (room s')
             = dict_set (Room.players (room s)) (Explosion.player_id e)
                 (Player.set_score shooter (Player.score shooter + Z.of_nat n))
             /\ sink s'
                = sink s ++ credits users total_score_incr (Player.user_id shooter) n
         | None =>
             Room.players (room s') = Room.players (room s) /\ sink s' = sink s
         end).
Proof.
  intros s' n. split; [| split].
  - intro b. unfold hits. apply Qle_bool_iff.
  - intro Hexp. apply Qltb_lt in Hexp. unfold s', explosion_step. rewrite Hexp.
    repeat split. intro Hin.
    cbn [room on_room Room.explosions Room.set_explosions].
    apply list_remove_shorter; [apply Explosion_eqb_refl | exact Hin].
  - intro Hlive. unfold s', explosion_step.
    destruct (Qltb (Explosion.expires_at e) now) eqn:E.
    + apply Qltb_lt in E. contradiction.
    + destruct (blast_fold e (Room.balloons (room s)) [] s eq_refl (Forall_nil _))
        as (H1 & H2 & H3).
      split; [exact H2 | split; [exact H1 | exact H3]].
Qed.

(** ** Pickups *)

Lemma Powerup_eqb_refl (a : Powerup.t) : Powerup.eqb a a = true.
Proof.
  unfold Powerup.eqb. rewrite String.eqb_refl, !Qeq_bool_refl.
  destruct (Powerup.type a); reflexivity.
Qed.

Lemma Banana_eqb_refl (a : Banana.t) : Banana.eqb a a = true.
Proof.
  unfold Banana.eqb. rewrite !String.eqb_refl, !Qeq_bool_refl. reflexivity.
Qed.

(** The scan for one power-up stops at the first player in reach and changes
    that player only. *)
Lemma powerup_scan_spec (env : Entropy) (k : nat) (pu : Powerup.t) (d : dict Player.t) :
  match powerup_scan env k pu d with
  | None => Forall (fun kp => powerup_in_reach pu (snd kp) = false) d
  | Some (d', who, k') =>
      exists pre key post,
        d = pre ++ (key, who) :: post
        /\ Forall (fun kp => powerup_in_reach pu (snd kp) = false) pre
        /\ powerup_in_reach pu who = true
        /\ d' = pre ++ (key, fst (_apply_powerup env k who (Powerup.type pu))) :: post
        /\ k' = snd (_apply_powerup env k who (Powerup.type pu))
  end.
Proof.
  induction d as [| [key p] d IH]; cbn [powerup_scan].
  - constructor.
  - destruct (powerup_in_reach pu p) eqn:E.
    + destruct (_apply_powerup env k p (Powerup.type pu)) as [p' k1] eqn:Ea.
      exists [], key, d. rewrite Ea. repeat split; [constructor | exact E].
    + destruct (powerup_scan env k pu d) as [[[d1 w1] k1] |].
      * destruct IH as (pre & key1 & post & -> & Hpre & Hw & -> & ->).
        exists ((key, p) :: pre), key1, post.
        repeat split; [constructor; [exact E | exact Hpre] | exact Hw].
      * constructor; [exact E | exact IH].
Qed.

(** The scan for one banana passes over its owner, stops at the first other
    player in reach and changes that player only. *)
Lemma banana_scan_spec (now : Q) (bn : Banana.t) (d : dict Player.t) :
  match banana_scan now bn d with
  | None =>
      Forall (fun kp => Player.id (snd kp) = Banana.player_id bn
                        \/ banana_in_reach bn (snd kp) = false) d
  | Some d' =>
      exists pre key victim post,
        d = pre ++ (key, victim) :: post
        /\ Forall (fun kp => Player.id (snd kp) = Banana.player_id bn
                             \/ banana_in_reach bn (snd kp) = false) pre
        /\ Player.id victim <> Banana.player_id bn
        /\ banana_in_reach bn victim = true
        /\ d' = pre ++ (key, Player.set_slow_until victim
                               (py_max (Player.slow_until victim)
                                       (now + BANANA_SLOW_DURATION))) :: post
  end.
Proof.
  induction d as [| [key p] d IH]; cbn [banana_scan].
  - constructor.
  - destruct (String.eqb (Player.id p) (Banana.player_id bn)) eqn:Eo.
    + apply String.eqb_eq in Eo.
      destruct (banana_scan now bn d) as [d1 |]; cbn [option_map].
      * destruct IH as (pre & key1 & victim & post & -> & Hpre & Hv & Hr & ->).
        exists ((key, p) :: pre), key1, victim, post.
        repeat split; try assumption. constructor; [left; exact Eo | exact Hpre].
      * constructor; [left; exact Eo | exact IH].
    + apply String.eqb_neq in Eo. destruct (banana_in_reach bn p) eqn:Er.
      * exists [], key, p, d. repeat split; try assumption. constructor.
      * destruct (banana_scan now bn d) as [d1 |]; cbn [option_map].
        -- destruct IH as (pre & key1 & victim & post & -> & Hpre & Hv & Hr & ->).
           exists ((key, p) :: pre), key1, victim, post.
           repeat split; try assumption. constructor; [right; exact Er | exact Hpre].
        -- constructor; [right; exact Er | exact IH].
Qed.


(** [max(a, b)] is at least each of its arguments. *)
Lemma py_max_ge (a b : Q) : a <= py_max a b /\ b <= py_max a b.
Proof.
  destruct (py_max_cases a b) as [[H E] | [H E]]; rewrite E; split; lra.
Qed.


(** ** The pickup loops as a whole *)

Lemma powerup_scan_taken (env : Entropy) (k : nat) (pu : Powerup.t) (d : dict Player.t) :
  powerup_taken d pu = match powerup_scan env k pu d with Some _ => true | None => false end.
Proof.
  unfold powerup_taken. induction d as [| [key p] d IH]; cbn [existsb powerup_scan snd].
  - reflexivity.
  - destruct (powerup_in_reach pu p); cbn [orb].
    + destruct (_apply_powerup env k p (Powerup.type pu)). reflexivity.
    + rewrite IH. destruct (powerup_scan env k pu d) as [[[d1 w1] k1] |]; reflexivity.
Qed.

Lemma banana_scan_taken (now : Q) (bn : Banana.t) (d : dict Player.t) :
  banana_taken d bn = match banana_scan now bn d with Some _ => true | None => false end.
Proof.
  unfold banana_taken. induction d as [| [key p] d IH]; cbn [existsb banana_scan snd].
  - reflexivity.
  - destruct (String.eqb (Player.id p) (Banana.player_id bn)); cbn [negb andb orb].
    + rewrite IH. destruct (banana_scan now bn d); reflexivity.
    + destruct (banana_in_reach bn p); cbn [orb]; [reflexivity |].
      rewrite IH. destruct (banana_scan now bn d); reflexivity.
Qed.

Lemma steady_id (p p' : Player.t) : steady p = steady p' -> Player.id p = Player.id p'.
Proof. unfold steady. intro H. injection H; intros; assumption. Qed.

(** Who is within reach depends on the steady part of the players only. *)
Lemma powerup_taken_steady (d d' : dict Player.t) (pu : Powerup.t) :
  steady_players d = steady_players d' -> powerup_taken d pu = powerup_taken d' pu.
Proof.
  unfold powerup_taken. revert d'.
  induction d as [| [k p] d IH]; intros [| [k' p'] d'] He; try discriminate.
  - reflexivity.
  - apply steady_players_cons in He. destruct He as (_ & Hs & He).
    cbn [existsb snd]. rewrite (IH d' He).
    unfold powerup_in_reach. rewrite (steady_x _ _ Hs). reflexivity.
Qed.

Lemma banana_taken_steady (d d' : dict Player.t) (bn : Banana.t) :
  steady_players d = steady_players d' -> banana_taken d bn = banana_taken d' bn.
Proof.
  unfold banana_taken. revert d'.
  induction d as [| [k p] d IH]; intros [| [k' p'] d'] He; try discriminate.
  - reflexivity.
  - apply steady_players_cons in He. destruct He as (_ & Hs & He).
    cbn [existsb snd]. rewrite (IH d' He).
    unfold banana_in_reach. rewrite (steady_x _ _ Hs), (steady_id _ _ Hs). reflexivity.
Qed.

(** Items that compare equal are within the same players' reach. *)
Lemma Powerup_eqb_taken (d : dict Player.t) (a b : Powerup.t) :
  Powerup.eqb a b = true -> powerup_taken d a = powerup_taken d b.
Proof.
  unfold Powerup.eqb. rewrite !andb_true_iff. intros (((_ & _) & Hx) & Hy).
  apply Qeq_bool_iff in Hx, Hy. unfold powerup_taken.
  induction d as [| [k p] d IH]; cbn [existsb snd]; [reflexivity |].
  rewrite IH. f_equal. unfold powerup_in_reach.
  apply Qleb_comp; [| reflexivity]. rewrite Hx, Hy. reflexivity.
Qed.

Lemma Banana_eqb_taken (d : dict Player.t) (a b : Banana.t) :
  Banana.eqb a b = true -> banana_taken d a = banana_taken d b.
Proof.
  unfold Banana.eqb. rewrite !andb_true_iff. intros (((_ & Ho) & Hx) & Hy).
  apply Qeq_bool_iff in Hx, Hy. apply String.eqb_eq in Ho. unfold banana_taken.
  induction d as [| [k p] d IH]; cbn [existsb snd]; [reflexivity |].
  rewrite IH, Ho. f_equal. f_equal. unfold banana_in_reach.
  apply Qleb_comp; [| reflexivity]. rewrite Hx, Hy. reflexivity.
Qed.

Lemma filter_same {A : Type} (f g : A -> bool) (l : list A) :
  (forall a, f a = g a) -> filter f l = filter g l.
Proof.
  intro H. induction l as [| a l IH]; simpl; [reflexivity |].
  rewrite H, IH. reflexivity.
Qed.

(** The power-up loop from a state whose list is the items already passed
    over and left ([pre]) followed by those still to visit ([l]). *)
Lemma powerup_fold (env : Entropy) :
  forall (l pre : list Powerup.t) (s : Sim),
    Room.powerups (room s) = pre ++ l ->
    Forall (fun pu => powerup_taken (Room.players (room s)) pu = false) pre ->
    let s' := fold_left (powerup_step users env) l s in
    Room.powerups (room s')
    = pre ++ filter (fun pu => negb (powerup_taken (Room.players (room s)) pu)) l
    /\ (List.length (sink s')
        <= List.length (sink s)
           + List.length (filter (powerup_taken (Room.players (room s))) l))%nat.
Proof.
  induction l as [| pu l IH]; intros pre s Hl Hpre; cbn [fold_left filter].
  - rewrite app_nil_r in *. split; [exact Hl | cbn; lia].
  - pose proof (powerup_scan_taken env (tick s) pu (Room.players (room s))) as Ht.
    pose proof (powerup_step_steady env s pu) as Hst.
    destruct (powerup_scan env (tick s) pu (Room.players (room s)))
      as [[[d' who] k'] |] eqn:Es.
    + assert (powerup_step users env s pu
              = {| room :=
                     Room.set_players
                       (Room.set_powerups (room s)
                          (list_remove Powerup.eqb pu (Room.powerups (room s))))
                       d';
                   tick := k';
                   sink := db_update users powerups_collected_incr (Player.user_id who)
                             (sink s) |})
        as Hstep by (unfold powerup_step; rewrite Es; reflexivity).
      rewrite Hstep in *. clear Hstep.
      rewrite Ht. cbn [negb].
      match goal with |- context [fold_left (powerup_step users env) l ?s1] =>
        specialize (IH pre s1) end.
      cbn [room sink Room.players Room.powerups Room.set_players Room.set_powerups]
        in IH, Hst.
      assert (list_remove Powerup.eqb pu (Room.powerups (room s)) = pre ++ l) as Hrm.
      { rewrite Hl. apply list_remove_after; [| apply Powerup_eqb_refl].
        eapply Forall_impl; [| exact Hpre]. intros h Hh. cbv beta in Hh.
        destruct (Powerup.eqb h pu) eqn:Eq; [| reflexivity].
        rewrite (Powerup_eqb_taken _ h pu Eq) in Hh. congruence. }
      assert (forall a, powerup_taken d' a = powerup_taken (Room.players (room s)) a)
        as Hsame by (intro a; apply powerup_taken_steady, Hst).
      destruct (IH Hrm) as (H1 & H2).
      { eapply Forall_impl; [| exact Hpre]. intros h Hh. cbv beta in *.
        rewrite Hsame. exact Hh. }
      rewrite H1. split.
      * f_equal. apply filter_same. intro a. rewrite Hsame. reflexivity.
      * rewrite (filter_same _ _ l Hsame) in H2. cbn [List.length].
        pose proof (db_update_length powerups_collected_incr (Player.user_id who) (sink s)).
        lia.
    + assert (powerup_step users env s pu = s) as ->
        by (unfold powerup_step; rewrite Es; reflexivity).
      rewrite Ht. cbn [negb].
      specialize (IH (pre ++ [pu]) s). rewrite <- !app_assoc in IH. cbn [app] in IH.
      apply IH; [exact Hl |].
      apply Forall_app. split; [exact Hpre | constructor; [exact Ht | constructor]].
Qed.

(** The power-up loop removes exactly the power-ups within some player's
    reach, and makes at most one sink call for each. *)
Lemma collect_powerups_all (env : Entropy) (s : Sim) :
  Room.powerups (room (collect_powerups users env s))
  = filter (fun pu => negb (powerup_taken (Room.players (room s)) pu))
           (Room.powerups (room s))
  /\ (List.length (sink (collect_powerups users env s))
      <= List.length (sink s)
         + List.length (filter (powerup_taken (Room.players (room s)))
                               (Room.powerups (room s))))%nat.
Proof.
  exact (powerup_fold env (Room.powerups (room s)) [] s eq_refl (Forall_nil _)).
Qed.

Lemma banana_fold (now : Q) :
  forall (l pre : list Banana.t) (s : Sim),
    Room.bananas (room s) = pre ++ l ->
    Forall (fun bn => banana_taken (Room.players (room s)) bn = false) pre ->
    Room.bananas (room (fold_left (banana_step now) l s))
    = pre ++ filter (fun bn => negb (banana_taken (Room.players (room s)) bn)) l.
Proof.
  induction l as [| bn l IH]; intros pre s Hl Hpre; cbn [fold_left filter].
  - rewrite app_nil_r in *. exact Hl.
  - pose proof (banana_scan_taken now bn (Room.players (room s))) as Ht.
    pose proof (banana_step_steady now s bn) as Hst.
    destruct (banana_scan now bn (Room.players (room s))) as [d' |] eqn:Es.
    + assert (banana_step now s bn
              = on_room
                  (fun r => Room.set_bananas (Room.set_players r d')
                              (list_remove Banana.eqb bn (Room.bananas r))) s)
        as Hstep by (unfold banana_step; rewrite Es; reflexivity).
      rewrite Hstep in *. clear Hstep.
      rewrite Ht. cbn [negb].
      match goal with |- context [fold_left (banana_step now) l ?s1] =>
        specialize (IH pre s1) end.
      cbn [room on_room Room.players Room.bananas Room.set_players Room.set_bananas]
        in IH, Hst.
      assert (list_remove Banana.eqb bn (Room.bananas (room s)) = pre ++ l) as Hrm.
      { rewrite Hl. apply list_remove_after; [| apply Banana_eqb_refl].
        eapply Forall_impl; [| exact Hpre]. intros h Hh. cbv beta in Hh.
        destruct (Banana.eqb h bn) eqn:Eq; [| reflexivity].
        rewrite (Banana_eqb_taken _ h bn Eq) in Hh. congruence. }
      assert (forall a, banana_taken d' a = banana_taken (Room.players (room s)) a)
        as Hsame by (intro a; apply banana_taken_steady, Hst).
      rewrite (IH Hrm).
      * f_equal. apply filter_same. intro a. rewrite Hsame. reflexivity.
      * eapply Forall_impl; [| exact Hpre]. intros h Hh. cbv beta in *.
        rewrite Hsame. exact Hh.
    + assert (banana_step now s bn = s) as ->
        by (unfold banana_step; rewrite Es; reflexivity).
      rewrite Ht. cbn [negb].
      specialize (IH (pre ++ [bn]) s). rewrite <- !app_assoc in IH. cbn [app] in IH.
      apply IH; [exact Hl |].
      apply Forall_app. split; [exact Hpre | constructor; [exact Ht | constructor]].
Qed.

(** The banana loop removes exactly the bananas within reach of some player
    other than their owner. *)
Lemma collect_bananas_all (now : Q) (s : Sim) :
  Room.bananas (room (collect_bananas now s))
  = filter (fun bn => negb (banana_taken (Room.players (room s)) bn))
           (Room.bananas (room s)).
Proof.
  exact (banana_fold now (Room.bananas (room s)) [] s eq_refl (Forall_nil _)).
Qed.

(** ** Calling the step again at the same time *)

Lemma thinned_refl {A : Type} (R : A -> A -> Prop) (l : list A) :
  (forall a, R a a) -> thinned R l l.
Proof.
  intro Hr. induction l; constructor; [apply Hr | assumption].
Qed.

Lemma thinned_remove {A : Type} (eqb : A -> A -> bool) (a : A) (l : list A) :
  thinned eq l (list_remove eqb a l).
Proof.
  induction l as [| h l IH]; simpl.
  - constructor.
  - destruct (eqb h a).
    + apply thinned_drop, thinned_refl. reflexivity.
    + apply thinned_keep; [reflexivity | exact IH].
Qed.

Lemma thinned_then_eq {A : Type} (R : A -> A -> Prop) (l1 l2 l3 : list A) :
  thinned R l1 l2 -> thinned eq l2 l3 -> thinned R l1 l3.
Proof.
  intro H. revert l3. induction H as [| a l l' _ IH | a a' l l' Ha _ IH]; intros l3 H3.
  - inversion H3. constructor.
  - apply thinned_drop, IH, H3.
  - inversion H3 as [| ? ? ? H3' | ? ? ? ? Heq H3']; subst.
    + apply thinned_drop, IH, H3'.
    + apply thinned_keep; [exact Ha | apply IH, H3'].
Qed.

Lemma fold_left_thinned {S A B : Type} (f : S -> A -> S) (g : S -> list B) :
  (forall s a, thinned eq (g s) (g (f s a))) ->
  forall l s, thinned eq (g s) (g (fold_left f l s)).
Proof.
  intros Hf l. induction l as [| a l IH]; intro s; simpl.
  - apply thinned_refl. reflexivity.
  - eapply thinned_then_eq; [apply Hf | apply IH].
Qed.

Lemma blast_items (e : Explosion.t) (s : Sim) (b : Balloon.t) :
  Room.powerups (room (blast users e s b)) = Room.powerups (room s)
  /\ Room.bananas (room (blast users e s b)) = Room.bananas (room s)
  /\ tick (blast users e s b) = tick s
  /\ thinned eq (Room.balloons (room s)) (Room.balloons (room (blast users e s b))).
Proof.
  unfold blast. destruct (hits e b).
  - cbn [Room.players Room.set_balloons].
    destruct (dict_get (Room.players (room s)) (Explosion.player_id e));
      repeat split; apply thinned_remove.
  - repeat split. apply thinned_refl. reflexivity.
Qed.

Lemma explosion_step_items (now : Q) (s : Sim) (e : Explosion.t) :
  Room.powerups (room (explosion_step users now s e)) = Room.powerups (room s)
  /\ Room.bananas (room (explosion_step users now s e)) = Room.bananas (room s)
  /\ tick (explosion_step users now s e) = tick s
  /\ thinned eq (Room.balloons (room s)) (Room.balloons (room (explosion_step users now s e))).
Proof.
  unfold explosion_step. destruct (Qltb (Explosion.expires_at e) now).
  - repeat split. apply thinned_refl. reflexivity.
  - repeat split.
    + apply (fold_left_keeps (blast users e) (fun s => Room.powerups (room s))).
      intros; apply blast_items.
    + apply (fold_left_keeps (blast users e) (fun s => Room.bananas (room s))).
      intros; apply blast_items.
    + apply (fold_left_keeps (blast users e) tick). intros; apply blast_items.
    + apply (fold_left_thinned (blast users e) (fun s => Room.balloons (room s))).
      intros; apply blast_items.
Qed.

Lemma resolve_explosions_items (now : Q) (s : Sim) :
  Room.powerups (room (resolve_explosions users now s)) = Room.powerups (room s)
  /\ Room.bananas (room (resolve_explosions users now s)) = Room.bananas (room s)
  /\ tick (resolve_explosions users now s) = tick s
  /\ thinned eq (Room.balloons (room s)) (Room.balloons (room (resolve_explosions users now s))).
Proof.
  unfold resolve_explosions. repeat split.
  - apply (fold_left_keeps (explosion_step users now) (fun s => Room.powerups (room s))).
    intros; apply explosion_step_items.
  - apply (fold_left_keeps (explosion_step users now) (fun s => Room.bananas (room s))).
    intros; apply explosion_step_items.
  - apply (fold_left_keeps (explosion_step users now) tick).
    intros; apply explosion_step_items.
  - apply (fold_left_thinned (explosion_step users now) (fun s => Room.balloons (room s))).
    intros; apply explosion_step_items.
Qed.

Lemma powerup_step_items (env : Entropy) (s : Sim) (pu : Powerup.t) :
  Room.balloons (room (powerup_step users env s pu)) = Room.balloons (room s)
  /\ Room.bananas (room (powerup_step users env s pu)) = Room.bananas (room s)
  /\ thinned eq (Room.powerups (room s)) (Room.powerups (room (powerup_step users env s pu))).
Proof.
  unfold powerup_step.
  destruct (powerup_scan env (tick s) pu (Room.players (room s))) as [[[d' who] k'] |].
  - repeat split. apply thinned_remove.
  - repeat split. apply thinned_refl. reflexivity.
Qed.

Lemma collect_powerups_items (env : Entropy) (s : Sim) :
  Room.balloons (room (collect_powerups users env s)) = Room.balloons (room s)
  /\ Room.bananas (room (collect_powerups users env s)) = Room.bananas (room s)
  /\ thinned eq (Room.powerups (room s)) (Room.powerups (room (collect_powerups users env s))).
Proof.
  unfold collect_powerups. repeat split.
  - apply (fold_left_keeps (powerup_step users env) (fun s => Room.balloons (room s))).
    intros; apply powerup_step_items.
  - apply (fold_left_keeps (powerup_step users env) (fun s => Room.bananas (room s))).
    intros; apply powerup_step_items.
  - apply (fold_left_thinned (powerup_step users env) (fun s => Room.powerups (room s))).
    intros; apply powerup_step_items.
Qed.

Lemma banana_step_items (now : Q) (s : Sim) (bn : Banana.t) :
  Room.balloons (room (banana_step now s bn)) = Room.balloons (room s)
  /\ Room.powerups (room (banana_step now s bn)) = Room.powerups (room s)
  /\ tick (banana_step now s bn) = tick s
  /\ thinned eq (Room.bananas (room s)) (Room.bananas (room (banana_step now s bn))).
Proof.
  unfold banana_step.
  destruct (banana_scan now bn (Room.players (room s))) as [d' |].
  - repeat split. apply thinned_remove.
  - repeat split. apply thinned_refl. reflexivity.
Qed.

Lemma collect_bananas_items (now : Q) (s : Sim) :
  Room.balloons (room (collect_bananas now s)) = Room.balloons (room s)
  /\ Room.powerups (room (collect_bananas now s)) = Room.powerups (room s)
  /\ tick (collect_bananas now s) = tick s
  /\ thinned eq (Room.bananas (room s)) (Room.bananas (room (collect_bananas now s))).
Proof.
  unfold collect_bananas. repeat split.
  - apply (fold_left_keeps (banana_step now) (fun s => Room.balloons (room s))).
    intros; apply banana_step_items.
  - apply (fold_left_keeps (banana_step now) (fun s => Room.powerups (room s))).
    intros; apply banana_step_items.
  - apply (fold_left_keeps (banana_step now) tick). intros; apply banana_step_items.
  - apply (fold_left_thinned (banana_step now) (fun s => Room.bananas (room s))).
    intros; apply banana_step_items.
Qed.

Lemma spawn_loop_below (env : Entropy) (fuel : nat) :
  forall s,
    Room.spawn_accum (room s) < inject_Z (Z.of_nat fuel) + 1 ->
    Room.spawn_accum (room (spawn_loop env fuel s)) < 1.
Proof.
  induction fuel as [| fuel IH]; intros s Hhi.
  - cbn [spawn_loop]. change (inject_Z (Z.of_nat 0)) with 0 in Hhi. lra.
  - cbn [spawn_loop].
    destruct (Qle_bool 1.0 (Room.spawn_accum (room s))) eqn:E.
    + cbn [_new_balloon]. apply IH. cbn.
      rewrite Nat2Z.inj_succ, <- Z.add_1_r, inject_Z_plus in Hhi.
      change (inject_Z 1) with 1 in Hhi. lra.
    + apply Qle_bool_gt in E. lra.
Qed.

Lemma spawn_rounds_above (a : Q) : a < inject_Z (Z.of_nat (spawn_rounds a)) + 1.
Proof.
  unfold spawn_rounds.
  pose proof (Qlt_floor a) as H. rewrite inject_Z_plus in H.
  change (inject_Z 1) with 1 in H.
  destruct (Z.le_gt_cases 0 (Qfloor a)) as [Hf | Hf].
  - rewrite Z2Nat.id by exact Hf. exact H.
  - assert (Z.to_nat (Qfloor a) = 0%nat) as -> by lia.
    change (inject_Z (Z.of_nat 0)) with 0.
    assert (inject_Z (Qfloor a) <= inject_Z 0) as Hq by (rewrite <- Zle_Qle; lia).
    change (inject_Z 0) with 0 in Hq. lra.
Qed.

(** The fuel [spawn_balloons] gives the loop is enough for it to reach its
    exit test: any larger amount gives the same result. *)
Lemma spawn_rounds_suffice (env : Entropy) (s : Sim) (more : nat) :
  spawn_loop env (spawn_rounds (Room.spawn_accum (room s)) + more) s
  = spawn_loop env (spawn_rounds (Room.spawn_accum (room s))) s.
Proof.
  exact (spawn_loop_enough env (spawn_rounds (Room.spawn_accum (room s))) more s
           (spawn_rounds_above (Room.spawn_accum (room s)))).
Qed.

Lemma spawn_rounds_zero (a : Q) : a < 1 -> spawn_rounds a = 0%nat.
Proof.
  intro Ha. unfold spawn_rounds.
  pose proof (Qfloor_le a) as H.
  assert (inject_Z (Qfloor a) < inject_Z 1) as Hq by (change (inject_Z 1) with 1; lra).
  rewrite <- Zlt_Qlt in Hq. lia.
Qed.

Lemma tick_powerup_timer_below (env : Entropy) (dt : Q) (s : Sim) :
  Room.powerup_timer (room (tick_powerup_timer env dt s)) < POWERUP_SPAWN_INTERVAL.
Proof.
  unfold tick_powerup_timer. cbn [room on_room Room.powerup_timer Room.set_powerup_timer].
  destruct (Qle_bool POWERUP_SPAWN_INTERVAL (Room.powerup_timer (room s) + dt)) eqn:E.
  - cbn. unfold POWERUP_SPAWN_INTERVAL. lra.
  - apply Qle_bool_gt in E. exact E.
Qed.

Lemma tick_banana_timer_below (env : Entropy) (dt : Q) (s : Sim) :
  Room.banana_timer (room (tick_banana_timer env dt s)) < BANANA_SPAWN_INTERVAL.
Proof.
  unfold tick_banana_timer. cbn [room on_room Room.banana_timer Room.set_banana_timer].
  destruct (Qle_bool BANANA_SPAWN_INTERVAL (Room.banana_timer (room s) + dt)) eqn:E.
  - cbn. unfold BANANA_SPAWN_INTERVAL. lra.
  - apply Qle_bool_gt in E. exact E.
Qed.

(** What one call of [_advance_room] leaves behind. *)
Lemma advance_room_settled (env : Entropy) (s : Sim) (now : Q) :
  let r := room (_advance_room users env s now) in
  Room.last_update r = now
  /\ Room.spawn_accum r < 1
  /\ Room.powerup_timer r < POWERUP_SPAWN_INTERVAL
  /\ Room.banana_timer r < BANANA_SPAWN_INTERVAL.
Proof.
  cbv zeta. split; [apply advance_room_last_update |].
  destruct (timers_inv _ _ (advance_room_timers env s now)) as (_ & Ha & Hp & Hb).
  rewrite Ha, Hp, Hb. clear Ha Hp Hb.
  match goal with |- context [tick_banana_timer env ?d ?s0] =>
    destruct (tick_banana_timer_keeps env d s0) as (_ & _ & _ & Ha & Hp & _) end.
  rewrite Ha, Hp. clear Ha Hp.
  match goal with |- context [tick_powerup_timer env ?d ?s0] =>
    destruct (tick_powerup_timer_keeps env d s0) as (_ & _ & _ & Ha & _) end.
  rewrite Ha. clear Ha.
  split; [| split].
  - unfold spawn_balloons. apply spawn_loop_below. cbn [room Room.spawn_accum].
    apply spawn_rounds_above.
  - apply tick_powerup_timer_below.
  - apply tick_banana_timer_below.
Qed.

Lemma elapsed_zero (r : Room.t) : elapsed r (Room.last_update r) = 0.0.
Proof.
  unfold elapsed.
  assert (py_min 0.05 (Room.last_update r - Room.last_update r)
          = Room.last_update r - Room.last_update r) as ->.
  { unfold py_min.
    assert (Qltb (Room.last_update r - Room.last_update r) 0.05 = true) as ->
      by (apply Qltb_lt; lra).
    reflexivity. }
  unfold py_max.
  assert (Qltb 0.0 (Room.last_update r - Room.last_update r) = false) as ->
    by (apply Qltb_ge; lra).
  reflexivity.
Qed.

Lemma advance_player_x (now dt : Q) (p : Player.t) :
  Player.x (advance_player now dt p)
  = py_max 30 (py_min (inject_Z (GAME_WIDTH - 30))
                      (Player.x p + Player.vx p * _player_speed p now * dt)).
Proof.
  unfold advance_player.
  case_if; reflexivity.
Qed.

Lemma advance_players_same_spot (now : Q) (d : dict Player.t) :
  Forall (fun kp => in_arena (snd kp)) d ->
  Forall2 same_spot d (advance_players now 0.0 d).
Proof.
  intro H. induction H as [| [k p] d [Hlo Hhi] _ IH]; cbn [advance_players map].
  - constructor.
  - constructor; [| exact IH].
    split; [reflexivity |]. cbn [fst snd] in *. rewrite advance_player_x.
    assert (Player.x p + Player.vx p * _player_speed p now * 0.0 == Player.x p)
      as Hx by ring.
    rewrite clamp_fixed; rewrite ?Hx; try assumption. reflexivity.
Qed.

Lemma same_spot_steady (a b c : dict Player.t) :
  Forall2 same_spot a b -> steady_players c = steady_players b ->
  Forall2 same_spot a c.
Proof.
  intro H. revert c.
  induction H as [| [k p] [k' p'] a b [Hk Hx] _ IH]; intros [| [k2 p2] c] He;
    try discriminate; constructor.
  - apply steady_players_cons in He. destruct He as (-> & Hs & _).
    split; [exact Hk |]. cbn [fst snd] in *. rewrite (steady_x _ _ Hs). exact Hx.
  - apply steady_players_cons in He. destruct He as (_ & _ & He). apply IH, He.
Qed.

Lemma advance_balloons_still (bs : list Balloon.t) :
  thinned same_balloon bs (advance_balloons 0.0 bs).
Proof.
  induction bs as [| b bs IH]; cbn [advance_balloons].
  - constructor.
  - case_if.
    + apply thinned_drop, IH.
    + apply thinned_keep; [| exact IH].
      unfold same_balloon. cbn. repeat split; try reflexivity. ring.
Qed.

Lemma spawn_balloons_idle (env : Entropy) (s : Sim) :
  Room.spawn_accum (room s) < 1 ->
  Room.balloons (room (spawn_balloons env 0.0 s)) = Room.balloons (room s).
Proof.
  intro Ha. unfold spawn_balloons. rewrite spawn_rounds_zero; [reflexivity |].
  cbn [room Room.spawn_accum Room.set_spawn_accum].
  match goal with |- ?a + 0.0 * ?b < 1 =>
    assert (a + 0.0 * b == a) as -> by ring end.
  exact Ha.
Qed.

Lemma tick_powerup_timer_idle (env : Entropy) (s : Sim) :
  Room.powerup_timer (room s) < POWERUP_SPAWN_INTERVAL ->
  Room.powerups (room (tick_powerup_timer env 0.0 s)) = Room.powerups (room s).
Proof.
  intro Ht. unfold tick_powerup_timer.
  cbn [room on_room Room.powerup_timer Room.set_powerup_timer].
  assert (Qle_bool POWERUP_SPAWN_INTERVAL (Room.powerup_timer (room s) + 0.0) = false)
    as -> by (apply Qle_bool_gt; lra).
  reflexivity.
Qed.

Lemma tick_banana_timer_idle (env : Entropy) (s : Sim) :
  Room.banana_timer (room s) < BANANA_SPAWN_INTERVAL ->
  Room.powerups (room (tick_banana_timer env 0.0 s)) = Room.powerups (room s).
Proof.
  intro Ht. unfold tick_banana_timer.
  cbn [room on_room Room.banana_timer Room.set_banana_timer].
  assert (Qle_bool BANANA_SPAWN_INTERVAL (Room.banana_timer (room s) + 0.0) = false)
    as -> by (apply Qle_bool_gt; lra).
  reflexivity.
Qed.

(** A step whose elapsed delta is zero, from a room in which the players
    stand in the arena and the accumulators are below their thresholds. *)
Lemma advance_room_zero_step (env : Entropy) (s : Sim) (now : Q) :
  elapsed (room s) now = 0.0 ->
  Forall (fun kp => in_arena (snd kp)) (Room.players (room s)) ->
  Room.spawn_accum (room s) < 1 ->
  Room.powerup_timer (room s) < POWERUP_SPAWN_INTERVAL ->
  Room.banana_timer (room s) < BANANA_SPAWN_INTERVAL ->
  let s' := _advance_room users env s now in
  Forall2 same_spot (Room.players (room s)) (Room.players (room s'))
  /\ thinned same_balloon (Room.balloons (room s)) (Room.balloons (room s'))
  /\ thinned eq (Room.powerups (room s)) (Room.powerups (room s'))
  /\ thinned eq (Room.bananas (room s)) (Room.bananas (room s')).
Proof.
  intros Hz Har Hacc Hpt Hbt s'. split.
  { apply same_spot_steady
      with (b := advance_players now 0.0 (Room.players (room s))).
    - apply advance_players_same_spot, Har.
    - unfold s'. rewrite advance_room_steady, Hz. reflexivity. }
  unfold s', _advance_room. cbv zeta. rewrite Hz.
  set (sb := on_room (fun r => Room.set_balloons r (advance_balloons 0.0 (Room.balloons r)))
               (on_room (fun r => Room.set_players r
                                    (advance_players now 0.0 (Room.players r)))
                  (on_room (fun r => Room.set_last_update r now) s))).
  set (s4 := spawn_balloons env 0.0 sb).
  set (s5 := tick_powerup_timer env 0.0 s4).
  set (s6 := tick_banana_timer env 0.0 s5).
  set (s7 := expire_fuses env now s6).
  set (s8 := resolve_explosions users now s7).
  set (s9 := collect_powerups users env s8).
  destruct (spawn_balloons_keeps env 0.0 sb) as (_ & H4p & H4n & H4pt & H4bt & _).
  fold s4 in H4p, H4n, H4pt, H4bt.
  pose proof (spawn_balloons_idle env sb Hacc) as H4b. fold s4 in H4b.
  destruct (tick_powerup_timer_keeps env 0.0 s4) as (_ & H5b & H5n & _ & H5bt & _).
  fold s5 in H5b, H5n, H5bt.
  assert (Room.powerups (room s5) = Room.powerups (room s4)) as H5p.
  { apply tick_powerup_timer_idle. rewrite H4pt. exact Hpt. }
  destruct (tick_banana_timer_keeps env 0.0 s5) as (_ & H6b & H6n & _).
  fold s6 in H6b, H6n.
  assert (Room.powerups (room s6) = Room.powerups (room s5)) as H6p.
  { apply tick_banana_timer_idle. rewrite H5bt, H4bt. exact Hbt. }
  destruct (expire_fuses_keeps env now s6) as (_ & H7b & H7p & H7n & _).
  fold s7 in H7b, H7p, H7n.
  destruct (resolve_explosions_items now s7) as (H8p & H8n & _ & H8b).
  fold s8 in H8p, H8n, H8b.
  destruct (collect_powerups_items env s8) as (H9b & H9n & H9p). fold s9 in H9b, H9n, H9p.
  destruct (collect_bananas_items now s9) as (H10b & H10p & _ & H10n).
  split; [| split].
  - rewrite H10b, H9b.
    eapply thinned_then_eq; [| exact H8b].
    rewrite H7b, H6b, H5b, H4b. apply advance_balloons_still.
  - rewrite H10p.
    replace (Room.powerups (room s)) with (Room.powerups (room s8)); [exact H9p |].
    rewrite H8p, H7p, H6p, H5p, H4p. reflexivity.
  - replace (Room.bananas (room s)) with (Room.bananas (room s9)); [exact H10n |].
    rewrite H9n, H8n, H7n, H6n, H5n, H4n. reflexivity.
Qed.

(** A step at the time of the last update. *)
Lemma advance_room_idle (env : Entropy) (s : Sim) :
  Forall (fun kp => in_arena (snd kp)) (Room.players (room s)) ->
  Room.spawn_accum (room s) < 1 ->
  Room.powerup_timer (room s) < POWERUP_SPAWN_INTERVAL ->
  Room.banana_timer (room s) < BANANA_SPAWN_INTERVAL ->
  let s' := _advance_room users env s (Room.last_update (room s)) in
  Forall2 same_spot (Room.players (room s)) (Room.players (room s'))
  /\ thinned same_balloon (Room.balloons (room s)) (Room.balloons (room s'))
  /\ thinned eq (Room.powerups (room s)) (Room.powerups (room s'))
  /\ thinned eq (Room.bananas (room s)) (Room.bananas (room s')).
Proof.
  apply advance_room_zero_step, elapsed_zero.
Qed.

(** C4. Calling [_advance_room] again with the [now] of the call just made
    moves nothing and spawns nothing: every player keeps its key and its [x];
    the falling balloons are those of before, at the same place, possibly
    fewer but none new; and no power-up or banana is added. *)
Theorem advance_room_again_same_now (env env' : Entropy) (s : Sim) (now : Q) :
  let s1 := _advance_room users env s now in
  let s2 := _advance_room users env' s1 now in
  Forall2 (fun kp kp' => fst kp = fst kp' /\ Player.x (snd kp) == Player.x (snd kp'))
          (Room.players (room s1)) (Room.players (room s2))
  /\ thinned same_balloon (Room.balloons (room s1)) (Room.balloons (room s2))
  /\ thinned eq (Room.powerups (room s1)) (Room.powerups (room s2))
  /\ thinned eq (Room.bananas (room s1)) (Room.bananas (room s2)).
Proof.
  intros s1 s2.
  destruct (advance_room_settled env s now) as (Hlu & Hacc & Hpt & Hbt).
  fold s1 in Hlu, Hacc, Hpt, Hbt.
  pose proof (advance_room_idle env' s1 (advance_room_in_arena env s now) Hacc Hpt Hbt)
    as H.
  rewrite Hlu in H. exact H.
Qed.

(** ** What the step reads from outside *)

Lemma agree_narrow (e1 e2 : Entropy) (lo hi lo' hi' : nat) :
  agree e1 e2 lo hi -> (lo <= lo')%nat -> (hi' <= hi)%nat -> agree e1 e2 lo' hi'.
Proof.
  intros H Hlo Hhi k Hk. apply H. lia.
Qed.

Lemma reads_only_pure (g : Sim -> Sim) : reads_only (fun _ s => g s).
Proof. intros e1 e2 s _. reflexivity. Qed.

Lemma forward_pure (g : Sim -> Sim) :
  (forall s, tick (g s) = tick s) -> forward (fun _ s => g s).
Proof. intros H e s. rewrite H. apply Nat.le_refl. Qed.

Lemma reads_only_comp (f g : Entropy -> Sim -> Sim) :
  reads_only f -> forward f -> reads_only g -> forward g ->
  reads_only (fun e s => g e (f e s)).
Proof.
  intros Hf Ff Hg Fg e1 e2 s Ha.
  assert (f e1 s = f e2 s) as Hfs.
  { apply Hf. eapply agree_narrow; [exact Ha | apply Nat.le_refl | apply Fg]. }
  rewrite <- Hfs. apply Hg.
  eapply agree_narrow; [exact Ha | apply Ff | apply Nat.le_refl].
Qed.

Lemma forward_comp (f g : Entropy -> Sim -> Sim) :
  forward f -> forward g -> forward (fun e s => g e (f e s)).
Proof.
  intros Ff Fg e s. eapply Nat.le_trans; [apply Ff | apply Fg].
Qed.

Lemma forward_fold {A : Type} (step : Entropy -> Sim -> A -> Sim) :
  (forall a, forward (fun e s => step e s a)) ->
  forall l, forward (fun e s => fold_left (step e) l s).
Proof.
  intros Fs l. induction l as [| a l IH]; intros e s; cbn [fold_left].
  - apply Nat.le_refl.
  - eapply Nat.le_trans; [apply (Fs a e s) | apply IH].
Qed.

Lemma reads_only_fold {A : Type} (step : Entropy -> Sim -> A -> Sim) :
  (forall a, reads_only (fun e s => step e s a)) ->
  (forall a, forward (fun e s => step e s a)) ->
  forall l, reads_only (fun e s => fold_left (step e) l s).
Proof.
  intros Hs Fs l. induction l as [| a l IH]; intros e1 e2 s Ha; cbn [fold_left] in *.
  - reflexivity.
  - assert (step e1 s a = step e2 s a) as Hst.
    { apply (Hs a). eapply agree_narrow; [exact Ha | apply Nat.le_refl |].
      apply (forward_fold step Fs l e1 (step e1 s a)). }
    rewrite <- Hst. apply IH.
    eapply agree_narrow; [exact Ha | apply (Fs a e1 s) | apply Nat.le_refl].
Qed.

Lemma uuid_prefix_agree (e1 e2 : Entropy) (lo hi k n : nat) :
  agree e1 e2 lo hi -> (lo <= k < hi)%nat -> uuid_prefix e1 k n = uuid_prefix e2 k n.
Proof.
  intros H Hk. unfold uuid_prefix. destruct (H k Hk) as (_ & _ & -> & _). reflexivity.
Qed.

Lemma random_uniform_agree (e1 e2 : Entropy) (lo hi k : nat) (a b : Q) :
  agree e1 e2 lo hi -> (lo <= k < hi)%nat ->
  random_uniform e1 k a b = random_uniform e2 k a b.
Proof.
  intros H Hk. unfold random_uniform. destruct (H k Hk) as (-> & _). reflexivity.
Qed.

Lemma random_choice_agree {A : Type} (e1 e2 : Entropy) (lo hi k : nat)
    (seq : list A) (d : A) :
  agree e1 e2 lo hi -> (lo <= k < hi)%nat ->
  random_choice e1 k seq d = random_choice e2 k seq d.
Proof.
  intros H Hk. unfold random_choice. destruct (H k Hk) as (_ & -> & _). reflexivity.
Qed.

Lemma now_agree (e1 e2 : Entropy) (lo hi k : nat) :
  agree e1 e2 lo hi -> (lo <= k < hi)%nat -> _now e1 k = _now e2 k.
Proof.
  intros H Hk. unfold _now. destruct (H k Hk) as (_ & _ & _ & ->). reflexivity.
Qed.

Lemma new_balloon_agree (e1 e2 : Entropy) (k : nat) :
  agree e1 e2 k (5 + k) -> _new_balloon e1 k = _new_balloon e2 k.
Proof.
  intro H. unfold _new_balloon.
  rewrite (uuid_prefix_agree e1 e2 _ _ k 8 H) by lia.
  rewrite (random_uniform_agree e1 e2 _ _ (1 + k) _ _ H) by lia.
  rewrite (random_uniform_agree e1 e2 _ _ (2 + k) _ _ H) by lia.
  rewrite (random_uniform_agree e1 e2 _ _ (3 + k) _ _ H) by lia.
  rewrite (random_choice_agree e1 e2 _ _ (4 + k) _ _ H) by lia.
  reflexivity.
Qed.

Lemma spawn_loop_forward (fuel : nat) : forward (fun e s => spawn_loop e fuel s).
Proof.
  induction fuel as [| fuel IH]; intros e s; cbn [spawn_loop].
  - apply Nat.le_refl.
  - destruct (Qle_bool 1.0 (Room.spawn_accum (room s))); [| apply Nat.le_refl].
    cbn [_new_balloon].
    match goal with |- context [spawn_loop e fuel ?s1] =>
      pose proof (IH e s1) as H end.
    cbn [tick] in H. lia.
Qed.

Lemma spawn_loop_reads_only (fuel : nat) : reads_only (fun e s => spawn_loop e fuel s).
Proof.
  induction fuel as [| fuel IH]; intros e1 e2 s Ha; cbn [spawn_loop] in *.
  - reflexivity.
  - destruct (Qle_bool 1.0 (Room.spawn_accum (room s))); [| reflexivity].
    assert (_new_balloon e1 (tick s) = _new_balloon e2 (tick s)) as Hb.
    { apply new_balloon_agree. eapply agree_narrow; [exact Ha | apply Nat.le_refl |].
      revert Ha. cbn [_new_balloon]. intros _.
      match goal with |- context [spawn_loop e1 fuel ?s1] =>
        pose proof (spawn_loop_forward fuel e1 s1) as H end.
      cbn [tick] in H. exact H. }
    rewrite <- Hb. cbn [_new_balloon] in *. apply IH.
    eapply agree_narrow; [exact Ha | cbn [tick]; lia | apply Nat.le_refl].
Qed.

Lemma spawn_balloons_forward (dt : Q) : forward (fun e s => spawn_balloons e dt s).
Proof.
  intros e s. unfold spawn_balloons.
  match goal with |- context [spawn_loop e ?f ?s1] =>
    exact (spawn_loop_forward f e s1) end.
Qed.

Lemma spawn_balloons_reads_only (dt : Q) : reads_only (fun e s => spawn_balloons e dt s).
Proof.
  intros e1 e2 s Ha. unfold spawn_balloons in *.
  match goal with |- spawn_loop e1 ?f ?s1 = _ =>
    exact (spawn_loop_reads_only f e1 e2 s1 Ha) end.
Qed.

Lemma spawn_powerup_agree (e1 e2 : Entropy) (s : Sim) :
  agree e1 e2 (tick s) (3 + tick s) -> _spawn_powerup e1 s = _spawn_powerup e2 s.
Proof.
  intro H. unfold _spawn_powerup. cbv zeta.
  rewrite (random_choice_agree e1 e2 _ _ (tick s) _ _ H) by lia.
  rewrite (uuid_prefix_agree e1 e2 _ _ (1 + tick s) 8 H) by lia.
  rewrite (random_uniform_agree e1 e2 _ _ (2 + tick s) _ _ H) by lia.
  reflexivity.
Qed.

Lemma spawn_banana_powerup_agree (e1 e2 : Entropy) (s : Sim) :
  agree e1 e2 (tick s) (2 + tick s) ->
  _spawn_banana_powerup e1 s = _spawn_banana_powerup e2 s.
Proof.
  intro H. unfold _spawn_banana_powerup. cbv zeta.
  rewrite (uuid_prefix_agree e1 e2 _ _ (tick s) 8 H) by lia.
  rewrite (random_uniform_agree e1 e2 _ _ (1 + tick s) _ _ H) by lia.
  reflexivity.
Qed.

Lemma tick_powerup_timer_forward (dt : Q) : forward (fun e s => tick_powerup_timer e dt s).
Proof.
  intros e s. unfold tick_powerup_timer.
  case_if; cbn; lia.
Qed.

Lemma tick_powerup_timer_reads_only (dt : Q) :
  reads_only (fun e s => tick_powerup_timer e dt s).
Proof.
  intros e1 e2 s Ha. unfold tick_powerup_timer in *.
  case_if; [| reflexivity].
  rewrite (spawn_powerup_agree e1 e2); [reflexivity | exact Ha].
Qed.

Lemma tick_banana_timer_forward (dt : Q) : forward (fun e s => tick_banana_timer e dt s).
Proof.
  intros e s. unfold tick_banana_timer.
  case_if; cbn; lia.
Qed.

Lemma tick_banana_timer_reads_only (dt : Q) :
  reads_only (fun e s => tick_banana_timer e dt s).
Proof.
  intros e1 e2 s Ha. unfold tick_banana_timer in *.
  case_if; [| reflexivity].
  rewrite (spawn_banana_powerup_agree e1 e2); [reflexivity | exact Ha].
Qed.

Lemma fuse_step_forward (now : Q) (pl : Placed.t) :
  forward (fun e s => fuse_step e now s pl).
Proof.
  intros e s. unfold fuse_step.
  case_if; cbn; lia.
Qed.

Lemma fuse_step_reads_only (now : Q) (pl : Placed.t) :
  reads_only (fun e s => fuse_step e now s pl).
Proof.
  intros e1 e2 s Ha. unfold fuse_step in *.
  case_if; [| reflexivity].
  cbn [tick] in Ha. cbv zeta.
  rewrite (uuid_prefix_agree e1 e2 _ _ (tick s) 8 Ha) by lia. reflexivity.
Qed.

Lemma powerup_scan_agree (e1 e2 : Entropy) (k : nat) (pu : Powerup.t) (d : dict Player.t) :
  match powerup_scan e1 k pu d with
  | None => powerup_scan e2 k pu d = None
  | Some (d', who, k') =>
      (k <= k')%nat
      /\ (agree e1 e2 k k' -> powerup_scan e2 k pu d = Some (d', who, k'))
  end.
Proof.
  induction d as [| [key p] d IH]; cbn [powerup_scan].
  - reflexivity.
  - destruct (powerup_in_reach pu p).
    + unfold _apply_powerup. destruct (Powerup.type pu); (split; [lia |]); intro Ha;
        try reflexivity.
      rewrite (now_agree e1 e2 _ _ k Ha) by lia. reflexivity.
    + destruct (powerup_scan e1 k pu d) as [[[d1 w1] k1] |].
      * destruct IH as [Hle IH]. split; [exact Hle |].
        intro Ha. rewrite (IH Ha). reflexivity.
      * rewrite IH. reflexivity.
Qed.

Lemma powerup_step_forward (pu : Powerup.t) : forward (fun e s => powerup_step users e s pu).
Proof.
  intros e s. unfold powerup_step.
  pose proof (powerup_scan_agree e e (tick s) pu (Room.players (room s))) as H.
  destruct (powerup_scan e (tick s) pu (Room.players (room s))) as [[[d' who] k'] |].
  - cbn [tick]. apply H.
  - apply Nat.le_refl.
Qed.

Lemma powerup_step_reads_only (pu : Powerup.t) :
  reads_only (fun e s => powerup_step users e s pu).
Proof.
  intros e1 e2 s Ha. unfold powerup_step in *.
  pose proof (powerup_scan_agree e1 e2 (tick s) pu (Room.players (room s))) as H.
  destruct (powerup_scan e1 (tick s) pu (Room.players (room s))) as [[[d' who] k'] |].
  - destruct H as [_ H]. cbn [tick] in Ha. rewrite (H Ha). reflexivity.
  - rewrite H. reflexivity.
Qed.

Lemma reads_forward_comp (f g : Entropy -> Sim -> Sim) :
  reads_only f /\ forward f -> reads_only g /\ forward g ->
  reads_only (fun e s => g e (f e s)) /\ forward (fun e s => g e (f e s)).
Proof.
  intros [Hf Ff] [Hg Fg]. split.
  - apply reads_only_comp; assumption.
  - apply forward_comp; assumption.
Qed.

Lemma expire_fuses_reads (now : Q) :
  reads_only (fun e s => expire_fuses e now s)
  /\ forward (fun e s => expire_fuses e now s).
Proof.
  split; intros e; intros; unfold expire_fuses.
  - apply (reads_only_fold (fun e s a => fuse_step e now s a)); try assumption;
      intro a; [apply fuse_step_reads_only | apply fuse_step_forward].
  - apply (forward_fold (fun e s a => fuse_step e now s a)).
    intro a. apply fuse_step_forward.
Qed.

Lemma collect_powerups_reads :
  reads_only (fun e s => collect_powerups users e s)
  /\ forward (fun e s => collect_powerups users e s).
Proof.
  split; intros e; intros; unfold collect_powerups.
  - apply (reads_only_fold (fun e s a => powerup_step users e s a)); try assumption;
      intro a; [apply powerup_step_reads_only | apply powerup_step_forward].
  - apply (forward_fold (fun e s a => powerup_step users e s a)).
    intro a. apply powerup_step_forward.
Qed.

(** The stages after the motion loops depend on the entropy source only
    through the reads they make. *)
Lemma after_motion_reads (now dt : Q) :
  reads_only (after_motion users now dt) /\ forward (after_motion users now dt).
Proof.
  unfold after_motion.
  apply (reads_forward_comp _ (fun _ s => collect_bananas now s));
    [| split; [apply reads_only_pure
              | apply forward_pure; intro; apply collect_bananas_items]].
  apply (reads_forward_comp _ (fun e s => collect_powerups users e s));
    [| apply collect_powerups_reads].
  apply (reads_forward_comp _ (fun _ s => resolve_explosions users now s));
    [| split; [apply reads_only_pure
              | apply forward_pure; intro; apply resolve_explosions_items]].
  apply (reads_forward_comp _ (fun e s => expire_fuses e now s));
    [| apply expire_fuses_reads].
  apply (reads_forward_comp _ (fun e s => tick_banana_timer e dt s));
    [| split; [apply tick_banana_timer_reads_only | apply tick_banana_timer_forward]].
  apply (reads_forward_comp (fun e s => spawn_balloons e dt s)
           (fun e s => tick_powerup_timer e dt s)).
  - split; [apply spawn_balloons_reads_only | apply spawn_balloons_forward].
  - split; [apply tick_powerup_timer_reads_only | apply tick_powerup_timer_forward].
Qed.

Lemma advance_room_after_motion (env : Entropy) (s : Sim) (now : Q) :
  _advance_room users env s now
  = after_motion users now (elapsed (room s) now) env
      (on_room (fun r => Room.set_balloons r
                  (advance_balloons (elapsed (room s) now) (Room.balloons r)))
         (on_room (fun r => Room.set_players r
                     (advance_players now (elapsed (room s) now) (Room.players r)))
            (on_room (fun r => Room.set_last_update r now) s))).
Proof. unfold _advance_room, after_motion. cbv zeta. reflexivity. Qed.

(** C2, as the code has it. [_advance_room] is a function of the room, of
    [now] and of the values it reads from the random generator, the uuid
    generator and the clock while it runs: two runs from the same state with
    the same [now] whose reads give the same values end in the same room,
    with the same sink calls. A run that reads nothing (no spawn, no fuse
    expiry, no banana power-up taken) is determined by the room and [now]
    alone. *)
Theorem advance_room_deterministic (e1 e2 : Entropy) (s : Sim) (now : Q) :
  agree e1 e2 (tick s) (tick (_advance_room users e1 s now)) ->
  _advance_room users e1 s now = _advance_room users e2 s now.
Proof.
  rewrite !advance_room_after_motion. intro Ha.
  apply (proj1 (after_motion_reads now (elapsed (room s) now))).
  exact Ha.
Qed.

(* ------------------------------------------------------------------ *)
(** * Further properties *)

(** ** Eviction *)

Section DictMore.
Context {V : Type}.
Implicit Types (d : dict V) (k : string) (v : V).

Lemma dict_get_set_other d k k' v : k <> k' -> dict_get (dict_set d k v) k' = dict_get d k'.
Proof.
  intro Hne. induction d as [| [k0 v0] d IH]; simpl.
  - destruct (String.eqb k k') eqn:E; [| reflexivity].
    apply String.eqb_eq in E. contradiction.
  - destruct (String.eqb k0 k) eqn:E; simpl.
    + apply String.eqb_eq in E. subst k0.
      destruct (String.eqb k k') eqn:E'; [| reflexivity].
      apply String.eqb_eq in E'. contradiction.
    + rewrite IH. reflexivity.
Qed.

Lemma dict_pops_cons d ks k v :
  ~ In k ks -> fold_left dict_pop ks ((k, v) :: d) = (k, v) :: fold_left dict_pop ks d.
Proof.
  revert d. induction ks as [| k0 ks IH]; intros d Hn; cbn [fold_left].
  - reflexivity.
  - cbn [dict_pop]. destruct (String.eqb k k0) eqn:E.
    + apply String.eqb_eq in E. exfalso. apply Hn. left. symmetry. exact E.
    + apply IH. intro Hin. apply Hn. right. exact Hin.
Qed.

(** Popping the keys of the entries that pass a test leaves the entries that
    fail it, when no key occurs twice. *)
Lemma dict_pops_filter (f : string * V -> bool) d :
  NoDup (dict_keys d) ->
  fold_left dict_pop (map fst (filter f d)) d = filter (fun kv => negb (f kv)) d.
Proof.
  induction d as [| [k v] d IH]; intro Hnd.
  - reflexivity.
  - inversion Hnd as [| ? ? Hnotin Hnd']; subst. cbn [filter].
    destruct (f (k, v)) eqn:E; cbn [negb map fst fold_left dict_pop].
    + rewrite String.eqb_refl. apply IH, Hnd'.
    + rewrite dict_pops_cons.
      * rewrite IH by exact Hnd'. reflexivity.
      * intro Hin. apply Hnotin. apply in_map_iff in Hin.
        destruct Hin as (kv & Hk & Hin). apply filter_In in Hin.
        apply in_map_iff. exists kv. split; [exact Hk | apply Hin].
Qed.

Lemma dict_get_filter (f : string * V -> bool) d k v :
  NoDup (dict_keys d) -> dict_get d k = Some v ->
  dict_get (filter f d) k = if f (k, v) then Some v else None.
Proof.
  induction d as [| [k0 v0] d IH]; intros Hnd Hg.
  - discriminate.
  - inversion Hnd as [| ? ? Hnotin Hnd']; subst. cbn [dict_get] in Hg.
    destruct (String.eqb k0 k) eqn:E.
    + apply String.eqb_eq in E. subst k0. injection Hg as ->. cbn [filter].
      destruct (f (k, v)) eqn:Ef.
      * cbn [dict_get]. rewrite String.eqb_refl. reflexivity.
      * destruct (dict_get (filter f d) k) as [v1 |] eqn:Eg; [| reflexivity].
        exfalso. apply Hnotin.
        assert (In (k, v1) (filter f d)) as Hin.
        { clear - Eg. induction (filter f d) as [| [k2 v2] l IHl]; [discriminate |].
          cbn [dict_get] in Eg. destruct (String.eqb k2 k) eqn:E2.
          - apply String.eqb_eq in E2. injection Eg as ->. subst. left. reflexivity.
          - right. apply IHl, Eg. }
        apply filter_In in Hin. destruct Hin as [Hin _].
        apply (in_map fst) in Hin. exact Hin.
    + cbn [filter]. destruct (f (k0, v0)); cbn [dict_get]; rewrite ?E; apply IH; assumption.
Qed.

End DictMore.

Lemma cleanup_players_filter_aux (room0 : Room.t) (now : Q) :
  NoDup (dict_keys (Room.players room0)) ->
  _cleanup_players room0 now
  = Room.set_players room0
      (filter (fun kp => Qle_bool (now - Player.last_seen (snd kp)) PLAYER_TIMEOUT)
              (Room.players room0)).
Proof.
  intro Hnd. unfold _cleanup_players. cbv zeta. f_equal.
  rewrite (dict_pops_filter
             (fun kp => Qltb PLAYER_TIMEOUT (now - Player.last_seen (snd kp)))
             _ Hnd).
  apply filter_same. intros [k p]. unfold Qltb. apply negb_involutive.
Qed.

(** X1. [_cleanup_players] keeps, in their order, exactly the players seen at
    most [PLAYER_TIMEOUT] seconds ago, and touches nothing else in the room.
    (The keys of a dict are distinct.) *)
Theorem cleanup_players_keeps_fresh (room0 : Room.t) (now : Q) :
  NoDup (dict_keys (Room.players room0)) ->
  _cleanup_players room0 now
  = Room.set_players room0
      (filter (fun kp => Qle_bool (now - Player.last_seen (snd kp)) PLAYER_TIMEOUT)
              (Room.players room0)).
Proof. exact (cleanup_players_filter_aux room0 now). Qed.

Lemma steady_players_get_none (d d' : dict Player.t) (k : string) :
  steady_players d = steady_players d' -> dict_get d k = None -> dict_get d' k = None.
Proof.
  revert d'. induction d as [| [k0 p0] d IH]; intros [| [k1 p1] d'] He Hg;
    try discriminate; [reflexivity |].
  apply steady_players_cons in He. destruct He as (<- & _ & Hr).
  simpl in *. destruct (String.eqb k0 k); [discriminate | apply IH; assumption].
Qed.

(** [_advance_room] brings no player into the room. *)
Lemma advance_room_no_new_player (env : Entropy) (s : Sim) (now : Q) (k : string) :
  dict_get (Room.players (room s)) k = None ->
  dict_get (Room.players (room (_advance_room users env s now))) k = None.
Proof.
  intro Hg.
  apply (steady_players_get_none _ _ k (eq_sym (advance_room_steady env s now))).
  rewrite advance_players_get, Hg. reflexivity.
Qed.

(** X2. A poll evicts the stale and nobody else: of the other players of the
    room, those last seen more than [PLAYER_TIMEOUT] seconds before the poll
    are gone after it, those seen more recently are still there with their
    [last_seen] untouched, and nobody who was not in the room is in it.
    (The keys of a dict are distinct.) *)
Theorem api_poll_evicts_stale (env : Entropy) (srv : Server)
    (room_id player_id : string) (room0 : Room.t) (player : Player.t) :
  dict_get (ROOMS srv) room_id = Some room0 ->
  dict_get (Room.players room0) player_id = Some player ->
  NoDup (dict_keys (Room.players room0)) ->
  exists room1,
    dict_get (ROOMS (snd (api_poll users env srv room_id player_id))) room_id = Some room1
    /\ (forall k p,
          k <> player_id -> dict_get (Room.players room0) k = Some p ->
          (PLAYER_TIMEOUT < _now env (reads srv) - Player.last_seen p ->
           dict_get (Room.players room1) k = None)
          /\ (_now env (reads srv) - Player.last_seen p <= PLAYER_TIMEOUT ->
              exists p', dict_get (Room.players room1) k = Some p'
                         /\ Player.last_seen p' = Player.last_seen p))
    /\ (forall k, dict_get (Room.players room0) k = None ->
                  dict_get (Room.players room1) k = None).
Proof.
  intros Hr Hp Hnd. unfold api_poll. rewrite Hr, Hp.
  unfold poll_room. cbn [room tick sink on_room].
  set (now := _now env (reads srv)).
  set (d1 := dict_set (Room.players room0) player_id (Player.set_last_seen player now)).
  assert (NoDup (dict_keys d1)) as Hnd1.
  { unfold d1. rewrite (dict_set_keys _ _ _ _ Hp). exact Hnd. }
  match goal with |- context [_advance_room users env ?s0 now] => set (s1 := s0) end.
  assert (Room.players (room s1)
          = filter (fun kp => Qle_bool (now - Player.last_seen (snd kp)) PLAYER_TIMEOUT)
                   d1) as Hs1.
  { change (Room.players (room s1))
      with (Room.players (_cleanup_players (Room.set_players room0 d1) now)).
    rewrite (cleanup_players_filter_aux (Room.set_players room0 d1) now Hnd1).
    reflexivity. }
  cbn [snd ROOMS]. exists (room (_advance_room users env s1 now)).
  split; [apply dict_get_set_same | split].
  - intros k p Hne Hg.
    assert (dict_get d1 k = Some p) as Hg1.
    { unfold d1. rewrite dict_get_set_other by (intro; apply Hne; congruence). exact Hg. }
    pose proof (dict_get_filter
                  (fun kp => Qle_bool (now - Player.last_seen (snd kp)) PLAYER_TIMEOUT)
                  d1 k p Hnd1 Hg1) as Hf.
    cbn [snd] in Hf. split.
    + intro Hst. apply advance_room_no_new_player. rewrite Hs1, Hf.
      apply Qle_bool_gt in Hst. rewrite Hst. reflexivity.
    + intro Hfr. apply Qle_bool_iff in Hfr.
      apply (advance_room_keeps_player env s1 now k p).
      rewrite Hs1, Hf, Hfr. reflexivity.
  - intros k Hg. apply advance_room_no_new_player. rewrite Hs1.
    assert (k <> player_id) as Hne by (intros ->; rewrite Hp in Hg; discriminate).
    assert (dict_get d1 k = None) as Hg1.
    { unfold d1. rewrite dict_get_set_other by (intro; apply Hne; congruence). exact Hg. }
    clear - Hg1. induction d1 as [| [k0 p0] d IH]; [reflexivity |].
    cbn [dict_get] in Hg1. destruct (String.eqb k0 k) eqn:E; [discriminate |].
    cbn [filter]. case_if; cbn [dict_get]; rewrite ?E; apply IH, Hg1.
Qed.

(** ** Requests *)

Lemma room_eta_placed (r : Room.t) : Room.set_placed_balloons r (Room.placed_balloons r) = r.
Proof. destruct r. reflexivity. Qed.

Lemma room_eta_bananas (r : Room.t) : Room.set_bananas r (Room.bananas r) = r.
Proof. destruct r. reflexivity. Qed.

Lemma player_eta_last_shot (p : Player.t) : Player.set_last_shot p (Player.last_shot p) = p.
Proof. destruct p. reflexivity. Qed.

Lemma player_eta_has_banana (p : Player.t) : Player.set_has_banana p (Player.has_banana p) = p.
Proof. destruct p. reflexivity. Qed.

(** The balloon part of a request writes the placed balloons and [last_shot]
    and nothing else of the room and the player. *)
Lemma place_balloon_part_frame (env : Entropy) (now : Q) (player_id : string)
    (place_balloon : bool) (s : Sim) (p : Player.t) :
  let st := place_balloon_part users env now player_id place_balloon (s, p) in
  room (fst st) = Room.set_placed_balloons (room s) (Room.placed_balloons (room (fst st)))
  /\ snd st = Player.set_last_shot p (Player.last_shot (snd st)).
Proof.
  unfold place_balloon_part.
  destruct (place_balloon && Qle_bool PLAYER_COOLDOWN (now - Player.last_shot p)).
  - case_if; cbn [fst snd room].
    + split; reflexivity.
    + rewrite room_eta_placed, player_eta_last_shot. split; reflexivity.
  - cbn [fst snd]. rewrite room_eta_placed, player_eta_last_shot. split; reflexivity.
Qed.

(** The banana part of a request writes the bananas and [has_banana] and
    nothing else of the room and the player. *)
Lemma place_banana_part_frame (env : Entropy) (now : Q) (player_id : string)
    (place_banana : bool) (s : Sim) (p : Player.t) :
  let st := place_banana_part env now player_id place_banana (s, p) in
  room (fst st) = Room.set_bananas (room s) (Room.bananas (room (fst st)))
  /\ snd st = Player.set_has_banana p (Player.has_banana (snd st)).
Proof.
  unfold place_banana_part.
  destruct (place_banana && Player.has_banana p
            && Qle_bool now (Player.banana_ready_until p)); cbn [fst snd room].
  - split; reflexivity.
  - rewrite room_eta_bananas, player_eta_has_banana. split; reflexivity.
Qed.

(** What [api_input] stores for a request whose room and player exist: the
    room and the player as the two placement parts leave them. *)
Lemma api_input_found (env : Entropy) (srv : Server) (room_id player_id : string)
    (room0 : Room.t) (player : Player.t) (move : Q) (place_balloon place_banana : bool) :
  dict_get (ROOMS srv) room_id = Some room0 ->
  dict_get (Room.players room0) player_id = Some player ->
  let now := _now env (reads srv) in
  let p1 := Player.set_vx (Player.set_last_seen player now) (py_max (-1.0) (py_min 1.0 move)) in
  let s1 := {| room := room0; tick := S (reads srv); sink := calls srv |} in
  let st2 := place_balloon_part users env now player_id place_balloon (s1, p1) in
  let st3 := place_banana_part env now player_id place_banana st2 in
  api_input users env srv room_id player_id (Some move) place_balloon place_banana
  = (ok_true,
     {| ROOMS :=
          dict_set (ROOMS srv) room_id
            (Room.set_players (room (fst st3))
               (dict_set (Room.players (room (fst st3))) player_id (snd st3)));
        reads := tick (fst st3);
        calls := sink (fst st3) |}).
Proof.
  intros Hr Hp now p1 s1 st2 st3. unfold api_input. rewrite Hr, Hp.
  unfold input_room. cbn [room tick sink]. fold now. fold p1. fold s1. fold st2. fold st3.
  destruct st3 as [s3 p3]. reflexivity.
Qed.

(** What [api_input] does when [float(move)] raises: the exception leaves the
    handler after the clock has been read and [last_seen] written, and before
    [vx], the placements and the sink are reached. *)
Lemma api_input_raises (env : Entropy) (srv : Server) (room_id player_id : string)
    (room0 : Room.t) (player : Player.t) (place_balloon place_banana : bool) :
  dict_get (ROOMS srv) room_id = Some room0 ->
  dict_get (Room.players room0) player_id = Some player ->
  api_input users env srv room_id player_id None place_balloon place_banana
  = (internal_server_error,
     {| ROOMS :=
          dict_set (ROOMS srv) room_id
            (Room.set_players room0
               (dict_set (Room.players room0) player_id
                  (Player.set_last_seen player (_now env (reads srv)))));
        reads := S (reads srv);
        calls := calls srv |}).
Proof.
  intros Hr Hp. unfold api_input. rewrite Hr, Hp. reflexivity.
Qed.

(** The room and the player a found request ends with, field by field. *)
Lemma api_input_fields (env : Entropy) (srv : Server) (room_id player_id : string)
    (room0 : Room.t) (player : Player.t) (move : Q) (place_balloon place_banana : bool) :
  dict_get (ROOMS srv) room_id = Some room0 ->
  dict_get (Room.players room0) player_id = Some player ->
  let now := _now env (reads srv) in
  let reply :=
    api_input users env srv room_id player_id (Some move) place_balloon place_banana in
  exists placed' bananas' shot' has',
    fst reply = ok_true
    /\ ROOMS (snd reply)
       = dict_set (ROOMS srv) room_id
           (Room.set_players
              (Room.set_bananas (Room.set_placed_balloons room0 placed') bananas')
              (dict_set (Room.players room0) player_id
                 (Player.set_has_banana
                    (Player.set_last_shot
                       (Player.set_vx (Player.set_last_seen player now)
                          (py_max (-1.0) (py_min 1.0 move)))
                       shot')
                    has'))).
Proof.
  intros Hr Hp now reply. unfold reply.
  rewrite (api_input_found env srv room_id player_id room0 player move
             place_balloon place_banana Hr Hp).
  cbv zeta. fold now.
  set (p1 := Player.set_vx (Player.set_last_seen player now) (py_max (-1.0) (py_min 1.0 move))).
  set (s1 := {| room := room0; tick := S (reads srv); sink := calls srv |}).
  destruct (place_balloon_part_frame env now player_id place_balloon s1 p1) as [Hr2 Hp2].
  destruct (place_balloon_part users env now player_id place_balloon (s1, p1)) as [s2 p2].
  cbn [fst snd room] in Hr2, Hp2.
  destruct (place_banana_part_frame env now player_id place_banana s2 p2) as [Hr3 Hp3].
  destruct (place_banana_part env now player_id place_banana (s2, p2)) as [s3 p3].
  cbn [fst snd] in *.
  exists (Room.placed_balloons (room s2)), (Room.bananas (room s3)),
         (Player.last_shot p2), (Player.has_banana p3).
  split; [reflexivity |]. cbn [ROOMS].
  rewrite Hr3, Hr2, Hp3, Hp2. reflexivity.
Qed.

(** X3. An input request from a player found in a room found changes one
    player of one room, whether it is accepted or [float(move)] raises: the
    other rooms, the other players of the room, the order of its players, and
    its falling balloons, explosions, power-ups, clock and accumulators are
    all as before. In particular an input never advances the simulation. *)
Theorem api_input_touches_one_player (env : Entropy) (srv : Server)
    (room_id player_id : string) (room0 : Room.t) (player : Player.t)
    (move : option Q) (place_balloon place_banana : bool) :
  dict_get (ROOMS srv) room_id = Some room0 ->
  dict_get (Room.players room0) player_id = Some player ->
  let reply := api_input users env srv room_id player_id move place_balloon place_banana in
  exists room1,
    dict_get (ROOMS (snd reply)) room_id = Some room1
    /\ Room.id room1 = Room.id room0
    /\ Room.balloons room1 = Room.balloons room0
    /\ Room.explosions room1 = Room.explosions room0
    /\ Room.powerups room1 = Room.powerups room0
    /\ timers room1 = timers room0
    /\ dict_keys (Room.players room1) = dict_keys (Room.players room0)
    /\ (forall k, k <> player_id ->
                  dict_get (Room.players room1) k = dict_get (Room.players room0) k)
    /\ (forall other, other <> room_id ->
                      dict_get (ROOMS (snd reply)) other = dict_get (ROOMS srv) other).
Proof.
  intros Hr Hp reply. unfold reply. destruct move as [move |].
  - destruct (api_input_fields env srv room_id player_id room0 player move
                place_balloon place_banana Hr Hp)
      as (placed' & bananas' & shot' & has' & _ & Hrooms).
    rewrite Hrooms.
    eexists. split; [apply dict_get_set_same |].
    cbn [Room.id Room.balloons Room.explosions Room.powerups Room.players timers
         Room.last_update Room.spawn_accum Room.powerup_timer Room.banana_timer
         Room.set_players Room.set_bananas Room.set_placed_balloons].
    repeat split.
    + apply (dict_set_keys _ _ _ _ Hp).
    + intros k Hne. apply dict_get_set_other. intro. apply Hne. congruence.
    + intros other Hne. apply dict_get_set_other. intro. apply Hne. congruence.
  - rewrite (api_input_raises env srv room_id player_id room0 player
               place_balloon place_banana Hr Hp).
    cbn [snd ROOMS].
    eexists. split; [apply dict_get_set_same |].
    cbn [Room.id Room.balloons Room.explosions Room.powerups Room.players timers
         Room.last_update Room.spawn_accum Room.powerup_timer Room.banana_timer
         Room.set_players].
    repeat split.
    + apply (dict_set_keys _ _ _ _ Hp).
    + intros k Hne. apply dict_get_set_other. intro. apply Hne. congruence.
    + intros other Hne. apply dict_get_set_other. intro. apply Hne. congruence.
Qed.

(** X4. An input request from a player found in a room found stamps the
    player's [last_seen] with the time of the request and leaves the player's
    position, score and power-up gains as they were. When [float(move)] gives
    a number the reply is the success one and [vx] is that number clamped into
    [[-1, 1]]: the number itself in that range, [1.0] above it and [-1.0]
    below. When [float(move)] raises, the reply is a server error, the player
    is changed in [last_seen] only, the rest of the room is as it was, one
    clock read has been made and no sink call. *)
Theorem api_input_clamps_move (env : Entropy) (srv : Server)
    (room_id player_id : string) (room0 : Room.t) (player : Player.t)
    (move : option Q) (place_balloon place_banana : bool) :
  dict_get (ROOMS srv) room_id = Some room0 ->
  dict_get (Room.players room0) player_id = Some player ->
  let now := _now env (reads srv) in
  let reply := api_input users env srv room_id player_id move place_balloon place_banana in
  exists room1 player1,
    dict_get (ROOMS (snd reply)) room_id = Some room1
    /\ dict_get (Room.players room1) player_id = Some player1
    /\ Player.last_seen player1 = now
    /\ Player.x player1 = Player.x player
    /\ Player.score player1 = Player.score player
    /\ Player.speed_mult player1 = Player.speed_mult player
    /\ Player.balloon_capacity player1 = Player.balloon_capacity player
    /\ Player.blast_radius player1 = Player.blast_radius player
    /\ Player.slow_until player1 = Player.slow_until player
    /\ match move with
       | Some m =>
           fst reply = ok_true
           /\ -1 <= Player.vx player1 /\ Player.vx player1 <= 1
           /\ (-1 <= m -> m <= 1 -> Player.vx player1 == m)
           /\ (1 < m -> Player.vx player1 = 1.0)
           /\ (m < -1 -> Player.vx player1 = -1.0)
       | None =>
           fst reply = internal_server_error
           /\ player1 = Player.set_last_seen player now
           /\ room1 = Room.set_players room0
                        (dict_set (Room.players room0) player_id player1)
           /\ reads (snd reply) = S (reads srv)
           /\ calls (snd reply) = calls srv
       end.
Proof.
  intros Hr Hp now reply. unfold reply. destruct move as [move |].
  - destruct (api_input_fields env srv room_id player_id room0 player move
                place_balloon place_banana Hr Hp)
      as (placed' & bananas' & shot' & has' & Hok & Hrooms).
    cbv zeta in Hok. rewrite Hok, Hrooms.
    eexists. eexists. split; [apply dict_get_set_same |].
    cbn [Room.players Room.set_players]. split; [apply dict_get_set_same |].
    cbn [Player.last_seen Player.vx Player.x Player.score Player.speed_mult
         Player.balloon_capacity Player.blast_radius Player.slow_until
         Player.set_has_banana Player.set_last_shot Player.set_vx Player.set_last_seen].
    destruct (clamp_range (-1.0) 1.0 move) as [Hlo Hhi]; [lra |].
    do 7 (split; [reflexivity |]). split; [reflexivity |].
    split; [lra |]. split; [lra |].
    split; [intros H1 H2; apply clamp_fixed; lra |].
    split.
    + intro Hm. unfold py_min.
      assert (Qltb move 1.0 = false) as -> by (apply Qltb_ge; lra).
      reflexivity.
    + intro Hm. unfold py_min.
      assert (Qltb move 1.0 = true) as -> by (apply Qltb_lt; lra).
      unfold py_max.
      assert (Qltb (-1.0) move = false) as -> by (apply Qltb_ge; lra).
      reflexivity.
  - rewrite (api_input_raises env srv room_id player_id room0 player
               place_balloon place_banana Hr Hp).
    cbn [fst snd ROOMS reads calls].
    eexists. eexists. split; [apply dict_get_set_same |].
    cbn [Room.players Room.set_players]. split; [apply dict_get_set_same |].
    repeat split.
Qed.

(** The balloon part of a request leaves the bananas and what the banana part
    reads of the player alone. *)
Lemma place_balloon_part_keeps (env : Entropy) (now : Q) (player_id : string)
    (place_balloon : bool) (s : Sim) (p : Player.t) :
  let st := place_balloon_part users env now player_id place_balloon (s, p) in
  Room.bananas (room (fst st)) = Room.bananas (room s)
  /\ Room.players (room (fst st)) = Room.players (room s)
  /\ Player.has_banana (snd st) = Player.has_banana p
  /\ Player.banana_ready_until (snd st) = Player.banana_ready_until p
  /\ Player.x (snd st) = Player.x p.
Proof.
  unfold place_balloon_part.
  destruct (place_balloon && Qle_bool PLAYER_COOLDOWN (now - Player.last_shot p));
    [case_if |]; repeat split.
Qed.

(** X5. A request to place a banana, from a player found in a room found,
    whose [move] converts to a float, gets the success reply and places a
    banana exactly when the player holds one and its ready window has not
    passed ([now <= banana_ready_until]): then one banana owned by the player
    is appended at the player's [x] and [has_banana] is cleared. Otherwise
    the bananas and [has_banana] stay as they are and the request does what
    the same request without the banana does. When [float(move)] raises, the
    reply is a server error and no banana is placed, permitted or not. *)
Theorem api_input_place_banana (env : Entropy) (srv : Server)
    (room_id player_id : string) (room0 : Room.t) (player : Player.t)
    (move : Q) (place_balloon : bool) :
  dict_get (ROOMS srv) room_id = Some room0 ->
  dict_get (Room.players room0) player_id = Some player ->
  let now := _now env (reads srv) in
  let permitted :=
    Player.has_banana player = true /\ now <= Player.banana_ready_until player in
  let reply := api_input users env srv room_id player_id (Some move) place_balloon true in
  let failed := api_input users env srv room_id player_id None place_balloon true in
  (exists room1 player1,
     fst reply = ok_true
     /\ dict_get (ROOMS (snd reply)) room_id = Some room1
     /\ dict_get (Room.players room1) player_id = Some player1
     /\ (permitted ->
         Player.has_banana player1 = false
         /\ exists banana_id,
              Room.bananas room1
              = Room.bananas room0
                ++ [Banana.mk banana_id player_id (Player.x player)
                      (inject_Z (GAME_HEIGHT - 45))])
     /\ (~ permitted ->
         Player.has_banana player1 = Player.has_banana player
         /\ Room.bananas room1 = Room.bananas room0
         /\ reply
            = api_input users env srv room_id player_id (Some move) place_balloon false))
  /\ (exists room1 player1,
        fst failed = internal_server_error
        /\ dict_get (ROOMS (snd failed)) room_id = Some room1
        /\ dict_get (Room.players room1) player_id = Some player1
        /\ Player.has_banana player1 = Player.has_banana player
        /\ Room.bananas room1 = Room.bananas room0).
Proof.
  intros Hr Hp now permitted reply failed. split.
  2:{ unfold failed.
      rewrite (api_input_raises env srv room_id player_id room0 player
                 place_balloon true Hr Hp).
      cbn [fst snd ROOMS].
      eexists. eexists. split; [reflexivity |].
      split; [apply dict_get_set_same |].
      cbn [Room.players Room.set_players]. split; [apply dict_get_set_same |].
      split; reflexivity. }
  unfold reply.
  rewrite !(api_input_found env srv room_id player_id room0 player move
              place_balloon _ Hr Hp).
  cbv zeta. fold now.
  set (p1 := Player.set_vx (Player.set_last_seen player now) (py_max (-1.0) (py_min 1.0 move))).
  set (s1 := {| room := room0; tick := S (reads srv); sink := calls srv |}).
  destruct (place_balloon_part_keeps env now player_id place_balloon s1 p1)
    as (Hb & _ & Hh & Hu & Hx).
  destruct (place_balloon_part users env now player_id place_balloon (s1, p1)) as [s2 p2].
  cbn [fst snd room] in Hb, Hh, Hu, Hx.
  change (Player.has_banana p1) with (Player.has_banana player) in Hh.
  change (Player.banana_ready_until p1) with (Player.banana_ready_until player) in Hu.
  change (Player.x p1) with (Player.x player) in Hx.
  change (Room.bananas (room s1)) with (Room.bananas room0) in Hb.
  unfold place_banana_part. cbn [andb]. rewrite Hh, Hu.
  destruct (Player.has_banana player) eqn:Eh;
    [destruct (Qle_bool now (Player.banana_ready_until player)) eqn:Et |];
    cbn [andb fst snd room tick sink ROOMS].
  - eexists; eexists. split; [reflexivity |].
    split; [apply dict_get_set_same |].
    cbn [Room.players Room.set_players]. split; [apply dict_get_set_same |]. split.
    + intros _. split; [reflexivity |].
      cbn [Room.bananas Room.set_players Room.set_bananas].
      rewrite Hb, Hx. eexists. reflexivity.
    + intros Hno. exfalso. apply Hno. split; [reflexivity | apply Qle_bool_iff, Et].
  - eexists; eexists. split; [reflexivity |].
    split; [apply dict_get_set_same |].
    cbn [Room.players Room.set_players]. split; [apply dict_get_set_same |]. split.
    + intros [_ Hc]. apply Qle_bool_gt in Et. lra.
    + intros _. cbn [Room.bananas Room.set_players].
      split; [exact Hh | split; [exact Hb | reflexivity]].
  - eexists; eexists. split; [reflexivity |].
    split; [apply dict_get_set_same |].
    cbn [Room.players Room.set_players]. split; [apply dict_get_set_same |]. split.
    + intros [Hc _]. discriminate.
    + intros _. cbn [Room.bananas Room.set_players].
      split; [exact Hh | split; [exact Hb | reflexivity]].
Qed.


(** ** What a step does to the players *)

Section DictRel.
Context {V : Type} (R : V -> V -> Prop).
Hypothesis R_refl : forall v, R v v.

Lemma dict_rel_refl (d : dict V) : dict_rel R d d.
Proof.
  induction d as [| kv d IH]; constructor; [split; [reflexivity | apply R_refl] | exact IH].
Qed.

Lemma dict_rel_trans (d1 d2 d3 : dict V) :
  (forall a b c, R a b -> R b c -> R a c) ->
  dict_rel R d1 d2 -> dict_rel R d2 d3 -> dict_rel R d1 d3.
Proof.
  intros Ht H12. revert d3.
  induction H12 as [| a b d1 d2 [Hk Hr] _ IH]; intros d3 H23.
  - inversion H23. constructor.
  - inversion H23 as [| ? c ? d3' [Hk' Hr'] H23']; subst. constructor.
    + split; [congruence | eapply Ht; eassumption].
    + apply IH, H23'.
Qed.

Lemma dict_rel_middle (pre post : dict V) (k : string) (v v' : V) :
  R v v' -> dict_rel R (pre ++ (k, v) :: post) (pre ++ (k, v') :: post).
Proof.
  intro Hr. apply Forall2_app; [apply dict_rel_refl |].
  constructor; [split; [reflexivity | exact Hr] | apply dict_rel_refl].
Qed.

Lemma dict_rel_set (d : dict V) (k : string) (v v' : V) :
  dict_get d k = Some v -> R v v' -> dict_rel R d (dict_set d k v').
Proof.
  intros Hg Hr. induction d as [| [k0 v0] d IH]; cbn [dict_get dict_set] in *.
  - discriminate.
  - destruct (String.eqb k0 k).
    + injection Hg as ->. constructor; [split; [reflexivity | exact Hr] | apply dict_rel_refl].
    + constructor; [split; [reflexivity | apply R_refl] | apply IH, Hg].
Qed.

Lemma dict_rel_map (f : V -> V) (d : dict V) :
  (forall v, R v (f v)) -> dict_rel R d (map (fun kv => (fst kv, f (snd kv))) d).
Proof.
  intro Hf. induction d as [| kv d IH]; cbn [map]; constructor;
    [split; [reflexivity | apply Hf] | exact IH].
Qed.

End DictRel.

(** A fold whose every round goes up in a preorder ends up where it began or
    above. *)
Lemma fold_left_rises {S A B : Type} (f : S -> A -> S) (g : S -> B) (R : B -> B -> Prop) :
  (forall b, R b b) -> (forall a b c, R a b -> R b c -> R a c) ->
  (forall s a, R (g s) (g (f s a))) ->
  forall l s, R (g s) (g (fold_left f l s)).
Proof.
  intros Hr Ht Hf l. induction l as [| a l IH]; intro s; cbn [fold_left].
  - apply Hr.
  - eapply Ht; [apply Hf | apply IH].
Qed.

Lemma grows_refl (p : Player.t) : grows p p.
Proof. unfold grows. repeat split; try lra; lia. Qed.

Lemma grows_trans (a b c : Player.t) : grows a b -> grows b c -> grows a c.
Proof. unfold grows. intros (? & ? & ? & ? & ?) (? & ? & ? & ? & ?). repeat split; try lra; lia. Qed.

Lemma players_grow_refl (d : dict Player.t) : dict_rel grows d d.
Proof. apply dict_rel_refl, grows_refl. Qed.

Lemma players_grow_trans (a b c : dict Player.t) :
  dict_rel grows a b -> dict_rel grows b c -> dict_rel grows a c.
Proof. apply dict_rel_trans, grows_trans. Qed.

Lemma advance_player_grows (now dt : Q) (p : Player.t) : grows p (advance_player now dt p).
Proof.
  unfold advance_player. case_if; unfold grows; cbn; repeat split; try lra; lia.
Qed.

Lemma apply_powerup_grows (env : Entropy) (k : nat) (p : Player.t) (ty : PowerupType) :
  grows p (fst (_apply_powerup env k p ty)).
Proof. destruct ty; unfold grows; cbn; repeat split; try lra; lia. Qed.

Lemma blast_grows (e : Explosion.t) (s : Sim) (b : Balloon.t) :
  dict_rel grows (Room.players (room s)) (Room.players (room (blast users e s b))).
Proof.
  unfold blast. destruct (hits e b); [| apply players_grow_refl].
  cbn [Room.players Room.set_balloons].
  destruct (dict_get (Room.players (room s)) (Explosion.player_id e)) as [p |] eqn:E;
    cbn [room Room.players Room.set_players Room.set_balloons];
    [| apply players_grow_refl].
  apply (dict_rel_set grows grows_refl _ _ p); [exact E |].
  unfold grows. cbn. repeat split; try lra; lia.
Qed.

Lemma explosion_step_grows (now : Q) (s : Sim) (e : Explosion.t) :
  dict_rel grows (Room.players (room s)) (Room.players (room (explosion_step users now s e))).
Proof.
  unfold explosion_step. case_if; [apply players_grow_refl |].
  apply (fold_left_rises (blast users e) (fun s => Room.players (room s)) (dict_rel grows)
           players_grow_refl players_grow_trans).
  intros; apply blast_grows.
Qed.

Lemma powerup_step_grows (env : Entropy) (s : Sim) (pu : Powerup.t) :
  dict_rel grows (Room.players (room s)) (Room.players (room (powerup_step users env s pu))).
Proof.
  unfold powerup_step.
  pose proof (powerup_scan_spec env (tick s) pu (Room.players (room s))) as H.
  destruct (powerup_scan env (tick s) pu (Room.players (room s)))
    as [[[d' who] k'] |]; [| apply players_grow_refl].
  destruct H as (pre & key & post & -> & _ & _ & -> & _).
  cbn [room Room.players Room.set_players].
  apply (dict_rel_middle grows grows_refl), apply_powerup_grows.
Qed.

Lemma banana_step_grows (now : Q) (s : Sim) (bn : Banana.t) :
  dict_rel grows (Room.players (room s)) (Room.players (room (banana_step now s bn))).
Proof.
  unfold banana_step.
  pose proof (banana_scan_spec now bn (Room.players (room s))) as H.
  destruct (banana_scan now bn (Room.players (room s))) as [d' |];
    [| apply players_grow_refl].
  destruct H as (pre & key & who & post & -> & _ & _ & _ & ->).
  cbn [room on_room Room.players Room.set_players Room.set_bananas].
  apply (dict_rel_middle grows grows_refl).
  unfold grows. cbn. pose proof (py_max_ge (Player.slow_until who) (now + BANANA_SLOW_DURATION)).
  repeat split; try lra; lia.
Qed.

(** The players before the stages after the motion loops and after them. *)
Lemma after_motion_grows (now dt : Q) (env : Entropy) (s : Sim) :
  dict_rel grows (Room.players (room s)) (Room.players (room (after_motion users now dt env s))).
Proof.
  unfold after_motion.
  set (s4 := spawn_balloons env dt s).
  set (s5 := tick_powerup_timer env dt s4).
  set (s6 := tick_banana_timer env dt s5).
  set (s7 := expire_fuses env now s6).
  set (s8 := resolve_explosions users now s7).
  set (s9 := collect_powerups users env s8).
  assert (Room.players (room s7) = Room.players (room s)) as H7.
  { unfold s7. rewrite (proj1 (expire_fuses_keeps env now s6)).
    unfold s6. rewrite (proj1 (tick_banana_timer_keeps env dt s5)).
    unfold s5. rewrite (proj1 (tick_powerup_timer_keeps env dt s4)).
    unfold s4. apply (proj1 (spawn_balloons_keeps env dt s)). }
  rewrite <- H7.
  apply players_grow_trans with (b := Room.players (room s8)).
  - unfold s8, resolve_explosions.
    apply (fold_left_rises (explosion_step users now) (fun s => Room.players (room s))
             (dict_rel grows) players_grow_refl players_grow_trans).
    intros; apply explosion_step_grows.
  - apply players_grow_trans with (b := Room.players (room s9)).
    + unfold s9, collect_powerups.
      apply (fold_left_rises (powerup_step users env) (fun s => Room.players (room s))
               (dict_rel grows) players_grow_refl players_grow_trans).
      intros; apply powerup_step_grows.
    + unfold collect_bananas.
      apply (fold_left_rises (banana_step now) (fun s => Room.players (room s))
               (dict_rel grows) players_grow_refl players_grow_trans).
      intros; apply banana_step_grows.
Qed.

(** X7. Across one call of [_advance_room], player by player in the order of
    the dict, nothing a player has gained is taken back: [speed_mult],
    [balloon_capacity], [blast_radius], [score] and [slow_until] are each at
    least what they were. *)
Theorem advance_room_players_only_gain (env : Entropy) (s : Sim) (now : Q) :
  Forall2
    (fun kp kp' =>
       fst kp = fst kp'
       /\ Player.speed_mult (snd kp) <= Player.speed_mult (snd kp')
       /\ (Player.balloon_capacity (snd kp) <= Player.balloon_capacity (snd kp'))%Z
       /\ (Player.blast_radius (snd kp) <= Player.blast_radius (snd kp'))%Z
       /\ (Player.score (snd kp) <= Player.score (snd kp'))%Z
       /\ Player.slow_until (snd kp) <= Player.slow_until (snd kp'))
    (Room.players (room s))
    (Room.players (room (_advance_room users env s now))).
Proof.
  rewrite advance_room_after_motion.
  apply (players_grow_trans _
           (advance_players now (elapsed (room s) now) (Room.players (room s)))).
  - apply (dict_rel_map grows). intro p. apply advance_player_grows.
  - match goal with |- context [after_motion users now ?dt env ?s0] =>
      exact (after_motion_grows now dt env s0) end.
Qed.

Lemma steady_players_rel (d d' : dict Player.t) :
  steady_players d = steady_players d' ->
  dict_rel (fun p p' => steady p = steady p') d d'.
Proof.
  revert d'. induction d as [| [k p] d IH]; intros [| [k' p'] d'] He; try discriminate.
  - constructor.
  - apply steady_players_cons in He. destruct He as (Hk & Hs & Hr).
    constructor; [split; assumption | apply IH, Hr].
Qed.

(** X8. [_advance_room] never adds, removes or reorders players, and never
    changes who a player is ([id], [user_id], [name], [color]), what they
    intend ([vx]) or when they were heard of ([last_seen], [last_shot]). *)
Theorem advance_room_keeps_identities (env : Entropy) (s : Sim) (now : Q) :
  Forall2
    (fun kp kp' =>
       fst kp = fst kp'
       /\ Player.id (snd kp) = Player.id (snd kp')
       /\ Player.user_id (snd kp) = Player.user_id (snd kp')
       /\ Player.name (snd kp) = Player.name (snd kp')
       /\ Player.color (snd kp) = Player.color (snd kp')
       /\ Player.vx (snd kp) = Player.vx (snd kp')
       /\ Player.last_seen (snd kp) = Player.last_seen (snd kp')
       /\ Player.last_shot (snd kp) = Player.last_shot (snd kp'))
    (Room.players (room s))
    (Room.players (room (_advance_room users env s now))).
Proof.
  pose proof (steady_players_rel _ _ (eq_sym (advance_room_steady env s now))) as H.
  revert H. generalize (Room.players (room (_advance_room users env s now))).
  unfold advance_players.
  induction (Room.players (room s)) as [| [k p] d IH]; intros d' H.
  - inversion H. constructor.
  - cbn [map] in H. inversion H as [| ? [k' p'] ? d2 [Hk Hs] Hrest]; subst.
    constructor; [| apply IH, Hrest].
    cbn [fst snd] in *. split; [exact Hk |].
    unfold steady in Hs. injection Hs as H1 H2 H3 _ H5 H6 H7 H8.
    rewrite <- H1, <- H2, <- H3, <- H5, <- H6, <- H7, <- H8.
    unfold advance_player. case_if; repeat split.
Qed.

(** ** What a step tells the statistics sink *)










Lemma before_explosions_players (env : Entropy) (now dt : Q) (s : Sim) :
  Room.players
    (room (expire_fuses env now
             (tick_banana_timer env dt (tick_powerup_timer env dt (spawn_balloons env dt s)))))
  = Room.players (room s).
Proof.
  rewrite (proj1 (expire_fuses_keeps env now _)).
  rewrite (proj1 (tick_banana_timer_keeps env dt _)).
  rewrite (proj1 (tick_powerup_timer_keeps env dt _)).
  apply (proj1 (spawn_balloons_keeps env dt s)).
Qed.












(** ** How far a step moves things *)

Lemma player_speed_range (p : Player.t) (now : Q) :
  0 <= Player.speed_mult p ->
  0 <= _player_speed p now /\ _player_speed p now <= PLAYER_SPEED * Player.speed_mult p.
Proof.
  intro Hs. unfold _player_speed, PLAYER_SPEED. cbv zeta. case_if; split; nra.
Qed.

Lemma step_length_bound (p : Player.t) (now dt : Q) :
  0 <= dt -> dt <= 0.05 ->
  -1 <= Player.vx p -> Player.vx p <= 1 -> 0 <= Player.speed_mult p ->
  - (PLAYER_SPEED * 0.05 * Player.speed_mult p)
  <= Player.vx p * _player_speed p now * dt
  /\ Player.vx p * _player_speed p now * dt <= PLAYER_SPEED * 0.05 * Player.speed_mult p.
Proof.
  intros Hd0 Hd1 Hv0 Hv1 Hs.
  destruct (player_speed_range p now Hs) as [Hp0 Hp1].
  set (sp := _player_speed p now) in *. set (v := Player.vx p) in *.
  set (m := Player.speed_mult p) in *. unfold PLAYER_SPEED in *.
  assert (0 <= sp * dt) as Hm0 by nra.
  assert (sp * dt <= 250.0 * 0.05 * m) as Hm1 by nra.
  assert (v * sp * dt == v * (sp * dt)) as -> by ring.
  split; nra.
Qed.

Lemma clamp_near (lo hi x d b : Q) :
  lo <= x -> x <= hi -> - b <= d -> d <= b ->
  x - b <= py_max lo (py_min hi (x + d)) /\ py_max lo (py_min hi (x + d)) <= x + b.
Proof.
  intros Hlo Hhi Hd0 Hd1.
  destruct (py_min_cases hi (x + d)) as [[H1 E1] | [H1 E1]];
    destruct (py_max_cases lo (py_min hi (x + d))) as [[H2 E2] | [H2 E2]];
    rewrite E2; rewrite ?E1 in *; split; lra.
Qed.

(** X11. No catch-up step: whatever [now] is, one call of [_advance_room]
    moves a player who stands in the arena, whose [vx] is in [[-1, 1]] and
    whose [speed_mult] is not negative by at most
    [PLAYER_SPEED * 0.05 * speed_mult] to either side. *)
Theorem advance_room_moves_players_little (env : Entropy) (s : Sim) (now : Q) :
  Forall (fun kp => in_arena (snd kp)
                    /\ -1 <= Player.vx (snd kp) /\ Player.vx (snd kp) <= 1
                    /\ 0 <= Player.speed_mult (snd kp))
         (Room.players (room s)) ->
  Forall2
    (fun kp kp' =>
       fst kp = fst kp'
       /\ Player.x (snd kp) - PLAYER_SPEED * 0.05 * Player.speed_mult (snd kp)
          <= Player.x (snd kp')
       /\ Player.x (snd kp')
          <= Player.x (snd kp) + PLAYER_SPEED * 0.05 * Player.speed_mult (snd kp))
    (Room.players (room s))
    (Room.players (room (_advance_room users env s now))).
Proof.
  intro Hall.
  pose proof (steady_players_rel _ _ (eq_sym (advance_room_steady env s now))) as H.
  destruct (elapsed_range (room s) now) as [Hd0 Hd1].
  revert H Hall. generalize (Room.players (room (_advance_room users env s now))).
  generalize (elapsed (room s) now) Hd0 Hd1. intros dt Hdt0 Hdt1.
  unfold advance_players.
  induction (Room.players (room s)) as [| [k p] d IH]; intros d' H Hall.
  - inversion H. constructor.
  - cbn [map] in H. inversion H as [| ? [k' p'] ? d2 [Hk Hs] Hrest]; subst.
    inversion Hall as [| ? ? (Har & Hv0 & Hv1 & Hm) Hall']; subst.
    constructor; [| apply IH; assumption].
    cbn [fst snd] in *. split; [exact Hk |].
    rewrite <- (steady_x _ _ Hs), advance_player_x.
    destruct Har as [Hx0 Hx1].
    destruct (step_length_bound p now dt Hdt0 Hdt1 Hv0 Hv1 Hm) as [Hb0 Hb1].
    apply clamp_near; assumption.
Qed.

(** ** Balloons, fuses and explosions *)

Lemma thinned_Forall {A : Type} (P : A -> Prop) (l l' : list A) :
  thinned eq l l' -> Forall P l -> Forall P l'.
Proof.
  intro H. induction H as [| a l l' _ IH | a a' l l' Ha _ IH]; intro Hf.
  - constructor.
  - inversion Hf; subst. apply IH. assumption.
  - inversion Hf; subst. constructor; [assumption | apply IH; assumption].
Qed.

Lemma advance_balloons_above (dt : Q) (bs : list Balloon.t) :
  Forall (fun b => inject_Z (- BALLOON_RADIUS) <= Balloon.y b) (advance_balloons dt bs).
Proof.
  induction bs as [| b bs IH]; cbn [advance_balloons].
  - constructor.
  - destruct (Qltb (Balloon.y (Balloon.set_y b (Balloon.y b - Balloon.vy b * dt)))
                   (inject_Z (- BALLOON_RADIUS))) eqn:E.
    + exact IH.
    + constructor; [apply Qltb_ge, E | exact IH].
Qed.

Lemma spawn_loop_above (env : Entropy) (fuel : nat) :
  unit_draws env ->
  forall s,
    Forall (fun b => inject_Z (- BALLOON_RADIUS) <= Balloon.y b) (Room.balloons (room s)) ->
    Forall (fun b => inject_Z (- BALLOON_RADIUS) <= Balloon.y b)
           (Room.balloons (room (spawn_loop env fuel s))).
Proof.
  intro Hu. induction fuel as [| fuel IH]; intros s Hs; cbn [spawn_loop].
  - exact Hs.
  - case_if; [| exact Hs]. cbn [_new_balloon]. apply IH.
    cbn [room Room.balloons Room.set_balloons Room.set_spawn_accum].
    apply Forall_app. split; [exact Hs |]. constructor; [| constructor].
    cbn [Balloon.y]. unfold random_uniform.
    destruct (Hu (2 + tick s)%nat) as [H0 _].
    assert (0 <= inject_Z (GAME_HEIGHT + BALLOON_RADIUS)) as Hh
      by (unfold Qle; simpl; lia).
    assert (inject_Z (- BALLOON_RADIUS) <= 0) as Hr by (unfold Qle; simpl; lia).
    nra.
Qed.

(** X12. After a call of [_advance_room] no balloon that has left through the
    top is still in the room: every falling balloon has
    [y >= -BALLOON_RADIUS]. (The random generator returns numbers of
    [[0, 1)].) *)
Theorem advance_room_drops_escaped_balloons (env : Entropy) (s : Sim) (now : Q) :
  unit_draws env ->
  Forall (fun b => inject_Z (- BALLOON_RADIUS) <= Balloon.y b)
         (Room.balloons (room (_advance_room users env s now))).
Proof.
  intro Hu. rewrite advance_room_after_motion. unfold after_motion.
  rewrite (proj1 (collect_bananas_items now _)).
  rewrite (proj1 (collect_powerups_items env _)).
  apply (thinned_Forall _ _ _
           (proj2 (proj2 (proj2 (resolve_explosions_items now _))))).
  rewrite (proj1 (proj2 (expire_fuses_keeps env now _))).
  rewrite (proj1 (proj2 (tick_banana_timer_keeps env _ _))).
  rewrite (proj1 (proj2 (tick_powerup_timer_keeps env _ _))).
  unfold spawn_balloons. apply (spawn_loop_above env _ Hu).
  cbn [room on_room Room.balloons Room.set_balloons Room.set_spawn_accum].
  apply advance_balloons_above.
Qed.

Lemma sample_env_unit_draws (seed : nat) : unit_draws (sample_env seed).
Proof.
  intro k. cbn [sample_env random_random].
  pose proof (Z.mod_pos_bound (Z.of_nat (seed + k)) 4 ltac:(lia)) as H.
  unfold Qle, Qlt. cbn [Qnum Qden]. lia.
Qed.

Lemma Placed_eqb_refl (a : Placed.t) : Placed.eqb a a = true.
Proof.
  unfold Placed.eqb. rewrite !String.eqb_refl, !Qeq_bool_refl, Z.eqb_refl. reflexivity.
Qed.

Lemma Placed_eqb_due (now : Q) (a b : Placed.t) :
  Placed.eqb a b = true -> fuse_due now a = fuse_due now b.
Proof.
  unfold Placed.eqb. rewrite !andb_true_iff.
  intros ((((((_ & _) & _) & _) & Ht) & Hf) & _).
  apply Qeq_bool_iff in Ht, Hf. unfold fuse_due.
  apply Qleb_comp; [exact Hf | rewrite Ht; reflexivity].
Qed.

(** The fuse loop from a state whose list is the placed balloons already
    passed over and left ([pre]) followed by those still to visit ([l]). *)
Lemma fuse_fold (env : Entropy) (now : Q) :
  forall (l pre : list Placed.t) (s : Sim),
    Room.placed_balloons (room s) = pre ++ l ->
    Forall (fun p => fuse_due now p = false) pre ->
    let s' := fold_left (fuse_step env now) l s in
    Room.placed_balloons (room s') = pre ++ filter (fun p => negb (fuse_due now p)) l
    /\ Room.explosions (room s')
       = Room.explosions (room s) ++ detonate env now (tick s) (filter (fuse_due now) l)
    /\ tick s' = (tick s + List.length (filter (fuse_due now) l))%nat.
Proof.
  induction l as [| p l IH]; intros pre s Hl Hpre; cbn [fold_left filter].
  - rewrite app_nil_r in *. cbn [detonate List.length]. rewrite app_nil_r.
    repeat split; [exact Hl | lia].
  - destruct (fuse_due now p) eqn:Ed; cbn [negb].
    + assert (list_remove Placed.eqb p (Room.placed_balloons (room s)) = pre ++ l) as Hrm.
      { rewrite Hl. apply list_remove_after; [| apply Placed_eqb_refl].
        eapply Forall_impl; [| exact Hpre]. intros h Hh. cbv beta in Hh.
        destruct (Placed.eqb h p) eqn:Eq; [| reflexivity].
        rewrite (Placed_eqb_due now h p Eq) in Hh. congruence. }
      assert (fuse_step env now s p
              = {| room :=
                     Room.set_explosions
                       (Room.set_placed_balloons (room s)
                          (list_remove Placed.eqb p (Room.placed_balloons (room s))))
                       (Room.explosions (room s)
                        ++ [Explosion.mk (uuid_prefix env (tick s) 8) (Placed.x p)
                              (Placed.y p) (Placed.radius p) (now + 0.4)
                              (Placed.player_id p)]);
                   tick := S (tick s);
                   sink := sink s |}) as ->.
      { unfold fuse_step. unfold fuse_due in Ed. rewrite Ed. reflexivity. }
      match goal with |- context [fold_left (fuse_step env now) l ?s1] =>
        specialize (IH pre s1) end.
      cbn [room tick Room.placed_balloons Room.explosions Room.set_explosions
           Room.set_placed_balloons] in IH.
      destruct (IH Hrm Hpre) as (H1 & H2 & H3).
      rewrite H1, H2, H3. cbn [detonate List.length]. rewrite <- app_assoc.
      repeat split. lia.
    + assert (fuse_step env now s p = s) as ->.
      { unfold fuse_step. unfold fuse_due in Ed. rewrite Ed. reflexivity. }
      specialize (IH (pre ++ [p]) s). rewrite <- !app_assoc in IH. cbn [app] in IH.
      apply IH; [exact Hl |].
      apply Forall_app. split; [exact Hpre | constructor; [exact Ed | constructor]].
Qed.

(** X13. The fuse loop of [_advance_room]. The placed balloons with
    [now - placed_at >= fuse] are taken out and the others stay, in order;
    for each one taken out, in order, one explosion is appended with the
    placed balloon's position, radius and owner and with
    [expires_at = now + 0.4]; one id is read for each. Players and falling
    balloons are not touched. *)
Theorem expire_fuses_detonates_due (env : Entropy) (now : Q) (s : Sim) :
  let s' := expire_fuses env now s in
  let due := filter (fuse_due now) (Room.placed_balloons (room s)) in
  Room.placed_balloons (room s')
  = filter (fun p => negb (fuse_due now p)) (Room.placed_balloons (room s))
  /\ Forall (fun p => now - Placed.placed_at p < Placed.fuse p)
            (Room.placed_balloons (room s'))
  /\ Room.explosions (room s') = Room.explosions (room s) ++ detonate env now (tick s) due
  /\ tick s' = (tick s + List.length due)%nat
  /\ Room.players (room s') = Room.players (room s)
  /\ Room.balloons (room s') = Room.balloons (room s).
Proof.
  cbv zeta.
  destruct (fuse_fold env now (Room.placed_balloons (room s)) [] s eq_refl (Forall_nil _))
    as (H1 & H2 & H3).
  destruct (expire_fuses_keeps env now s) as (Hp & Hb & _).
  unfold expire_fuses in *. cbn [app] in H1.
  repeat split; try assumption.
  rewrite H1. apply Forall_forall. intros p Hin. apply filter_In in Hin.
  destruct Hin as [_ Hd]. apply negb_true_iff in Hd. unfold fuse_due in Hd.
  apply Qle_bool_gt in Hd. exact Hd.
Qed.

Lemma Explosion_eqb_expired (now : Q) (a b : Explosion.t) :
  Explosion.eqb a b = true -> expired now a = expired now b.
Proof.
  unfold Explosion.eqb. rewrite !andb_true_iff.
  intros (((((_ & _) & _) & _) & He) & _).
  apply Qeq_bool_iff in He. unfold expired, Qltb. f_equal.
  apply Qleb_comp; [reflexivity | exact He].
Qed.

Lemma filter_twice {A : Type} (f g : A -> bool) (l : list A) :
  filter f (filter g l) = filter (fun a => g a && f a) l.
Proof.
  induction l as [| a l IH]; cbn [filter]; [reflexivity |].
  destruct (g a); cbn [filter andb]; [destruct (f a) |]; rewrite IH; reflexivity.
Qed.

(** The explosion loop from a state whose list is the explosions already
    passed over and left ([pre]) followed by those still to visit ([l]). *)
Lemma explosion_fold (now : Q) :
  forall (l pre : list Explosion.t) (s : Sim),
    Room.explosions (room s) = pre ++ l ->
    Forall (fun e => expired now e = false) pre ->
    let s' := fold_left (explosion_step users now) l s in
    Room.explosions (room s') = pre ++ filter (fun e => negb (expired now e)) l
    /\ Room.balloons (room s')
       = filter (fun b => negb (blasted now l b)) (Room.balloons (room s)).
Proof.
  induction l as [| e l IH]; intros pre s Hl Hpre; cbn [fold_left filter].
  - rewrite app_nil_r in *. split; [exact Hl |].
    clear. induction (Room.balloons (room s)) as [| b bs IHb]; [reflexivity |].
    unfold blasted in *. cbn [filter existsb negb] in *. f_equal. exact IHb.
  - destruct (expired now e) eqn:Ee; cbn [negb].
    + assert (explosion_step users now s e
              = on_room (fun r => Room.set_explosions r
                                    (list_remove Explosion.eqb e (Room.explosions r))) s)
        as -> by (unfold explosion_step; unfold expired in Ee; rewrite Ee; reflexivity).
      specialize (IH pre (on_room (fun r => Room.set_explosions r
                                    (list_remove Explosion.eqb e (Room.explosions r))) s)).
      cbn [room on_room Room.explosions Room.balloons Room.set_explosions] in IH.
      destruct IH as (H1 & H2).
      * rewrite Hl. apply list_remove_after; [| apply Explosion_eqb_refl].
        eapply Forall_impl; [| exact Hpre]. intros h Hh. cbv beta in Hh.
        destruct (Explosion.eqb h e) eqn:Eq; [| reflexivity].
        rewrite (Explosion_eqb_expired now h e Eq) in Hh. congruence.
      * exact Hpre.
      * rewrite H1, H2. split; [reflexivity |].
        apply filter_same. intro b. unfold blasted. cbn [existsb]. rewrite Ee. reflexivity.
    + assert (explosion_step users now s e = fold_left (blast users e) (Room.balloons (room s)) s)
        as -> by (unfold explosion_step; unfold expired in Ee; rewrite Ee; reflexivity).
      destruct (blast_fold e (Room.balloons (room s)) [] s eq_refl (Forall_nil _))
        as (Hb & Hx & _).
      cbv zeta in Hb, Hx. cbn [app] in Hb.
      specialize (IH (pre ++ [e]) (fold_left (blast users e) (Room.balloons (room s)) s)).
      rewrite <- !app_assoc in IH. cbn [app] in IH.
      destruct IH as (H1 & H2).
      * rewrite Hx. exact Hl.
      * apply Forall_app. split; [exact Hpre | constructor; [exact Ee | constructor]].
      * rewrite H1, H2, Hb, filter_twice. split; [reflexivity |].
        apply filter_same. intro b. unfold blasted. cbn [existsb]. rewrite Ee.
        cbn [negb andb]. rewrite negb_orb. reflexivity.
Qed.

(** X14. The explosion loop of [_advance_room] as a whole. The explosions
    left are exactly those with [now <= expires_at], in their order, and the
    falling balloons left are exactly those that none of these overlaps, in
    their order: which balloons are destroyed does not depend on the order
    in which explosions and balloons are visited. *)
Theorem resolve_explosions_clears (now : Q) (s : Sim) :
  let s' := resolve_explosions users now s in
  Room.explosions (room s')
  = filter (fun e => Qle_bool now (Explosion.expires_at e)) (Room.explosions (room s))
  /\ Room.balloons (room s')
     = filter (fun b =>
                 negb (existsb (fun e => Qle_bool now (Explosion.expires_at e) && hits e b)
                               (Room.explosions (room s))))
              (Room.balloons (room s)).
Proof.
  cbv zeta.
  destruct (explosion_fold now (Room.explosions (room s)) [] s eq_refl (Forall_nil _))
    as (H1 & H2).
  unfold resolve_explosions. rewrite H1, H2. cbn [app]. split.
  - apply filter_same. intro e. unfold expired, Qltb. apply negb_involutive.
  - apply filter_same. intro b. unfold blasted. f_equal. clear H1 H2.
    induction (Room.explosions (room s)) as [| e es IH]; cbn [existsb]; [reflexivity |].
    rewrite IH. unfold expired, Qltb. rewrite negb_involutive. reflexivity.
Qed.

(** ** Spawning *)

Lemma random_uniform_range (env : Entropy) (k : nat) (a b : Q) :
  unit_draws env -> a <= b ->
  a <= random_uniform env k a b /\ random_uniform env k a b <= b.
Proof.
  intros Hu Hab. unfold random_uniform. destruct (Hu k) as [H0 H1]. split; nra.
Qed.

Lemma random_choice_in {A : Type} (env : Entropy) (k : nat) (seq : list A) (d : A) :
  seq <> [] -> In (random_choice env k seq d) seq.
Proof.
  intro Hne. unfold random_choice. apply nth_In. apply Nat.mod_upper_bound.
  destruct seq; [contradiction | discriminate].
Qed.

(** X15. A balloon made by [_new_balloon] starts wholly below the arena and
    horizontally inside it: [x] is in [[40, GAME_WIDTH - 40]], [y] is between
    [GAME_HEIGHT + BALLOON_RADIUS] and 80 more, its speed is between
    [BALLOON_MIN_SPEED] and [BALLOON_MAX_SPEED], its radius is
    [BALLOON_RADIUS] and its colour is one of [COLOR_POOL]. Five values are
    read. (The random generator returns numbers of [[0, 1)].) *)
Theorem new_balloon_starts_below_arena (env : Entropy) (k : nat) :
  unit_draws env ->
  let b := fst (_new_balloon env k) in
  40 <= Balloon.x b /\ Balloon.x b <= inject_Z (GAME_WIDTH - 40)
  /\ inject_Z (GAME_HEIGHT + BALLOON_RADIUS) <= Balloon.y b
  /\ Balloon.y b <= inject_Z (GAME_HEIGHT + BALLOON_RADIUS) + 80
  /\ BALLOON_MIN_SPEED <= Balloon.vy b /\ Balloon.vy b <= BALLOON_MAX_SPEED
  /\ Balloon.radius b = BALLOON_RADIUS
  /\ In (Balloon.color b) COLOR_POOL
  /\ snd (_new_balloon env k) = (5 + k)%nat.
Proof.
  intro Hu. cbv zeta.
  cbn [_new_balloon fst snd Balloon.x Balloon.y Balloon.vy Balloon.radius Balloon.color].
  assert (40 <= inject_Z (GAME_WIDTH - 40)) as Hw by (unfold Qle; simpl; lia).
  destruct (random_uniform_range env (1 + k) 40 (inject_Z (GAME_WIDTH - 40)) Hu Hw)
    as [Hx0 Hx1].
  destruct (random_uniform_range env (2 + k) 0 80 Hu ltac:(lra)) as [Hy0 Hy1].
  destruct (random_uniform_range env (3 + k) BALLOON_MIN_SPEED BALLOON_MAX_SPEED Hu
              ltac:(unfold BALLOON_MIN_SPEED, BALLOON_MAX_SPEED; lra)) as [Hv0 Hv1].
  repeat split; try assumption; try lra.
  apply random_choice_in. discriminate.
Qed.

Lemma reach_at_same_x (pu : Powerup.t) (p : Player.t) :
  Powerup.y pu = inject_Z (GAME_HEIGHT - 55) ->
  Player.x p == Powerup.x pu ->
  powerup_in_reach pu p = true.
Proof.
  intros Hy Hx. unfold powerup_in_reach. cbv zeta. apply Qle_bool_iff.
  rewrite Hy, Hx.
  assert (inject_Z (GAME_HEIGHT - 55) - inject_Z (GAME_HEIGHT - 34) == - (21)) as ->
    by reflexivity.
  assert (inject_Z (26 ^ 2) == 676) as -> by reflexivity.
  nra.
Qed.

(** X16. The two power-up spawners append exactly one power-up at ground
    level and change nothing else in the room. [_spawn_powerup] picks its
    type among speed, capacity and strength, never banana;
    [_spawn_banana_powerup] always makes a banana. The power-up lies where a
    player can stand ([x] in [[50, GAME_WIDTH - 50]]) and a player standing
    at its [x] is within reach of it. (The random generator returns numbers
    of [[0, 1)].) *)
Theorem spawned_powerups_can_be_taken (env : Entropy) (s : Sim) :
  unit_draws env ->
  (exists pu,
     room (_spawn_powerup env s)
     = Room.set_powerups (room s) (Room.powerups (room s) ++ [pu])
     /\ In (Powerup.type pu) POWERUP_TYPES /\ Powerup.type pu <> banana
     /\ 50 <= Powerup.x pu /\ Powerup.x pu <= inject_Z (GAME_WIDTH - 50)
     /\ forall p, Player.x p == Powerup.x pu -> powerup_in_reach pu p = true)
  /\ (exists pu,
        room (_spawn_banana_powerup env s)
        = Room.set_powerups (room s) (Room.powerups (room s) ++ [pu])
        /\ Powerup.type pu = banana
        /\ 50 <= Powerup.x pu /\ Powerup.x pu <= inject_Z (GAME_WIDTH - 50)
        /\ forall p, Player.x p == Powerup.x pu -> powerup_in_reach pu p = true).
Proof.
  intro Hu.
  assert (50 <= inject_Z (GAME_WIDTH - 50)) as Hw by (unfold Qle; simpl; lia).
  split.
  - unfold _spawn_powerup. cbv zeta. cbn [room]. eexists. split; [reflexivity |].
    cbn [Powerup.type Powerup.x].
    pose proof (random_choice_in env (tick s) POWERUP_TYPES speed ltac:(discriminate))
      as Hin.
    destruct (random_uniform_range env (2 + tick s) 50 (inject_Z (GAME_WIDTH - 50)) Hu Hw)
      as [Hx0 Hx1].
    repeat split; try assumption.
    + intro Hb. rewrite Hb in Hin. cbn in Hin. intuition discriminate.
    + intros p Hp. apply reach_at_same_x; [reflexivity | exact Hp].
  - unfold _spawn_banana_powerup. cbv zeta. cbn [room]. eexists. split; [reflexivity |].
    cbn [Powerup.type Powerup.x].
    destruct (random_uniform_range env (1 + tick s) 50 (inject_Z (GAME_WIDTH - 50)) Hu Hw)
      as [Hx0 Hx1].
    repeat split; try assumption.
    intros p Hp. apply reach_at_same_x; [reflexivity | exact Hp].
Qed.

Lemma thinned_length {A : Type} (R : A -> A -> Prop) (l l' : list A) :
  thinned R l l' -> (List.length l' <= List.length l)%nat.
Proof.
  intro H. induction H; cbn [List.length]; lia.
Qed.

Lemma tick_powerup_timer_count (env : Entropy) (dt : Q) (s : Sim) :
  0 <= dt -> 0 <= Room.powerup_timer (room s) ->
  0 <= Room.powerup_timer (room (tick_powerup_timer env dt s))
  /\ (List.length (Room.powerups (room (tick_powerup_timer env dt s)))
      <= 1 + List.length (Room.powerups (room s)))%nat.
Proof.
  intros Hd Ht. unfold tick_powerup_timer.
  cbn [room on_room Room.powerup_timer Room.set_powerup_timer].
  case_if; cbn [room on_room Room.powerup_timer Room.powerups Room.set_powerup_timer
                _spawn_powerup Room.set_powerups].
  - rewrite length_app. cbn [List.length]. split; [lra | lia].
  - split; [lra | lia].
Qed.

Lemma tick_banana_timer_count (env : Entropy) (dt : Q) (s : Sim) :
  0 <= dt -> 0 <= Room.banana_timer (room s) ->
  0 <= Room.banana_timer (room (tick_banana_timer env dt s))
  /\ (List.length (Room.powerups (room (tick_banana_timer env dt s)))
      <= 1 + List.length (Room.powerups (room s)))%nat.
Proof.
  intros Hd Ht. unfold tick_banana_timer.
  cbn [room on_room Room.banana_timer Room.set_banana_timer].
  case_if; cbn [room on_room Room.banana_timer Room.powerups Room.set_banana_timer
                _spawn_banana_powerup Room.set_powerups].
  - rewrite length_app. cbn [List.length]. split; [lra | lia].
  - split; [lra | lia].
Qed.

(** X17. The two power-up timers stay in range and spawn sparingly: if
    neither is negative before a call of [_advance_room], then after it
    [powerup_timer] is in [[0, POWERUP_SPAWN_INTERVAL)] and [banana_timer] in
    [[0, BANANA_SPAWN_INTERVAL)], and the room holds at most two power-ups
    more than before, however long ago the last call was. *)
Theorem advance_room_timers_in_range (env : Entropy) (s : Sim) (now : Q) :
  0 <= Room.powerup_timer (room s) -> 0 <= Room.banana_timer (room s) ->
  let r := room (_advance_room users env s now) in
  0 <= Room.powerup_timer r /\ Room.powerup_timer r < POWERUP_SPAWN_INTERVAL
  /\ 0 <= Room.banana_timer r /\ Room.banana_timer r < BANANA_SPAWN_INTERVAL
  /\ (List.length (Room.powerups r) <= 2 + List.length (Room.powerups (room s)))%nat.
Proof.
  intros Hp Hb. cbv zeta.
  destruct (advance_room_settled env s now) as (_ & _ & Hp1 & Hb1).
  destruct (elapsed_range (room s) now) as [Hd _].
  destruct (timers_inv _ _ (advance_room_timers env s now)) as (_ & _ & Ept & Ebt).
  set (dt := elapsed (room s) now) in *.
  set (s3 := on_room (fun r => Room.set_balloons r (advance_balloons dt (Room.balloons r)))
               (on_room (fun r => Room.set_players r
                                    (advance_players now dt (Room.players r)))
                  (on_room (fun r => Room.set_last_update r now) s))) in *.
  set (s4 := spawn_balloons env dt s3) in *.
  set (s5 := tick_powerup_timer env dt s4) in *.
  set (s6 := tick_banana_timer env dt s5) in *.
  destruct (spawn_balloons_keeps env dt s3) as (_ & H4p & _ & H4pt & H4bt & _).
  fold s4 in H4p, H4pt, H4bt.
  change (Room.powerups (room s3)) with (Room.powerups (room s)) in H4p.
  change (Room.powerup_timer (room s3)) with (Room.powerup_timer (room s)) in H4pt.
  change (Room.banana_timer (room s3)) with (Room.banana_timer (room s)) in H4bt.
  destruct (tick_powerup_timer_count env dt s4 Hd) as [H5t H5n]; [rewrite H4pt; exact Hp |].
  fold s5 in H5t, H5n.
  destruct (tick_powerup_timer_keeps env dt s4) as (_ & _ & _ & _ & H5bt & _).
  fold s5 in H5bt.
  destruct (tick_banana_timer_count env dt s5 Hd) as [H6t H6n];
    [rewrite H5bt, H4bt; exact Hb |].
  fold s6 in H6t, H6n.
  destruct (tick_banana_timer_keeps env dt s5) as (_ & _ & _ & _ & H6pt & _).
  fold s6 in H6pt.
  split; [rewrite Ept, H6pt; exact H5t |].
  split; [exact Hp1 |].
  split; [rewrite Ebt; exact H6t |].
  split; [exact Hb1 |].
  rewrite advance_room_after_motion. unfold after_motion.
  fold dt. fold s3. fold s4. fold s5. fold s6.
  rewrite (proj1 (proj2 (collect_bananas_items now _))).
  pose proof (thinned_length _ _ _
                (proj2 (proj2 (collect_powerups_items env
                   (resolve_explosions users now (expire_fuses env now s6)))))) as Hlen.
  rewrite (proj1 (resolve_explosions_items now _)) in Hlen.
  rewrite (proj1 (proj2 (proj2 (expire_fuses_keeps env now s6)))) in Hlen.
  rewrite H4p in H5n. lia.
Qed.

(** ** The URL prefix *)

Lemma rstrip_slash_no_trailing (s : string) : ends_with_slash (rstrip_slash s) = false.
Proof.
  induction s as [| c s IH]; cbn [rstrip_slash]; [reflexivity |].
  destruct (rstrip_slash s) as [| c1 s1] eqn:E.
  - destruct (Ascii.eqb c "/"%char) eqn:Ec; cbn [ends_with_slash]; [reflexivity | exact Ec].
  - cbn [ends_with_slash] in *. exact IH.
Qed.

Lemma rstrip_slash_fixed (s : string) : ends_with_slash s = false -> rstrip_slash s = s.
Proof.
  induction s as [| c s IH]; cbn [rstrip_slash ends_with_slash]; [reflexivity |].
  destruct s as [| c1 s1].
  - intros ->. reflexivity.
  - intro H. rewrite (IH H). reflexivity.
Qed.

Lemma slashes_snoc (n : nat) : String "/"%char (slashes n) = String.append (slashes n) "/"%string.
Proof. induction n as [| n IH]; cbn; [reflexivity | rewrite <- IH; reflexivity]. Qed.

(** [rstrip] takes away slashes at the end and nothing else. *)
Lemma rstrip_slash_cut (s : string) :
  exists n, s = String.append (rstrip_slash s) (slashes n).
Proof.
  induction s as [| c s [n IH]]; cbn [rstrip_slash].
  - exists 0%nat. reflexivity.
  - destruct (rstrip_slash s) as [| c1 s1] eqn:E.
    + cbn [String.append] in IH. subst s.
      destruct (Ascii.eqb c "/"%char) eqn:Ec.
      * apply Ascii.eqb_eq in Ec. subst c. exists (S n). reflexivity.
      * exists n. reflexivity.
    + exists n. cbn [String.append] in *. rewrite <- IH. reflexivity.
Qed.

Lemma url_prefix_cases (raw : string) :
  (rstrip_slash raw = EmptyString /\ URL_PREFIX (Some raw) = EmptyString)
  \/ (String.prefix "/"%string (rstrip_slash raw) = true
      /\ URL_PREFIX (Some raw) = rstrip_slash raw)
  \/ (rstrip_slash raw <> EmptyString
      /\ URL_PREFIX (Some raw) = String "/"%char (rstrip_slash raw)).
Proof.
  unfold URL_PREFIX. cbv zeta.
  destruct (rstrip_slash raw) as [| c q] eqn:E.
  - left. split; reflexivity.
  - destruct (String.prefix "/"%string (String c q)) eqn:Ep.
    + right. left. split; reflexivity.
    + right. right. split; [discriminate | reflexivity].
Qed.

Lemma url_prefix_fixed (p : string) :
  ends_with_slash p = false ->
  p = EmptyString \/ String.prefix "/"%string p = true ->
  URL_PREFIX (Some p) = p.
Proof.
  intros Hend Hp. unfold URL_PREFIX. cbv zeta. rewrite (rstrip_slash_fixed p Hend).
  destruct Hp as [-> | Hp]; [reflexivity |].
  rewrite Hp. cbn [negb]. rewrite andb_false_r. reflexivity.
Qed.

(** X18. The URL prefix computed at start-up from the environment is
    normalised: it is either empty or starts with a slash, and it never ends
    with a slash; it is the configured value with its trailing slashes cut
    and, if needed, one slash put in front, nothing else; computing it again
    from itself gives itself. The route [/] redirects to the prefix followed
    by one slash exactly when the prefix is not empty, and serves the index
    page otherwise. *)
Theorem url_prefix_normalised (environ : option string) :
  let raw := match environ with Some v => v | None => "/balloono"%string end in
  let p := URL_PREFIX environ in
  (p = EmptyString \/ String.prefix "/"%string p = true)
  /\ ends_with_slash p = false
  /\ (exists n, raw = String.append p (slashes n)
                \/ String "/"%char raw = String.append p (slashes n))
  /\ URL_PREFIX (Some p) = p
  /\ (p = EmptyString -> root_redirect environ = index_page)
  /\ (p <> EmptyString ->
      root_redirect environ = redirect_to (String.append p "/"%string)).
Proof.
  cbv zeta.
  set (raw := match environ with Some v => v | None => "/balloono"%string end).
  assert (URL_PREFIX environ = URL_PREFIX (Some raw)) as Hraw
    by (unfold raw; destruct environ; reflexivity).
  assert (forall p, URL_PREFIX environ = p ->
            (p = EmptyString -> root_redirect environ = index_page)
            /\ (p <> EmptyString ->
                root_redirect environ = redirect_to (String.append p "/"%string)))
    as Hroot.
  { intros p Hp. unfold root_redirect. cbv zeta. rewrite Hp. split.
    - intros ->. reflexivity.
    - intro Hne. destruct p; [contradiction | reflexivity]. }
  pose proof (rstrip_slash_no_trailing raw) as Hend.
  destruct (rstrip_slash_cut raw) as [n Hcut].
  assert ((URL_PREFIX environ = EmptyString
           \/ String.prefix "/"%string (URL_PREFIX environ) = true)
          /\ ends_with_slash (URL_PREFIX environ) = false
          /\ (exists n, raw = String.append (URL_PREFIX environ) (slashes n)
                        \/ String "/"%char raw
                           = String.append (URL_PREFIX environ) (slashes n)))
    as (H1 & H2 & H3).
  { rewrite Hraw.
    destruct (url_prefix_cases raw) as [[Hq ->] | [[Hq ->] | [Hq ->]]].
    - split; [left; reflexivity | split; [reflexivity |]].
      exists n. left. rewrite Hq in Hcut. exact Hcut.
    - split; [right; exact Hq | split; [exact Hend |]].
      exists n. left. exact Hcut.
    - split; [right; destruct (rstrip_slash raw); reflexivity |].
      split.
      + destruct (rstrip_slash raw) as [| c q]; [contradiction | exact Hend].
      + exists n. right. cbn [String.append]. rewrite <- Hcut. reflexivity. }
  split; [exact H1 |]. split; [exact H2 |]. split; [exact H3 |].
  split; [apply url_prefix_fixed; assumption |].
  apply Hroot. reflexivity.
Qed.

(** ** The upload filter *)

Lemma should_skip_parts (parts : list string) :
  should_skip parts = existsb skipped_part parts.
Proof.
  unfold should_skip.
  induction parts as [| part parts IH]; [reflexivity |].
  cbn [existsb]. unfold skipped_part at 1.
  destruct (String.prefix "." part); cbn [orb]; [reflexivity |].
  destruct (existsb (fun part0 => String.prefix "." part0) parts); cbn [orb] in *.
  - rewrite <- IH. rewrite !orb_true_r. reflexivity.
  - destruct (String.eqb "node_modules" part); cbn [orb]; [reflexivity |].
    destruct (String.eqb "__pycache__" part); cbn [orb].
    + rewrite orb_true_r. reflexivity.
    + destruct (existsb (String.eqb "node_modules") parts
                || existsb (String.eqb "__pycache__") parts); cbn [orb] in *.
      * rewrite <- IH. rewrite !orb_true_r. reflexivity.
      * destruct (String.eqb "scripts" part); cbn [orb]; [reflexivity | exact IH].
Qed.

(** X19. [should_skip] rejects a path exactly when one of its parts starts
    with a dot or is named [node_modules], [__pycache__] or [scripts]. So the
    verdict on a path put together from two is the disjunction of the two
    verdicts: everything below a skipped directory is skipped, wherever the
    directory sits, and the empty path is not skipped. *)
Theorem should_skip_by_part (parts more : list string) :
  (should_skip parts = true
   <-> exists part,
         In part parts
         /\ (String.prefix "."%string part = true \/ part = "node_modules"%string
             \/ part = "__pycache__"%string \/ part = "scripts"%string))
  /\ should_skip (parts ++ more) = should_skip parts || should_skip more
  /\ should_skip [] = false.
Proof.
  rewrite !should_skip_parts. split; [| split; [apply existsb_app | reflexivity]].
  rewrite existsb_exists. split.
  - intros (part & Hin & Hs). exists part. split; [exact Hin |].
    unfold skipped_part in Hs. rewrite !orb_true_iff in Hs.
    destruct Hs as [[[H | H] | H] | H]; [left; exact H | | |];
      apply String.eqb_eq in H; subst; tauto.
  - intros (part & Hin & Hs). exists part. split; [exact Hin |].
    unfold skipped_part. rewrite !orb_true_iff.
    destruct Hs as [H | [H | [H | H]]]; [tauto | | |]; subst; cbn; tauto.
Qed.

(** ** Joining *)

Lemma dict_set_new {V : Type} (d : dict V) (k : string) (v : V) :
  dict_get d k = None -> dict_set d k v = d ++ [(k, v)].
Proof.
  induction d as [| [k0 v0] d IH]; cbn [dict_get dict_set app]; intro H.
  - reflexivity.
  - destruct (String.eqb k0 k); [discriminate |]. rewrite IH by exact H. reflexivity.
Qed.

(** What [api_join] stores and answers for a logged-in user: the room found
    or made, with the new player written under the new id. *)
Lemma api_join_logged_in (env : Entropy) (srv : Server) (user : User.t) (room_id : string) :
  let k := match dict_get (ROOMS srv) room_id with
           | Some _ => reads srv | None => S (reads srv) end in
  let base := match dict_get (ROOMS srv) room_id with
              | Some room0 => room0 | None => fst (_new_room env (reads srv) room_id) end in
  let player_id := uuid_prefix env k 10 in
  let player :=
    Player.mk player_id (User.id user) (User.username user) (inject_Z GAME_WIDTH / 2)
      0.0 0 (random_choice env (1 + k) COLOR_POOL EmptyString) (_now env (3 + k)) 0.0 1.0
      1 BALLOON_BASE_RADIUS 0.0 false 0.0 in
  let room1 := Room.set_players base (dict_set (Room.players base) player_id player) in
  api_join env srv (Some user) room_id
  = (joined player_id (_room_state env room1 (4 + k)),
     {| ROOMS := dict_set (ROOMS srv) room_id room1;
        reads := (5 + k)%nat;
        calls := calls srv |},
     Some (User.set_games_played user (User.games_played user + 1)%Z)).
Proof.
  cbv zeta. unfold api_join.
  destruct (dict_get (ROOMS srv) room_id) as [room0 |];
    cbn [_new_room _add_player fst snd room tick sink Room.players Room.set_players
         User.id User.username User.set_games_played];
    rewrite dict_get_set_same, dict_set_set; reflexivity.
Qed.

(** X20. Joining. Without a logged-in user [api_join] answers
    [unauthorized] and changes nothing. With one, it answers with a new
    player id under which the room named now holds a player of that user,
    standing still in the middle of the arena with no score and the starting
    gains (one balloon, base blast users radius, speed 1, no banana); the user's
    [games_played] goes up by one and no sink call is made. A room that did
    not exist is created with this player alone, no entities and empty
    accumulators; in an existing room everything but the players is as it
    was, every player under another id is as they were, and when the id is
    new to the room the player is added after the others. Other rooms are
    not touched. *)
Theorem api_join_adds_player (env : Entropy) (srv : Server) (user : User.t)
    (room_id : string) :
  api_join env srv None room_id = (unauthorized, srv, None)
  /\ exists player_id state room1 player,
       api_join env srv (Some user) room_id
       = (joined player_id state,
          {| ROOMS := dict_set (ROOMS srv) room_id room1;
             reads := (match dict_get (ROOMS srv) room_id with Some _ => 5 | None => 6 end
                      + reads srv)%nat;
             calls := calls srv |},
          Some (User.set_games_played user (User.games_played user + 1)%Z))
       /\ players state = dict_values (Room.players room1)
       /\ dict_get (dict_set (ROOMS srv) room_id room1) room_id = Some room1
       /\ dict_get (Room.players room1) player_id = Some player
       /\ Player.id player = player_id
       /\ Player.user_id player = User.id user
       /\ Player.name player = User.username user
       /\ Player.x player == 400 /\ in_arena player
       /\ Player.vx player == 0 /\ Player.score player = 0%Z
       /\ Player.speed_mult player == 1
       /\ Player.balloon_capacity player = 1%Z
       /\ Player.blast_radius player = BALLOON_BASE_RADIUS
       /\ Player.has_banana player = false
       /\ (forall other, other <> room_id ->
             dict_get (dict_set (ROOMS srv) room_id room1) other
             = dict_get (ROOMS srv) other)
       /\ match dict_get (ROOMS srv) room_id with
          | None =>
              room1
              = Room.mk room_id [(player_id, player)] [] [] [] [] []
                  (_now env (reads srv)) 0.0 0.0 0.0
          | Some room0 =>
              room1 = Room.set_players room0 (Room.players room1)
              /\ (forall k, k <> player_id ->
                    dict_get (Room.players room1) k = dict_get (Room.players room0) k)
              /\ (dict_get (Room.players room0) player_id = None ->
                  Room.players room1 = Room.players room0 ++ [(player_id, player)])
          end.
Proof.
  split; [reflexivity |].
  pose proof (api_join_logged_in env srv user room_id) as H. cbv zeta in H.
  eexists; eexists; eexists; eexists. split.
  { rewrite H. f_equal. f_equal. f_equal. destruct (dict_get (ROOMS srv) room_id); lia. }
  cbn [players _room_state Room.players Room.set_players Player.id Player.user_id
       Player.name Player.x Player.vx Player.score Player.speed_mult
       Player.balloon_capacity Player.blast_radius Player.has_banana].
  split; [reflexivity |].
  split; [apply dict_get_set_same |].
  split; [apply dict_get_set_same |].
  split; [reflexivity |]. split; [reflexivity |]. split; [reflexivity |].
  split; [reflexivity |].
  split; [unfold in_arena; cbn; unfold Qle; simpl; split; lia |].
  split; [reflexivity |]. split; [reflexivity |]. split; [reflexivity |].
  split; [reflexivity |]. split; [reflexivity |]. split; [reflexivity |].
  split.
  { intros other Hne. apply dict_get_set_other. intro. apply Hne. congruence. }
  destruct (dict_get (ROOMS srv) room_id) as [room0 |].
  - split; [reflexivity |]. split.
    + intros k Hne. apply dict_get_set_other. intro. apply Hne. congruence.
    + intro Hn. apply dict_set_new, Hn.
  - reflexivity.
Qed.

(** ** Fuses and explosions in the whole step *)

Lemma spawn_loop_fuses (env : Entropy) (fuel : nat) :
  forall s,
    Room.placed_balloons (room (spawn_loop env fuel s)) = Room.placed_balloons (room s)
    /\ Room.explosions (room (spawn_loop env fuel s)) = Room.explosions (room s).
Proof.
  induction fuel as [| fuel IH]; intro s; cbn [spawn_loop]; [split; reflexivity |].
  case_if; [| split; reflexivity]. cbn [_new_balloon].
  match goal with |- context [spawn_loop env fuel ?s1] => destruct (IH s1) as [H1 H2] end.
  rewrite H1, H2. split; reflexivity.
Qed.

(** The stages before the fuse loop leave placed balloons and explosions
    alone. *)
Lemma before_fuses_keeps (env : Entropy) (dt : Q) (s : Sim) :
  let s' := tick_banana_timer env dt (tick_powerup_timer env dt (spawn_balloons env dt s)) in
  Room.placed_balloons (room s') = Room.placed_balloons (room s)
  /\ Room.explosions (room s') = Room.explosions (room s).
Proof.
  cbv zeta.
  assert (forall s1,
            Room.placed_balloons (room (tick_banana_timer env dt s1))
            = Room.placed_balloons (room s1)
            /\ Room.explosions (room (tick_banana_timer env dt s1))
               = Room.explosions (room s1)) as Hb
    by (intro s1; unfold tick_banana_timer; case_if; split; reflexivity).
  assert (forall s1,
            Room.placed_balloons (room (tick_powerup_timer env dt s1))
            = Room.placed_balloons (room s1)
            /\ Room.explosions (room (tick_powerup_timer env dt s1))
               = Room.explosions (room s1)) as Hp
    by (intro s1; unfold tick_powerup_timer; case_if; split; reflexivity).
  rewrite (proj1 (Hb _)), (proj2 (Hb _)), (proj1 (Hp _)), (proj2 (Hp _)).
  unfold spawn_balloons.
  match goal with |- context [spawn_loop env ?f ?s1] =>
    destruct (spawn_loop_fuses env f s1) as [H1 H2] end.
  rewrite H1, H2. split; reflexivity.
Qed.

Lemma explosion_step_placed (now : Q) (s : Sim) (e : Explosion.t) :
  Room.placed_balloons (room (explosion_step users now s e)) = Room.placed_balloons (room s).
Proof.
  unfold explosion_step. case_if; [reflexivity |].
  apply (fold_left_keeps (blast users e) (fun s => Room.placed_balloons (room s))).
  intros s1 b. unfold blast. case_if; [| reflexivity].
  cbn [Room.players Room.set_balloons].
  destruct (dict_get (Room.players (room s1)) (Explosion.player_id e)); reflexivity.
Qed.

(** The pickup loops leave placed balloons and explosions alone. *)
Lemma pickups_keep_fuses (env : Entropy) (now : Q) (s : Sim) :
  let s' := collect_bananas now (collect_powerups users env s) in
  Room.placed_balloons (room s') = Room.placed_balloons (room s)
  /\ Room.explosions (room s') = Room.explosions (room s).
Proof.
  cbv zeta. unfold collect_bananas, collect_powerups.
  assert (forall s1 bn,
            Room.placed_balloons (room (banana_step now s1 bn))
            = Room.placed_balloons (room s1)
            /\ Room.explosions (room (banana_step now s1 bn)) = Room.explosions (room s1))
    as Hb.
  { intros s1 bn. unfold banana_step.
    destruct (banana_scan now bn (Room.players (room s1))); split; reflexivity. }
  assert (forall s1 pu,
            Room.placed_balloons (room (powerup_step users env s1 pu))
            = Room.placed_balloons (room s1)
            /\ Room.explosions (room (powerup_step users env s1 pu)) = Room.explosions (room s1))
    as Hp.
  { intros s1 pu. unfold powerup_step.
    destruct (powerup_scan env (tick s1) pu (Room.players (room s1)))
      as [[[d' who] k'] |]; split; reflexivity. }
  rewrite (fold_left_keeps (banana_step now) (fun s => Room.placed_balloons (room s)))
    by (intros; apply Hb).
  rewrite (fold_left_keeps (banana_step now) (fun s => Room.explosions (room s)))
    by (intros; apply Hb).
  rewrite (fold_left_keeps (powerup_step users env) (fun s => Room.placed_balloons (room s)))
    by (intros; apply Hp).
  rewrite (fold_left_keeps (powerup_step users env) (fun s => Room.explosions (room s)))
    by (intros; apply Hp).
  split; reflexivity.
Qed.

Lemma detonate_live (env : Entropy) (now : Q) (l : list Placed.t) :
  forall k,
    filter (fun e => Qle_bool now (Explosion.expires_at e)) (detonate env now k l)
    = detonate env now k l.
Proof.
  induction l as [| p l IH]; intro k; cbn [detonate filter Explosion.expires_at].
  - reflexivity.
  - assert (Qle_bool now (now + 0.4) = true) as -> by (apply Qle_bool_iff; lra).
    rewrite IH. reflexivity.
Qed.

Lemma existsb_filter_live (now : Q) (es : list Explosion.t) (b : Balloon.t) :
  existsb (fun e => Qle_bool now (Explosion.expires_at e) && hits e b)
          (filter (fun e => Qle_bool now (Explosion.expires_at e)) es)
  = existsb (fun e => Qle_bool now (Explosion.expires_at e) && hits e b) es.
Proof.
  induction es as [| e es IH]; cbn [filter existsb]; [reflexivity |].
  destruct (Qle_bool now (Explosion.expires_at e)) eqn:E; cbn [existsb andb orb].
  - rewrite E, IH. reflexivity.
  - exact IH.
Qed.

(** The fuse loop, the explosion loop and the pickup loops in a row. *)
Lemma late_stages_fuses_and_blasts (env : Entropy) (now : Q) (s6 : Sim) :
  let r :=
    room (collect_bananas now
            (collect_powerups users env (resolve_explosions users now (expire_fuses env now s6)))) in
  Room.placed_balloons r
  = filter (fun p => negb (fuse_due now p)) (Room.placed_balloons (room s6))
  /\ Room.explosions r
     = filter (fun e => Qle_bool now (Explosion.expires_at e)) (Room.explosions (room s6))
       ++ detonate env now (tick s6)
            (filter (fuse_due now) (Room.placed_balloons (room s6)))
  /\ Forall (fun b => Forall (fun e => hits e b = false) (Room.explosions r))
            (Room.balloons r).
Proof.
  cbv zeta.
  remember (expire_fuses env now s6) as s7 eqn:E7.
  remember (resolve_explosions users now s7) as s8 eqn:E8.
  destruct (fuse_fold env now (Room.placed_balloons (room s6)) [] s6 eq_refl (Forall_nil _))
    as (H7p & H7e & _).
  cbn [app] in H7p. unfold expire_fuses in E7. rewrite <- E7 in H7p, H7e.
  destruct (explosion_fold now (Room.explosions (room s7)) [] s7 eq_refl (Forall_nil _))
    as (H8e & H8b).
  cbn [app] in H8e. unfold resolve_explosions in E8. rewrite <- E8 in H8e, H8b.
  assert (Room.placed_balloons (room s8) = Room.placed_balloons (room s7)) as H8p.
  { rewrite E8.
    apply (fold_left_keeps (explosion_step users now) (fun s => Room.placed_balloons (room s))).
    intros; apply explosion_step_placed. }
  destruct (pickups_keep_fuses env now s8) as [H9p H9e]. cbv zeta in H9p, H9e.
  assert (Room.balloons (room (collect_bananas now (collect_powerups users env s8)))
          = Room.balloons (room s8)) as H9b.
  { rewrite (proj1 (collect_bananas_items now _)).
    apply (proj1 (collect_powerups_items env s8)). }
  rewrite H9p, H9e, H9b, H8p, H7p.
  assert (Room.explosions (room s8)
          = filter (fun e => Qle_bool now (Explosion.expires_at e))
                   (Room.explosions (room s7))) as H8e'.
  { rewrite H8e. apply filter_same. intro e. unfold expired, Qltb. apply negb_involutive. }
  split; [reflexivity | split].
  - rewrite H8e', H7e, filter_app, detonate_live. reflexivity.
  - rewrite H8b, H8e'. apply Forall_forall. intros b Hin.
    apply filter_In in Hin. destruct Hin as [_ Hb]. apply negb_true_iff in Hb.
    unfold blasted in Hb.
    apply Forall_forall. intros e He. apply filter_In in He. destruct He as [He Hlive].
    destruct (hits e b) eqn:Eh; [| reflexivity].
    assert (existsb (fun e0 => negb (expired now e0) && hits e0 b)
                    (Room.explosions (room s7)) = true) as Hex.
    { apply existsb_exists. exists e. split; [exact He |].
      unfold expired, Qltb. rewrite negb_involutive, Hlive, Eh. reflexivity. }
    rewrite Hex in Hb. discriminate Hb.
Qed.

(** X21. Fuses and blasts over one whole call of [_advance_room]. The placed
    balloons left are those whose fuse has not run out, in order; the
    explosions left are the old ones that have not expired followed by one
    new explosion for each placed balloon whose fuse ran out (same place,
    radius and owner, expiring 0.4 s after [now]); and no falling balloon
    left in the room overlaps an explosion left in the room. *)
Theorem advance_room_fuses_and_blasts (env : Entropy) (s : Sim) (now : Q) :
  let r := room (_advance_room users env s now) in
  Room.placed_balloons r
  = filter (fun p => negb (fuse_due now p)) (Room.placed_balloons (room s))
  /\ (exists k,
        Room.explosions r
        = filter (fun e => Qle_bool now (Explosion.expires_at e))
                 (Room.explosions (room s))
          ++ detonate env now k (filter (fuse_due now) (Room.placed_balloons (room s))))
  /\ Forall (fun b => Forall (fun e => hits e b = false) (Room.explosions r))
            (Room.balloons r).
Proof.
  cbv zeta. rewrite advance_room_after_motion. unfold after_motion.
  match goal with |- context [expire_fuses env now ?s0] =>
    destruct (late_stages_fuses_and_blasts env now s0) as (Hp & He & Hb);
    remember s0 as s6 eqn:E6
  end.
  cbv zeta in Hp, He, Hb.
  match type of E6 with
  | _ = tick_banana_timer env ?dt (tick_powerup_timer env ?dt (spawn_balloons env ?dt ?s3)) =>
      destruct (before_fuses_keeps env dt s3) as [H6p H6e]
  end.
  cbv zeta in H6p, H6e. rewrite <- E6 in H6p, H6e.
  cbn [room on_room Room.placed_balloons Room.explosions Room.set_balloons
       Room.set_players Room.set_last_update] in H6p, H6e.
  rewrite H6p, H6e in *.
  split; [exact Hp | split; [exists (tick s6); exact He | exact Hb]].
Qed.

(** ** The whole step, seen from the explosion loop *)

Lemma advance_room_from_explosions (env : Entropy) (s : Sim) (now : Q) :
  _advance_room users env s now
  = collect_bananas now
      (collect_powerups users env
         (resolve_explosions users now (at_explosions env s now))).
Proof.
  rewrite advance_room_after_motion. unfold after_motion, at_explosions. cbv zeta.
  reflexivity.
Qed.

Lemma spawn_loop_appends (env : Entropy) (fuel : nat) :
  forall s, exists spawned,
    Room.balloons (room (spawn_loop env fuel s)) = Room.balloons (room s) ++ spawned.
Proof.
  induction fuel as [| fuel IH]; intro s; cbn [spawn_loop].
  - exists []. rewrite app_nil_r. reflexivity.
  - case_if; [| exists []; rewrite app_nil_r; reflexivity]. cbn [_new_balloon].
    match goal with |- context [spawn_loop env fuel ?s1] =>
      destruct (IH s1) as [spawned H] end.
    rewrite H. cbn [room Room.balloons Room.set_spawn_accum Room.set_balloons].
    rewrite <- app_assoc. eexists. reflexivity.
Qed.

(** What enters the explosion loop: the players as moved, the balloons as
    moved followed by the spawned ones, and all explosions, old and new. *)
Lemma at_explosions_holds (env : Entropy) (s : Sim) (now : Q) :
  let s6 := at_explosions env s now in
  Room.players (room s6)
  = advance_players now (elapsed (room s) now) (Room.players (room s))
  /\ (exists spawned,
        Room.balloons (room s6)
        = advance_balloons (elapsed (room s) now) (Room.balloons (room s)) ++ spawned)
  /\ (exists k,
        Room.explosions (room s6)
        = Room.explosions (room s)
          ++ detonate env now k (filter (fuse_due now) (Room.placed_balloons (room s)))).
Proof.
  cbv zeta. unfold at_explosions. cbv zeta. split; [| split].
  - rewrite before_explosions_players. reflexivity.
  - rewrite (proj1 (proj2 (expire_fuses_keeps env now _))).
    rewrite (proj1 (proj2 (tick_banana_timer_keeps env _ _))).
    rewrite (proj1 (proj2 (tick_powerup_timer_keeps env _ _))).
    unfold spawn_balloons.
    match goal with |- context [spawn_loop env ?f ?s1] =>
      destruct (spawn_loop_appends env f s1) as [spawned H] end.
    exists spawned. rewrite H. reflexivity.
  - match goal with |- context [expire_fuses env now ?s0] =>
      remember s0 as s5 eqn:E5 end.
    destruct (fuse_fold env now (Room.placed_balloons (room s5)) [] s5 eq_refl (Forall_nil _))
      as (_ & He & _).
    unfold expire_fuses. exists (tick s5). rewrite He.
    match type of E5 with
    | _ = tick_banana_timer env ?dt (tick_powerup_timer env ?dt (spawn_balloons env ?dt ?s3)) =>
        destruct (before_fuses_keeps env dt s3) as [H6p H6e]
    end.
    cbv zeta in H6p, H6e. rewrite <- E5 in H6p, H6e. rewrite H6p, H6e. reflexivity.
Qed.

(** ** Scores *)

Lemma scores_keys (d : dict Player.t) : map fst (scores d) = dict_keys d.
Proof. unfold scores, dict_keys. rewrite map_map. reflexivity. Qed.

Lemma scores_raised_keys (g : string -> Z) (l : list (string * Z)) :
  map fst (map (fun ks => (fst ks, (snd ks + g (fst ks))%Z)) l) = map fst l.
Proof. rewrite map_map. reflexivity. Qed.

Lemma scores_raised_none (l : list (string * Z)) :
  map (fun ks => (fst ks, (snd ks + 0)%Z)) l = l.
Proof.
  induction l as [| [k z] l IH]; cbn [map fst snd]; [reflexivity |].
  rewrite IH, Z.add_0_r. reflexivity.
Qed.

(** Raising the score of the player under [k], if there is one, raises the
    score listed for [k] and no other. *)
Lemma scores_set_score (d : dict Player.t) (k : string) (n : Z) :
  NoDup (dict_keys d) ->
  scores (match dict_get d k with
          | Some p => dict_set d k (Player.set_score p (Player.score p + n)%Z)
          | None => d
          end)
  = map (fun ks => (fst ks, (snd ks + (if String.eqb k (fst ks) then n else 0))%Z))
        (scores d).
Proof.
  assert (forall d0 : dict Player.t,
            ~ In k (dict_keys d0) ->
            map (fun ks => (fst ks, (snd ks + (if String.eqb k (fst ks) then n else 0))%Z))
                (scores d0) = scores d0) as Hout.
  { induction d0 as [| [k0 p0] d0 IH]; cbn [dict_keys scores map fst snd]; intro Hn.
    - reflexivity.
    - destruct (String.eqb k k0) eqn:E.
      + apply String.eqb_eq in E. exfalso. apply Hn. left. symmetry. exact E.
      + rewrite Z.add_0_r. f_equal. apply IH. intro Hin. apply Hn. right. exact Hin. }
  induction d as [| [k0 p0] d IH]; intro Hnd; cbn [dict_get].
  - reflexivity.
  - inversion Hnd as [| ? ? Hk0 Hnd']; subst.
    destruct (String.eqb k0 k) eqn:E.
    + apply String.eqb_eq in E. subst k0.
      cbn [dict_set]. rewrite String.eqb_refl.
      cbn [scores map fst snd Player.score Player.set_score].
      rewrite String.eqb_refl. f_equal. symmetry. apply Hout. exact Hk0.
    + specialize (IH Hnd').
      destruct (dict_get d k) as [p |].
      * cbn [dict_set]. rewrite E. cbn [scores map fst snd] in *.
        rewrite String.eqb_sym, E, Z.add_0_r. f_equal. exact IH.
      * cbn [scores map fst snd] in *.
        rewrite String.eqb_sym, E, Z.add_0_r. f_equal. exact IH.
Qed.

Lemma kills_nil (now : Q) (bs : list Balloon.t) (key : string) :
  kills now [] bs key = 0%nat.
Proof.
  unfold kills, blaster. cbn [find].
  induction bs as [| b bs IH]; [reflexivity | exact IH].
Qed.

Lemma kills_cons_expired (now : Q) (e : Explosion.t) (es : list Explosion.t)
    (bs : list Balloon.t) (key : string) :
  expired now e = true -> kills now (e :: es) bs key = kills now es bs key.
Proof.
  intro H. unfold kills, blaster. cbn [find]. rewrite H. reflexivity.
Qed.

Lemma kills_cons_live (now : Q) (e : Explosion.t) (es : list Explosion.t)
    (bs : list Balloon.t) (key : string) :
  expired now e = false ->
  kills now (e :: es) bs key
  = ((if String.eqb (Explosion.player_id e) key
      then List.length (filter (hits e) bs) else 0)
     + kills now es (filter (fun b => negb (hits e b)) bs) key)%nat.
Proof.
  intro H. unfold kills, blaster. cbn [find]. rewrite H. cbn [negb andb].
  induction bs as [| b bs IH]; cbn [filter].
  - destruct (String.eqb (Explosion.player_id e) key); reflexivity.
  - destruct (hits e b) eqn:Eh; cbn [negb filter].
    + destruct (String.eqb (Explosion.player_id e) key) eqn:Ek;
        cbn [List.length]; rewrite IH; reflexivity.
    + destruct (find (fun e0 => negb (expired now e0) && hits e0 b) es) as [e1 |];
        [destruct (String.eqb (Explosion.player_id e1) key) |];
        cbn [List.length]; rewrite IH; lia.
Qed.

(** The explosion loop, score by score. *)
Lemma explosion_scores (now : Q) :
  forall (es : list Explosion.t) (s : Sim),
    NoDup (dict_keys (Room.players (room s))) ->
    scores (Room.players (room (fold_left (explosion_step users now) es s)))
    = map (fun ks =>
             (fst ks, (snd ks + Z.of_nat (kills now es (Room.balloons (room s)) (fst ks)))%Z))
          (scores (Room.players (room s))).
Proof.
  induction es as [| e es IH]; intros s Hnd; cbn [fold_left].
  - rewrite <- (scores_raised_none (scores (Room.players (room s)))) at 1.
    apply map_ext. intros [k z]. cbn [fst snd]. rewrite kills_nil. reflexivity.
  - destruct (expired now e) eqn:Ee.
    + assert (explosion_step users now s e
              = on_room (fun r => Room.set_explosions r
                                    (list_remove Explosion.eqb e (Room.explosions r))) s)
        as -> by (unfold explosion_step; unfold expired in Ee; rewrite Ee; reflexivity).
      rewrite IH by exact Hnd.
      cbn [room on_room Room.players Room.balloons Room.set_explosions].
      apply map_ext. intros [k z]. cbn [fst snd].
      rewrite (kills_cons_expired now e es _ k Ee). reflexivity.
    + assert (explosion_step users now s e
              = fold_left (blast users e) (Room.balloons (room s)) s)
        as -> by (unfold explosion_step; unfold expired in Ee; rewrite Ee; reflexivity).
      destruct (blast_fold e (Room.balloons (room s)) [] s eq_refl (Forall_nil _))
        as (Hb & _ & Hp).
      cbv zeta in Hb, Hp. cbn [app] in Hb.
      pose proof (scores_set_score (Room.players (room s)) (Explosion.player_id e)
                    (Z.of_nat (List.length (filter (hits e) (Room.balloons (room s)))))
                    Hnd) as Hsc.
      assert (Room.players (room (fold_left (blast users e) (Room.balloons (room s)) s))
              = match dict_get (Room.players (room s)) (Explosion.player_id e) with
                | Some p =>
                    dict_set (Room.players (room s)) (Explosion.player_id e)
                      (Player.set_score p
                         (Player.score p
                          + Z.of_nat (List.length (filter (hits e) (Room.balloons (room s)))))%Z)
                | None => Room.players (room s)
                end) as Hpl.
      { destruct (dict_get (Room.players (room s)) (Explosion.player_id e)); apply Hp. }
      rewrite <- Hpl in Hsc.
      rewrite IH.
      * rewrite Hsc, Hb, map_map. apply map_ext. intros [k z]. cbn [fst snd].
        rewrite (kills_cons_live now e es _ k Ee).
        f_equal. destruct (String.eqb (Explosion.player_id e) k); lia.
      * rewrite <- scores_keys, Hsc.
        rewrite (scores_raised_keys
                   (fun k0 =>
                      if String.eqb (Explosion.player_id e) k0
                      then Z.of_nat (List.length (filter (hits e) (Room.balloons (room s))))
                      else 0%Z)).
        rewrite scores_keys. exact Hnd.
Qed.

Lemma advance_players_scores (now dt : Q) (d : dict Player.t) :
  scores (advance_players now dt d) = scores d.
Proof.
  unfold scores, advance_players. rewrite map_map. apply map_ext.
  intros [k p]. cbn [fst snd]. unfold advance_player. case_if; reflexivity.
Qed.

Lemma powerup_step_scores (env : Entropy) (s : Sim) (pu : Powerup.t) :
  scores (Room.players (room (powerup_step users env s pu)))
  = scores (Room.players (room s)).
Proof.
  unfold powerup_step.
  pose proof (powerup_scan_spec env (tick s) pu (Room.players (room s))) as H.
  destruct (powerup_scan env (tick s) pu (Room.players (room s)))
    as [[[d' who] k'] |]; [| reflexivity].
  destruct H as (pre & key & post & -> & _ & _ & -> & _).
  cbn [room Room.players Room.set_players]. unfold scores. rewrite !map_app.
  cbn [map fst snd]. destruct (Powerup.type pu); reflexivity.
Qed.

Lemma banana_step_scores (now : Q) (s : Sim) (bn : Banana.t) :
  scores (Room.players (room (banana_step now s bn))) = scores (Room.players (room s)).
Proof.
  unfold banana_step.
  pose proof (banana_scan_spec now bn (Room.players (room s))) as H.
  destruct (banana_scan now bn (Room.players (room s))) as [d' |]; [| reflexivity].
  destruct H as (pre & key & who & post & -> & _ & _ & _ & ->).
  cbn [room on_room Room.players Room.set_players Room.set_bananas].
  unfold scores. rewrite !map_app. reflexivity.
Qed.

Lemma blasted_spec (now : Q) (es : list Explosion.t) (b : Balloon.t) :
  blasted now es b = true
  <-> exists e,
        In e es /\ ~ Explosion.expires_at e < now
        /\ (Explosion.x e - Balloon.x b) * (Explosion.x e - Balloon.x b)
           + (Explosion.y e - Balloon.y b) * (Explosion.y e - Balloon.y b)
           <= inject_Z ((Explosion.radius e + Balloon.radius b) ^ 2).
Proof.
  unfold blasted. rewrite existsb_exists. split.
  - intros (e & Hin & He). apply andb_true_iff in He. destruct He as [Hl Hh].
    exists e. split; [exact Hin |]. split.
    + intro Hlt. apply Qltb_lt in Hlt. unfold expired in Hl. rewrite Hlt in Hl.
      discriminate.
    + unfold hits in Hh. apply Qle_bool_iff in Hh. exact Hh.
  - intros (e & Hin & Hl & Hh). exists e. split; [exact Hin |].
    apply andb_true_iff. split.
    + unfold expired. destruct (Qltb (Explosion.expires_at e) now) eqn:E; [| reflexivity].
      apply Qltb_lt in E. contradiction.
    + unfold hits. apply Qle_bool_iff. exact Hh.
Qed.

(** The explosion loop and the pickup loops after it, from any state. *)
Lemma late_stages_explosions (env : Entropy) (now : Q) (s6 : Sim) :
  NoDup (dict_keys (Room.players (room s6))) ->
  Room.explosions
    (room (collect_bananas now
             (collect_powerups users env (resolve_explosions users now s6))))
  = filter (fun e => negb (expired now e)) (Room.explosions (room s6))
  /\ Room.balloons
       (room (collect_bananas now
                (collect_powerups users env (resolve_explosions users now s6))))
     = filter (fun b => negb (blasted now (Room.explosions (room s6)) b))
              (Room.balloons (room s6))
  /\ scores
       (Room.players
          (room (collect_bananas now
                   (collect_powerups users env (resolve_explosions users now s6)))))
     = map (fun ks =>
              (fst ks,
               (snd ks
                + Z.of_nat (kills now (Room.explosions (room s6))
                              (Room.balloons (room s6)) (fst ks)))%Z))
           (scores (Room.players (room s6))).
Proof.
  intro Hnd.
  destruct (explosion_fold now (Room.explosions (room s6)) [] s6 eq_refl (Forall_nil _))
    as (H8e & H8b).
  cbv zeta in H8e, H8b. cbn [app] in H8e.
  pose proof (explosion_scores now (Room.explosions (room s6)) s6 Hnd) as H8s.
  unfold resolve_explosions.
  remember (fold_left (explosion_step users now) (Room.explosions (room s6)) s6)
    as s8 eqn:E8.
  destruct (pickups_keep_fuses env now s8) as [_ H9e]. cbv zeta in H9e.
  split; [rewrite H9e; exact H8e |].
  split.
  { rewrite (proj1 (collect_bananas_items now _)), (proj1 (collect_powerups_items env s8)).
    exact H8b. }
  unfold collect_bananas, collect_powerups.
  rewrite (fold_left_keeps (banana_step now) (fun s => scores (Room.players (room s))))
    by (intros; apply banana_step_scores).
  rewrite (fold_left_keeps (powerup_step users env)
             (fun s => scores (Room.players (room s))))
    by (intros; apply powerup_step_scores).
  exact H8s.
Qed.

(** C6. Explosion resolution in [_advance_room]. Of the explosions that enter
    the loop (those of the room followed by the ones the fuse loop has just
    made), the ones past [expires_at] are removed and destroy nothing, the
    others stay. Of the falling balloons that enter it (those of the room
    after their motion, followed by the spawned ones), exactly those are
    destroyed that some unexpired explosion overlaps, that is with
    [dx*dx + dy*dy <= (radius + balloon radius)^2]; the others stay, in
    order. Every player of the room ends the call with the score it had plus
    one for each balloon destroyed by an explosion it owns (the first
    unexpired explosion, in list order, that overlaps the balloon); balloons
    destroyed by an explosion whose owner has left score for nobody. The
    room's player keys are taken to be distinct, as the keys of a dict are. *)
Theorem advance_room_explosions (env : Entropy) (s : Sim) (now : Q) :
  NoDup (dict_keys (Room.players (room s))) ->
  let s6 := at_explosions env s now in
  let es := Room.explosions (room s6) in
  let bs := Room.balloons (room s6) in
  let r' := room (_advance_room users env s now) in
  Room.explosions r' = filter (fun e => negb (expired now e)) es
  /\ Room.balloons r' = filter (fun b => negb (blasted now es b)) bs
  /\ (forall b,
        blasted now es b = true
        <-> exists e,
              In e es /\ ~ Explosion.expires_at e < now
              /\ (Explosion.x e - Balloon.x b) * (Explosion.x e - Balloon.x b)
                 + (Explosion.y e - Balloon.y b) * (Explosion.y e - Balloon.y b)
                 <= inject_Z ((Explosion.radius e + Balloon.radius b) ^ 2))
  /\ scores (Room.players r')
     = map (fun ks => (fst ks, (snd ks + Z.of_nat (kills now es bs (fst ks)))%Z))
           (scores (Room.players (room s)))
  /\ (exists k,
        es = Room.explosions (room s)
             ++ detonate env now k
                  (filter (fuse_due now) (Room.placed_balloons (room s))))
  /\ (exists spawned,
        bs = advance_balloons (elapsed (room s) now) (Room.balloons (room s)) ++ spawned).
Proof.
  intro Hnd. cbv zeta.
  destruct (at_explosions_holds env s now) as (H6p & H6b & H6e). cbv zeta in H6p, H6b, H6e.
  assert (NoDup (dict_keys (Room.players (room (at_explosions env s now))))) as Hnd6.
  { rewrite <- scores_keys, H6p, advance_players_scores, scores_keys. exact Hnd. }
  destruct (late_stages_explosions env now (at_explosions env s now) Hnd6)
    as (He & Hb & Hs).
  rewrite advance_room_from_explosions.
  split; [exact He |]. split; [exact Hb |].
  split; [intro b; apply blasted_spec |].
  split; [| split; [exact H6e | exact H6b]].
  rewrite Hs, H6p, advance_players_scores. reflexivity.
Qed.

(** ** The clock *)






End Properties.

(* ------------------------------------------------------------------ *)
(** * Examples *)

Lemma advance_room_spawn_accum_unit_witness :
  0 <= Room.spawn_accum (room (_advance_room sample_users (sample_env 0) sample_sim (10005 # 100)))
  /\ Room.spawn_accum (room (_advance_room sample_users (sample_env 0) sample_sim (10005 # 100))) < 1.
Proof.
  apply (advance_room_spawn_accum_unit sample_users (sample_env 0) sample_sim (10005 # 100)).
  cbn. split; lra.
Defined.

Lemma api_poll_keeps_poller_witness :
  exists room1 player1,
    dict_get (ROOMS (snd (api_poll sample_users (sample_env 0) sample_server "lobby" "p1")))
             "lobby" = Some room1
    /\ dict_get (Room.players room1) "p1" = Some player1
    /\ Player.last_seen player1 = _now (sample_env 0) (reads sample_server).
Proof.
  apply (api_poll_keeps_poller sample_users (sample_env 0) sample_server "lobby" "p1"
           sample_room (sample_player "p1" 400)).
  - reflexivity.
  - reflexivity.
  - repeat constructor; simpl; intuition discriminate.
Defined.

Lemma api_input_place_balloon_witness :
  fst (api_input sample_users (sample_env 0) sample_server "lobby" "p1" (Some 1) true false)
  = ok_true.
Proof.
  exact (proj1 (api_input_place_balloon sample_users (sample_env 0) sample_server "lobby" "p1"
                  sample_room (sample_player "p1" 400) 1 false eq_refl eq_refl)).
Defined.



Lemma advance_room_deterministic_witness :
  _advance_room sample_users (sample_env 0) sample_sim (10005 # 100)
  = _advance_room sample_users (sample_env_until 6) sample_sim (10005 # 100).
Proof.
  apply (advance_room_deterministic sample_users (sample_env 0) (sample_env_until 6)
           sample_sim (10005 # 100)).
  intros k Hk.
  assert (k < 6)%nat as Hlt by (vm_compute in Hk; lia).
  clear Hk. cbn [sample_env_until random_random random_index uuid4_hex time_monotonic].
  apply Nat.ltb_lt in Hlt. rewrite Hlt. repeat split.
Defined.

Lemma cleanup_players_keeps_fresh_witness :
  _cleanup_players sample_room 131
  = Room.set_players sample_room
      (filter (fun kp => Qle_bool (131 - Player.last_seen (snd kp)) PLAYER_TIMEOUT)
              (Room.players sample_room)).
Proof.
  apply (cleanup_players_keeps_fresh sample_room 131).
  repeat constructor; simpl; intuition discriminate.
Defined.

Lemma api_poll_evicts_stale_witness :
  exists room1,
    dict_get (ROOMS (snd (api_poll sample_users (sample_env 0) sample_idle_server "lobby" "p1")))
             "lobby" = Some room1
    /\ dict_get (Room.players room1) "p2" = None.
Proof.
  destruct (api_poll_evicts_stale sample_users (sample_env 0) sample_idle_server "lobby" "p1"
              sample_idle_room (sample_player "p1" 400) eq_refl eq_refl)
    as (room1 & Hr & Hev & _).
  - repeat constructor; simpl; intuition discriminate.
  - exists room1. split; [exact Hr |].
    apply (proj1 (Hev "p2"%string
                    (Player.set_last_seen (sample_player "p2"%string 405) 60)
                    ltac:(discriminate) eq_refl)).
    vm_compute. reflexivity.
Defined.

Lemma api_input_touches_one_player_witness :
  exists room1,
    dict_get (ROOMS (snd (api_input sample_users (sample_env 0) sample_server
                             "lobby" "p1" (Some 1) true true)))
             "lobby" = Some room1
    /\ Room.balloons room1 = Room.balloons sample_room.
Proof.
  destruct (api_input_touches_one_player sample_users (sample_env 0) sample_server "lobby" "p1"
              sample_room (sample_player "p1" 400) (Some 1) true true eq_refl eq_refl)
    as (room1 & H1 & _ & H2 & _).
  exists room1. split; assumption.
Defined.

Lemma api_input_clamps_move_witness :
  exists room1 player1,
    dict_get (ROOMS (snd (api_input sample_users (sample_env 0) sample_server
                             "lobby" "p1" (Some 5) false false)))
             "lobby" = Some room1
    /\ dict_get (Room.players room1) "p1" = Some player1
    /\ Player.vx player1 = 1.0.
Proof.
  destruct (api_input_clamps_move sample_users (sample_env 0) sample_server "lobby" "p1"
              sample_room (sample_player "p1" 400) (Some 5) false false eq_refl eq_refl)
    as (room1 & player1 & H1 & H2 & _ & _ & _ & _ & _ & _ & _ & _ & _ & _ & _ & H3 & _).
  exists room1, player1. repeat split; try assumption. apply H3. lra.
Defined.

Lemma api_input_place_banana_witness :
  fst (api_input sample_users (sample_env 0) sample_server "lobby" "p1" (Some 0) false true)
  = ok_true.
Proof.
  destruct (proj1 (api_input_place_banana sample_users (sample_env 0) sample_server
                     "lobby" "p1" sample_room (sample_player "p1" 400) 0 false
                     eq_refl eq_refl))
    as (room1 & player1 & H & _).
  exact H.
Defined.


Lemma advance_room_moves_players_little_witness :
  Forall2
    (fun kp kp' =>
       fst kp = fst kp'
       /\ Player.x (snd kp) - PLAYER_SPEED * 0.05 * Player.speed_mult (snd kp)
          <= Player.x (snd kp')
       /\ Player.x (snd kp')
          <= Player.x (snd kp) + PLAYER_SPEED * 0.05 * Player.speed_mult (snd kp))
    (Room.players (room sample_sim))
    (Room.players (room (_advance_room sample_users (sample_env 0) sample_sim 1000))).
Proof.
  apply (advance_room_moves_players_little sample_users (sample_env 0) sample_sim 1000).
  repeat constructor; cbn; unfold Qle; simpl; lia.
Defined.

Lemma advance_room_drops_escaped_balloons_witness :
  Forall (fun b => inject_Z (- BALLOON_RADIUS) <= Balloon.y b)
         (Room.balloons (room (_advance_room sample_users (sample_env 0) sample_sim (10005 # 100)))).
Proof.
  apply (advance_room_drops_escaped_balloons sample_users (sample_env 0) sample_sim (10005 # 100)).
  apply sample_env_unit_draws.
Defined.

Lemma new_balloon_starts_below_arena_witness :
  inject_Z (GAME_HEIGHT + BALLOON_RADIUS) <= Balloon.y (fst (_new_balloon (sample_env 0) 0)).
Proof.
  exact (proj1 (proj2 (proj2 (new_balloon_starts_below_arena (sample_env 0) 0
                                (sample_env_unit_draws 0))))).
Defined.

Lemma spawned_powerups_can_be_taken_witness :
  exists pu,
    room (_spawn_banana_powerup (sample_env 0) sample_sim)
    = Room.set_powerups (room sample_sim) (Room.powerups (room sample_sim) ++ [pu])
    /\ Powerup.type pu = banana.
Proof.
  destruct (proj2 (spawned_powerups_can_be_taken (sample_env 0) sample_sim
                     (sample_env_unit_draws 0))) as (pu & H1 & H2 & _).
  exists pu. split; assumption.
Defined.

Lemma advance_room_timers_in_range_witness :
  Room.powerup_timer (room (_advance_room sample_users (sample_env 0) sample_sim 1000))
  < POWERUP_SPAWN_INTERVAL.
Proof.
  refine (proj1 (proj2 (advance_room_timers_in_range sample_users (sample_env 0) sample_sim 1000 _ _)));
    cbn; lra.
Defined.

Lemma url_prefix_normalised_witness :
  root_redirect (Some "balloono//"%string) = redirect_to "/balloono/"%string.
Proof.
  refine (proj2 (proj2 (proj2 (proj2 (proj2
            (url_prefix_normalised (Some "balloono//"%string)))))) _).
  vm_compute. discriminate.
Defined.

Lemma should_skip_by_part_witness :
  should_skip ["static"; ".git"; "config"]%string = true.
Proof.
  apply (proj1 (should_skip_by_part ["static"; ".git"; "config"]%string [])).
  exists ".git"%string. split; [right; left; reflexivity | left; reflexivity].
Defined.

Lemma api_join_adds_player_witness :
  api_join (sample_env 0) sample_server None "lobby" = (unauthorized, sample_server, None).
Proof.
  exact (proj1 (api_join_adds_player (sample_env 0) sample_server sample_user "lobby")).
Defined.

(** C2 as stated fails: from the same room and [now], two runs whose random
    and uuid draws differ spawn different balloons. *)
Lemma advance_room_depends_on_draws :
  ~ (forall (users : Z -> bool) (e1 e2 : Entropy) (s : Sim) (now : Q),
       room (_advance_room users e1 s now) = room (_advance_room users e2 s now)).
Proof.
  intro H.
  specialize (H sample_users (sample_env 0) (sample_env 1) sample_sim (10005 # 100)).
  apply (f_equal (fun r => map Balloon.id (Room.balloons r))) in H.
  vm_compute in H. discriminate H.
Qed.


(** C5 as stated fails: a request whose [move] does not convert to a float
    is answered with a server error, whether or not the balloon could be
    placed, and places nothing. *)
Lemma api_input_bad_move_fails :
  ~ (forall (users : Z -> bool) (env : Entropy) (srv : Server)
            (room_id player_id : string) (move : option Q) (place_banana : bool)
            (room0 : Room.t) (player : Player.t),
       dict_get (ROOMS srv) room_id = Some room0 ->
       dict_get (Room.players room0) player_id = Some player ->
       fst (api_input users env srv room_id player_id move true place_banana) = ok_true).
Proof.
  intro H.
  specialize (H sample_users (sample_env 0) sample_server "lobby"%string "p1"%string
                None false sample_room (sample_player "p1"%string 400) eq_refl eq_refl).
  vm_compute in H. discriminate H.
Qed.

Lemma advance_room_explosions_witness :
  scores (Room.players (room (_advance_room sample_users (sample_env 0) sample_sim 100)))
  = map (fun ks =>
           (fst ks,
            (snd ks
             + Z.of_nat
                 (kills 100
                    (Room.explosions (room (at_explosions (sample_env 0) sample_sim 100)))
                    (Room.balloons (room (at_explosions (sample_env 0) sample_sim 100)))
                    (fst ks)))%Z))
        (scores (Room.players (room sample_sim))).
Proof.
  refine (proj1 (proj2 (proj2 (proj2
            (advance_room_explosions sample_users (sample_env 0) sample_sim 100 _))))).
  repeat constructor; simpl; intuition discriminate.
Defined.


